(** * ReFoodAI: the calculators of the waste-management backend

    A shallow embedding of the TypeScript services under
    [backend/src/ai] (statistics toolkit, the two forecast
    implementations, menu planner, pickup/route optimiser and impact
    projector), followed by the properties established about them.

    JavaScript numbers are IEEE-754 doubles.  Every calculator is written
    once, over an interface [JSNumber] of the arithmetic the code uses, and
    the interface has two instances:

    - [float_JSNumber]: Rocq's primitive binary64 floats, which compute
      exactly what the code computes (NaN, infinities and rounding
      included);
    - [R_JSNumber]: the real numbers, the exact arithmetic the formulas
      denote when nothing overflows, is rounded or divided by zero.

    Properties that only depend on the control flow are proved for every
    instance or for the doubles; arithmetic facts that rounding only
    approximates are proved over the reals. *)

From Stdlib Require Import List String Ascii Bool Arith ZArith Lia.
From Stdlib Require Import Floats Reals Lra Permutation.
From Stdlib Require Import DecimalString DecimalNat.
Import ListNotations.

Set Implicit Arguments.
Open Scope string_scope.
Open Scope list_scope.

(* ================================================================== *)
(** * JavaScript numbers *)
(* ================================================================== *)

Declare Scope js_scope.
Delimit Scope js_scope with js.

Class JSNumber (num : Type) : Type := {
  num_of_Z : Z -> num;          (* integer literals, array lengths *)
  nadd : num -> num -> num;
  nsub : num -> num -> num;
  nmul : num -> num -> num;
  ndiv : num -> num -> num;
  nopp : num -> num;
  nltb : num -> num -> bool;    (* [<]  *)
  nleb : num -> num -> bool;    (* [<=] *)
  neqb : num -> num -> bool;    (* [===] on numbers *)
  Math_sqrt : num -> num;
  Math_abs : num -> num;
  Math_floor : num -> num;
  Math_round : num -> num
}.

Infix "+" := nadd : js_scope.
Infix "-" := nsub : js_scope.
Infix "*" := nmul : js_scope.
Infix "/" := ndiv : js_scope.
Infix "<?" := nltb : js_scope.
Infix "<=?" := nleb : js_scope.
Infix "=?" := neqb : js_scope.

Section JSNumberOps.
Context {num : Type} `{JSNumber num}.

(** A decimal literal [m / 10^k], e.g. [lit 55 1] for [5.5].  On doubles
    the correctly rounded quotient of two exactly representable integers
    is the double the literal denotes. *)
Definition lit (m : Z) (k : nat) : num :=
  match k with
  | O => num_of_Z m
  | _ => (num_of_Z m / num_of_Z (10 ^ Z.of_nat k))%js
  end.

Definition num_of_nat (n : nat) : num := num_of_Z (Z.of_nat n).

Definition ngtb (a b : num) : bool := (b <? a)%js.
Definition ngeb (a b : num) : bool := (b <=? a)%js.

(** [x !== x] holds of NaN only. *)
Definition isNaN (x : num) : bool := negb (x =? x)%js.

(** [Math.max] and [Math.min] of two arguments: NaN if either is. *)
Definition Math_max (a b : num) : num :=
  if isNaN a then a else if isNaN b then b
  else if (a <? b)%js then b else a.

Definition Math_min (a b : num) : num :=
  if isNaN a then a else if isNaN b then b
  else if (b <? a)%js then b else a.

Definition Math_ceil (x : num) : num := nopp (Math_floor (nopp x)).

(** Truthiness of a number: [0], [-0] and [NaN] are falsy. *)
Definition truthy (x : num) : bool :=
  negb (x =? num_of_Z 0)%js && negb (isNaN x).

(** [x || d] on numbers. *)
Definition or_default (x d : num) : num := if truthy x then x else d.

(** [o?.f || d] and [o.f || d] for an optional numeric field. *)
Definition opt_or_default (x : option num) (d : num) : num :=
  match x with Some v => or_default v d | None => d end.

(** [xs.reduce((s, v) => s + v, 0)]. *)
Definition sum (xs : list num) : num :=
  fold_left (fun s v => (s + v)%js) xs (num_of_Z 0).

(** [xs.reduce((s, d) => s + f(d), 0)]. *)
Definition sum_by {A : Type} (f : A -> num) (xs : list A) : num :=
  fold_left (fun s d => (s + f d)%js) xs (num_of_Z 0).

(** [xs.reduce((s, d) => s + f(d), 0) / xs.length]. *)
Definition average_by {A : Type} (f : A -> num) (xs : list A) : num :=
  (sum_by f xs / num_of_nat (List.length xs))%js.
End JSNumberOps.

(** ** Doubles *)

Definition float_of_Z (z : Z) : float :=
  if (z <? 0)%Z then PrimFloat.opp (PrimFloat.of_uint63 (Uint63.of_Z (- z)))
  else PrimFloat.of_uint63 (Uint63.of_Z z).

Definition signed_mantissa (s : bool) (m : positive) : Z :=
  if s then Z.neg m else Z.pos m.

Definition float_signed_zero (s : bool) : float :=
  if s then PrimFloat.opp PrimFloat.zero else PrimFloat.zero.

(** [Math.floor]: a finite double is [±m * 2^e]; with [e >= 0] it is an
    integer already, otherwise the quotient by [2^-e] is taken in [Z]. *)
Definition float_floor (x : float) : float :=
  match Prim2SF x with
  | S754_finite s m e =>
      if (0 <=? e)%Z then x
      else float_of_Z (Z.shiftr (signed_mantissa s m) (- e))
  | _ => x
  end.

(** [Math.round]: the nearest integer, ties towards positive infinity;
    [floor (x + 1/2)] computed exactly in [Z].  Values in [[-0.5, 0)] give
    [-0]. *)
Definition float_round (x : float) : float :=
  match Prim2SF x with
  | S754_finite s m e =>
      if (0 <=? e)%Z then x
      else
        let k := (- e)%Z in
        let q := Z.shiftr (2 * signed_mantissa s m + 2 ^ k) (k + 1) in
        if (q =? 0)%Z then float_signed_zero s else float_of_Z q
  | _ => x
  end.

#[export] Instance float_JSNumber : JSNumber float := {
  num_of_Z := float_of_Z;
  nadd := PrimFloat.add;
  nsub := PrimFloat.sub;
  nmul := PrimFloat.mul;
  ndiv := PrimFloat.div;
  nopp := PrimFloat.opp;
  nltb := PrimFloat.ltb;
  nleb := PrimFloat.leb;
  neqb := PrimFloat.eqb;
  Math_sqrt := PrimFloat.sqrt;
  Math_abs := PrimFloat.abs;
  Math_floor := float_floor;
  Math_round := float_round
}.

(** ** Exact arithmetic *)

Definition Rltb (a b : R) : bool := if Rlt_dec a b then true else false.
Definition Rleb (a b : R) : bool := if Rle_dec a b then true else false.
Definition Reqb (a b : R) : bool := if Req_dec_T a b then true else false.
Definition Rfloor (x : R) : R := IZR (Int_part x).
Definition Rround (x : R) : R := Rfloor (x + / 2)%R.

#[export] Instance R_JSNumber : JSNumber R := {
  num_of_Z := IZR;
  nadd := Rplus;
  nsub := Rminus;
  nmul := Rmult;
  ndiv := Rdiv;
  nopp := Ropp;
  nltb := Rltb;
  nleb := Rleb;
  neqb := Reqb;
  Math_sqrt := R_sqrt.sqrt;
  Math_abs := Rabs;
  Math_floor := Rfloor;
  Math_round := Rround
}.

(* ================================================================== *)
(** * Strings *)
(* ================================================================== *)

(** [String.prototype.toLowerCase] on ASCII text: the letters A to Z are
    folded and every other character is kept.  The method also folds the
    cased letters outside ASCII; a property that depends on the folding is
    stated for ASCII text ([is_ascii]). *)
Definition lower_ascii (c : ascii) : ascii :=
  let n := nat_of_ascii c in
  if (65 <=? n)%nat && (n <=? 90)%nat then ascii_of_nat (n + 32) else c.

Fixpoint toLowerCase (s : string) : string :=
  match s with
  | EmptyString => EmptyString
  | String c s' => String (lower_ascii c) (toLowerCase s')
  end.

(** [s.includes(sub)]. *)
Fixpoint includes (sub s : string) : bool :=
  String.prefix sub s ||
  match s with
  | EmptyString => false
  | String _ s' => includes sub s'
  end.

(** [s.startsWith(p)]. *)
Definition startsWith (p s : string) : bool := String.prefix p s.

(** [s.split(':')[0]]: the text before the first colon. *)
Fixpoint before_colon (s : string) : string :=
  match s with
  | EmptyString => EmptyString
  | String c s' =>
      if Ascii.eqb c ":"%char then EmptyString else String c (before_colon s')
  end.

(** [o || d] for an optional string: [undefined] and [''] are falsy. *)
Definition str_or_default (o : option string) (d : string) : string :=
  match o with
  | Some s => if String.eqb s EmptyString then d else s
  | None => d
  end.

(** The decimal rendering of a counter, as a template literal prints it. *)
Definition string_of_nat (n : nat) : string :=
  NilEmpty.string_of_uint (Nat.to_uint n).

(** Lookup in an object literal or [Map] keyed by strings, among its own
    keys.  An object literal read with a name it inherits from
    [Object.prototype] ([constructor], [__proto__], ...) answers with the
    inherited member instead of [undefined]; a property that depends on the
    value read with a free key is stated for the other keys
    ([plain_key]). *)
Fixpoint lookup {A : Type} (k : string) (m : list (string * A)) : option A :=
  match m with
  | [] => None
  | (k', v) :: m' => if String.eqb k k' then Some v else lookup k m'
  end.

(** [Map.prototype.set]: the value of an existing key is replaced where the
    key stands, a new key is appended (insertion order is kept). *)
Fixpoint map_set {A : Type} (k : string) (v : A) (m : list (string * A))
  : list (string * A) :=
  match m with
  | [] => [(k, v)]
  | (k', v') :: m' =>
      if String.eqb k k' then (k, v) :: m' else (k', v') :: map_set k v m'
  end.

(** [Array.prototype.sort(cmp)], stable as ECMAScript 2019 requires: an
    element moves past those the comparator puts strictly before it. *)
Section Sort.
Context {A : Type} (after : A -> A -> bool).

(** [after x y]: [cmp(x, y) > 0]. *)
Fixpoint sort_insert (x : A) (l : list A) : list A :=
  match l with
  | [] => [x]
  | y :: l' => if after x y then y :: sort_insert x l' else x :: l
  end.

Fixpoint js_sort (l : list A) : list A :=
  match l with
  | [] => []
  | x :: l' => sort_insert x (js_sort l')
  end.
End Sort.

(** [arr.slice(-n)]: the last [n] elements. *)
Definition slice_last {A : Type} (n : nat) (l : list A) : list A :=
  skipn (List.length l - n) l.

(** [arr.slice(-a, -b)] for [a >= b]. *)
Definition slice_between {A : Type} (a b : nat) (l : list A) : list A :=
  let len := List.length l in
  firstn ((len - b) - (len - a)) (skipn (len - a) l).

(* ================================================================== *)
(** * Record store (utils/dataLoader.ts) *)
(* ================================================================== *)

Module DailyProduction.
Record t (num : Type) : Type := {
  date : string;
  day_of_week : string;
  menu_item : string;
  category : string;
  quantity_prepared : num;
  quantity_served : num;
  quantity_wasted : num;
  waste_percentage : num;
  estimated_students : num;
  weather : string;
  special_event : string;
  temperature_f : num
}.
End DailyProduction.

Module PickupOperation.
Record t (num : Type) : Type := {
  pickup_id : string;
  date : string;
  pickup_time : string;
  source_location : string;
  destination_partner : string;
  food_type : string;
  quantity_lbs : num;
  distance_miles : num;
  volunteer_driver : string;
  transport_cost : num;
  meals_equivalent : num;
  co2_saved_lbs : num;
  pickup_status : string
}.
End PickupOperation.

Module ExternalFactor.
Record t (num : Type) : Type := {
  date : string;
  day_of_week : string;
  month : string;
  is_weekend : bool;
  is_holiday : bool;
  holiday_name : string;
  weather_condition : string;
  temperature_f : num;
  precipitation_inches : num;
  campus_event : string;
  student_population_factor : num;
  semester_status : string;
  local_event : string
}.
End ExternalFactor.

Module MenuPlanning.
Record t (num : Type) : Type := {
  week_start_date : string;
  menu_category : string;
  dish_name : string;
  dish_type : string;
  preparation_time_hours : num;
  ingredient_cost_per_serving : num;
  selling_price : num;
  shelf_life_hours : num;
  popularity_score : num;
  nutritional_category : string;
  season_appropriateness : string;
  prep_difficulty : string;
  equipment_needed : string;
  allergens : string
}.
End MenuPlanning.

Module ImpactTracking.
Record t (num : Type) : Type := {
  date : string;
  day_of_week : string;
  food_cost_daily : num;
  food_waste_cost_daily : num;
  food_rescued_lbs_daily : num;
  money_saved_daily : num;
  co2_emissions_avoided_lbs_daily : num;
  meals_provided_to_community_daily : num;
  volunteer_hours_daily : num;
  transport_costs_daily : num;
  operational_savings_daily : num;
  waste_disposal_cost_avoided_daily : num;
  active_partner_orgs_daily : num;
  community_impact_score_daily : num
}.
End ImpactTracking.

(** The host's [Date]: what the services read from a date string.  The
    answers depend on the time zone and locale of the process, hence a
    parameter; they do not change between two calls. *)
Record Host (num : Type) : Type := {
(* [new Date(d).toLocaleDateString('en-US', { weekday: 'long' })] *)
weekday_long : string -> string;
(* [new Date(d).getMonth()], 0 to 11 *)
getMonth : string -> num;
(* [new Date(d).getDay()], 0 (Sunday) to 6 *)
getDay : string -> num;
(* [new Date(d).getTime()] *)
getTime : string -> num;
(* [`${new Date(d).getTime()}`] *)
getTime_string : string -> string;
(* the time of [c = new Date(d); c.setDate(c.getDate() - 30)] *)
getTime_30_days_before : string -> num
}.

(** ** A host in the UTC time zone

    What [Date] answers for ISO dates [YYYY-MM-DD] when the process runs in
    UTC.  Any other string is an invalid date here. *)

Definition digit_of (c : ascii) : option Z :=
  let n := nat_of_ascii c in
  if (48 <=? n)%nat && (n <=? 57)%nat then Some (Z.of_nat (n - 48)) else None.

Fixpoint digits_value (acc : Z) (cs : list ascii) : option Z :=
  match cs with
  | [] => Some acc
  | c :: cs' =>
      match digit_of c with
      | Some d => digits_value (10 * acc + d) cs'
      | None => None
      end
  end.

(** Year, month (1 to 12) and day of [YYYY-MM-DD]. *)
Definition parse_iso_date (s : string) : option (Z * Z * Z) :=
  match list_ascii_of_string s with
  | [y1; y2; y3; y4; d1; m1; m2; d2; a1; a2] =>
      if Ascii.eqb d1 "-"%char && Ascii.eqb d2 "-"%char then
        match digits_value 0 [y1; y2; y3; y4], digits_value 0 [m1; m2],
              digits_value 0 [a1; a2] with
        | Some y, Some m, Some d =>
            if (1 <=? m)%Z && (m <=? 12)%Z && (1 <=? d)%Z && (d <=? 31)%Z
            then Some (y, m, d) else None
        | _, _, _ => None
        end
      else None
  | _ => None
  end.

(** Days since 1970-01-01 in the proleptic Gregorian calendar. *)
Definition days_from_civil (y m d : Z) : Z :=
  let y' := (if m <=? 2 then y - 1 else y)%Z in
  let era := (y' / 400)%Z in
  let yoe := (y' - era * 400)%Z in
  let mp := ((m + 9) mod 12)%Z in
  let doy := ((153 * mp + 2) / 5 + d - 1)%Z in
  let doe := (yoe * 365 + yoe / 4 - yoe / 100 + doy)%Z in
  (era * 146097 + doe - 719468)%Z.

Definition epoch_days (s : string) : option Z :=
  match parse_iso_date s with
  | Some (y, m, d) => Some (days_from_civil y m d)
  | None => None
  end.

Definition weekday_name (n : Z) : string :=
  match n with
  | 0%Z => "Sunday" | 1%Z => "Monday" | 2%Z => "Tuesday" | 3%Z => "Wednesday"
  | 4%Z => "Thursday" | 5%Z => "Friday" | _ => "Saturday"
  end.

Definition string_of_Z (z : Z) : string := NilZero.string_of_int (Z.to_int z).

Section UtcHost.
Context {num : Type} `{JSNumber num}.

Definition of_days (f : Z -> num) (s : string) : num :=
  match epoch_days s with
  | Some n => f n
  | None => (num_of_Z 0 / num_of_Z 0)%js
  end.

Definition utc_host : Host num :=
  {| weekday_long := fun s =>
       match epoch_days s with
       | Some n => weekday_name ((n + 4) mod 7)
       | None => "Invalid Date"
       end;
     getMonth := fun s =>
       match parse_iso_date s with
       | Some (_, m, _) => num_of_Z (m - 1)
       | None => (num_of_Z 0 / num_of_Z 0)%js
       end;
     getDay := of_days (fun n => num_of_Z ((n + 4) mod 7));
     getTime := of_days (fun n => num_of_Z (n * 86400000));
     getTime_string := fun s =>
       match epoch_days s with
       | Some n => string_of_Z (n * 86400000)
       | None => "NaN"
       end;
     getTime_30_days_before := of_days (fun n => num_of_Z ((n - 30) * 86400000)) |}.
End UtcHost.

(* ================================================================== *)
(** * Statistics toolkit (utils/statistics.ts) *)
(* ================================================================== *)

Module Statistics.
Section S.
Context {num : Type} `{JSNumber num}.
Local Open Scope js_scope.

(** [0 / 0]; what arithmetic on [undefined] yields. *)
Definition NaN : num := num_of_Z 0 / num_of_Z 0.

(** [x.reduce((acc, xi, i) => acc + xi * y[i], acc0)]; past the end of
    [y], [y[i]] is [undefined] and the product NaN. *)
Fixpoint sum_products (acc : num) (x y : list num) : num :=
  match x with
  | [] => acc
  | xi :: x' =>
      match y with
      | yi :: y' => sum_products (acc + xi * yi) x' y'
      | [] => sum_products (acc + xi * NaN) x' []
      end
  end.

Definition sum_squares (x : list num) : num :=
  fold_left (fun acc xi => acc + xi * xi) x (num_of_Z 0).

Definition correlation_numerator (x y : list num) : num :=
  let n := num_of_nat (List.length x) in
  n * sum_products (num_of_Z 0) x y - sum x * sum y.

Definition correlation_denominator (x y : list num) : num :=
  let n := num_of_nat (List.length x) in
  let sumX := sum x in
  let sumY := sum y in
  Math_sqrt ((n * sum_squares x - sumX * sumX) * (n * sum_squares y - sumY * sumY)).

Definition correlation (x y : list num) : num :=
  let numerator := correlation_numerator x y in
  let denominator := correlation_denominator x y in
  if denominator =? num_of_Z 0 then num_of_Z 0 else numerator / denominator.

(** ** Multiple regression through the normal equations *)

(** [row[j]] and [matrix[i][j]]; a missing entry is [undefined], NaN in
    arithmetic. *)
Definition at_index (j : nat) (row : list num) : num := nth j row NaN.
Definition at_cell (i j : nat) (m : list (list num)) : num :=
  at_index j (nth i m []).

(** [matrix[0].map((_, c) => matrix.map(row => row[c]))]. *)
Definition transpose (matrix : list (list num)) : list (list num) :=
  map (fun c => map (at_index c) matrix)
      (seq 0 (List.length (hd [] matrix))).

(** [features.reduce((sum, f, i) => sum + f * coefficients[i], 0)]. *)
Definition predictWithCoefficients (features coefficients : list num) : num :=
  sum_products (num_of_Z 0) features coefficients.

Definition multiplyMatrices (a b : list (list num)) : list (list num) :=
  map (fun row_a =>
         map (fun j =>
                fold_left (fun s k => s + at_index k row_a * at_cell k j b)
                          (seq 0 (List.length b)) (num_of_Z 0))
             (seq 0 (List.length (hd [] b))))
      a.

Definition multiplyMatrixVector (matrix : list (list num)) (vector : list num)
  : list num :=
  map (fun row => sum_products (num_of_Z 0) row vector) matrix.

Fixpoint set_row (i : nat) (r : list num) (m : list (list num))
  : list (list num) :=
  match m, i with
  | [], _ => []
  | _ :: m', O => r :: m'
  | x :: m', S i' => x :: set_row i' r m'
  end.

(** The row with the largest [|augmented[k][i]|] among [k >= i], the first
    one on ties. *)
Definition find_pivot (augmented : list (list num)) (n i : nat) : nat :=
  fold_left
    (fun maxRow k =>
       if Math_abs (at_cell maxRow i augmented) <? Math_abs (at_cell k i augmented)
       then k else maxRow)
    (seq (S i) (n - S i)) i.

Definition swap_rows (i j : nat) (m : list (list num)) : list (list num) :=
  let ri := nth i m [] in
  let rj := nth j m [] in
  set_row j ri (set_row i rj m).

(** [augmented[k][j] -= factor * augmented[i][j]] for [j] from [i]. *)
Definition eliminate_row (i : nat) (pivot_row row_k : list num) : list num :=
  let factor := at_index i row_k / at_index i pivot_row in
  map (fun j =>
         if (j <? i)%nat then at_index j row_k
         else at_index j row_k - factor * at_index j pivot_row)
      (seq 0 (List.length row_k)).

Definition eliminate_column (n : nat) (augmented : list (list num)) (i : nat)
  : list (list num) :=
  let maxRow := find_pivot augmented n i in
  let swapped := swap_rows i maxRow augmented in
  let pivot_row := nth i swapped [] in
  map (fun k =>
         if (i <? k)%nat then eliminate_row i pivot_row (nth k swapped [])
         else nth k swapped [])
      (seq 0 (List.length swapped)).

(** [x[i]] for [i = n-1] down to [0]; [x_tail] holds [x[i+1 .. n-1]]. *)
Fixpoint back_substitute (n : nat) (augmented : list (list num)) (i_plus_1 : nat)
    (x_tail : list num) : list num :=
  match i_plus_1 with
  | O => x_tail
  | S i =>
      let row := nth i augmented [] in
      let xi :=
        fold_left (fun acc j => acc - at_index j row * at_index (j - S i) x_tail)
                  (seq (S i) (n - S i)) (at_index n row) in
      back_substitute n augmented i ((xi / at_index i row) :: x_tail)
  end.

Definition solveLinearSystem (A : list (list num)) (b : list num) : list num :=
  let n := List.length A in
  let augmented :=
    map (fun i => nth i A [] ++ [at_index i b]) (seq 0 n) in
  let reduced := fold_left (eliminate_column n) (seq 0 n) augmented in
  back_substitute n reduced n [].

Record Regression : Type := { coefficients : list num; r2 : num }.

(** [Math.pow(v, 2)], which is [v * v]. *)
Definition square (v : num) : num := v * v.

(** [None]: the [TypeError] of [XWithIntercept[0].length] on an empty
    matrix. *)
Definition multipleRegression (X : list (list num)) (y : list num)
  : option Regression :=
  match X with
  | [] => None
  | _ =>
      let XWithIntercept := map (fun row => num_of_Z 1 :: row) X in
      let XT := transpose XWithIntercept in
      let XTX := multiplyMatrices XT XWithIntercept in
      let XTy := multiplyMatrixVector XT y in
      let coefs := solveLinearSystem XTX XTy in
      let yMean := sum y / num_of_nat (List.length y) in
      let '(ssRes, ssTot) :=
        fold_left
          (fun (acc : num * num) i =>
             let predicted :=
               predictWithCoefficients (nth i XWithIntercept []) coefs in
             (fst acc + square (at_index i y - predicted),
              snd acc + square (at_index i y - yMean)))
          (seq 0 (List.length y)) (num_of_Z 0, num_of_Z 0) in
      Some {| coefficients := coefs; r2 := num_of_Z 1 - ssRes / ssTot |}
  end.
End S.
End Statistics.

(* ================================================================== *)
(** * Forecast calculator: shared interfaces *)
(* ================================================================== *)

Module ForecastInput.
Record t (num : Type) : Type := {
  menu_item : string;
  date : string;
  weather : option string;
  temperature : option num;
  special_event : option string;
  estimated_students : option num;
  quantity_to_prepare : num
}.
End ForecastInput.

Module Interval.
Record t (num : Type) : Type := { lower : num; upper : num }.
End Interval.

Module FactorsInfluence.
Record t (num : Type) : Type := {
  weather_impact : num;
  day_of_week_impact : num;
  seasonal_impact : num;
  event_impact : num
}.
End FactorsInfluence.

Module ForecastResult.
Record t (num : Type) : Type := {
  predicted_waste : num;
  predicted_waste_percentage : num;
  confidence_interval : Interval.t num;
  recommended_quantity : num;
  potential_savings : num;
  model_accuracy : num;
  factors_influence : FactorsInfluence.t num
}.
End ForecastResult.

(* ================================================================== *)
(** * Forecast calculator, multiplicative factors
      (services/forecastService.ts, class ForecastService) *)
(* ================================================================== *)

Module ForecastService.
Section S.
Context {num : Type} `{JSNumber num}.
Variable host : Host num.
Variable production_data : list (DailyProduction.t num).
Local Open Scope js_scope.

Definition getWeatherFactor (weather : string) : num :=
  let weather_factors :=
    [("sunny", lit 1 0); ("cloudy", lit 11 1); ("rainy", lit 13 1);
     ("stormy", lit 15 1)]%string in
  opt_or_default (lookup (toLowerCase weather) weather_factors) (lit 1 0).

Definition waste_of (d : DailyProduction.t num) : num :=
  DailyProduction.waste_percentage d.

Definition getDayOfWeekFactor (menu_item date : string) : num :=
  let day_of_week := weekday_long host date in
  let menu_data :=
    filter (fun d => String.eqb (DailyProduction.menu_item d) menu_item)
           production_data in
  let day_data :=
    filter (fun d => String.eqb (DailyProduction.day_of_week d) day_of_week)
           menu_data in
  let overall_avg := average_by waste_of menu_data in
  match day_data with
  | [] => lit 1 0
  | _ => average_by waste_of day_data / overall_avg
  end.

Definition getEventFactor (event : string) : num :=
  let event_factors :=
    [("none", lit 1 0); ("holiday", lit 7 1); ("orientation", lit 12 1);
     ("exam_week", lit 8 1); ("sports_game", lit 13 1);
     ("graduation", lit 9 1)]%string in
  opt_or_default (lookup (toLowerCase event) event_factors) (lit 1 0).

Definition getStudentFactor (estimated_students : num) : num :=
  let base_students := lit 1000 0 in
  let ratio := estimated_students / base_students in
  Math_max (lit 5 1) (Math_min (lit 15 1) (lit 12 1 - ratio * lit 2 1)).

Definition encodeWeather (weather : string) : num :=
  opt_or_default
    (lookup (toLowerCase weather)
       [("sunny", lit 1 0); ("cloudy", lit 2 0); ("rainy", lit 3 0);
        ("stormy", lit 4 0)]%string)
    (lit 1 0).

Definition encodeDayOfWeek (day : string) : num :=
  opt_or_default
    (lookup day
       [("Monday", lit 1 0); ("Tuesday", lit 2 0); ("Wednesday", lit 3 0);
        ("Thursday", lit 4 0); ("Friday", lit 5 0); ("Saturday", lit 6 0);
        ("Sunday", lit 7 0)]%string)
    (lit 1 0).

Definition encodeEvent (event : string) : num :=
  opt_or_default
    (lookup (toLowerCase event)
       [("none", lit 0 0); ("holiday", lit 1 0); ("orientation", lit 2 0);
        ("exam_week", lit 3 0); ("sports_game", lit 4 0);
        ("graduation", lit 5 0)]%string)
    (lit 0 0).

Definition simpleCorrelation (x y : list num) : num :=
  if (List.length x =? 0)%nat || (List.length y =? 0)%nat
     || negb (List.length x =? List.length y)%nat
  then lit 0 0
  else Statistics.correlation x y.

Definition placeholder_influence : FactorsInfluence.t num :=
  {| FactorsInfluence.weather_impact := lit 20 0;
     FactorsInfluence.day_of_week_impact := lit 15 0;
     FactorsInfluence.seasonal_impact := lit 10 0;
     FactorsInfluence.event_impact := lit 25 0 |}.

Definition analyzeFactorInfluence (menu_item : string)
  : FactorsInfluence.t num :=
  let menu_data :=
    filter (fun d => String.eqb (DailyProduction.menu_item d) menu_item)
           production_data in
  if (List.length menu_data <? 5)%nat then placeholder_influence
  else
    let weather_scores :=
      map (fun d => encodeWeather (DailyProduction.weather d)) menu_data in
    let day_scores :=
      map (fun d => encodeDayOfWeek (DailyProduction.day_of_week d)) menu_data in
    let month_scores :=
      map (fun d => getMonth host (DailyProduction.date d)) menu_data in
    let event_scores :=
      map (fun d => encodeEvent (DailyProduction.special_event d)) menu_data in
    let waste_scores := map waste_of menu_data in
    {| FactorsInfluence.weather_impact :=
         Math_abs (simpleCorrelation weather_scores waste_scores) * lit 100 0;
       FactorsInfluence.day_of_week_impact :=
         Math_abs (simpleCorrelation day_scores waste_scores) * lit 100 0;
       FactorsInfluence.seasonal_impact :=
         Math_abs (simpleCorrelation month_scores waste_scores) * lit 100 0;
       FactorsInfluence.event_impact :=
         Math_abs (simpleCorrelation event_scores waste_scores) * lit 100 0 |}.

(** The fallback result for an average [avg] and accuracy [accuracy]. *)
Definition category_result (input : ForecastInput.t num) (avg accuracy : num)
  : ForecastResult.t num :=
  let predicted_waste := (avg / lit 100 0) * ForecastInput.quantity_to_prepare input in
  {| ForecastResult.predicted_waste := predicted_waste;
     ForecastResult.predicted_waste_percentage := avg;
     ForecastResult.confidence_interval :=
       {| Interval.lower := predicted_waste * lit 7 1;
          Interval.upper := predicted_waste * lit 13 1 |};
     ForecastResult.recommended_quantity :=
       Math_round (ForecastInput.quantity_to_prepare input * lit 95 2);
     ForecastResult.potential_savings := lit 0 0;
     ForecastResult.model_accuracy := accuracy;
     ForecastResult.factors_influence := placeholder_influence |}.

Definition predictFromCategory (input : ForecastInput.t num)
  : ForecastResult.t num :=
  let item_record :=
    find (fun d => String.eqb (DailyProduction.menu_item d)
                              (ForecastInput.menu_item input))
         production_data in
  let category :=
    str_or_default (option_map (@DailyProduction.category num) item_record)
                   "Protein" in
  let category_data :=
    filter (fun d => String.eqb (DailyProduction.category d) category)
           production_data in
  match category_data with
  | [] =>
      let overall_avg := average_by waste_of production_data in
      category_result input overall_avg (lit 65 2)
  | _ =>
      let category_avg := average_by waste_of category_data in
      category_result input category_avg (lit 7 1)
  end.

Definition predict (input : ForecastInput.t num) : ForecastResult.t num :=
  let menu_item_data :=
    filter (fun d => String.eqb (DailyProduction.menu_item d)
                                (ForecastInput.menu_item input))
           production_data in
  if (List.length menu_item_data <? 3)%nat then predictFromCategory input
  else
    let historical_waste_avg := average_by waste_of menu_item_data in
    let adjusted_waste_percentage := historical_waste_avg in
    let weather_factor :=
      getWeatherFactor (str_or_default (ForecastInput.weather input) "sunny") in
    let adjusted_waste_percentage := adjusted_waste_percentage * weather_factor in
    let day_factor :=
      getDayOfWeekFactor (ForecastInput.menu_item input) (ForecastInput.date input) in
    let adjusted_waste_percentage := adjusted_waste_percentage * day_factor in
    let event_factor :=
      getEventFactor (str_or_default (ForecastInput.special_event input) "none") in
    let adjusted_waste_percentage := adjusted_waste_percentage * event_factor in
    let student_factor :=
      getStudentFactor
        (opt_or_default (ForecastInput.estimated_students input) (lit 1000 0)) in
    let adjusted_waste_percentage := adjusted_waste_percentage * student_factor in
    let adjusted_waste_percentage :=
      Math_max (lit 1 0) (Math_min (lit 50 0) adjusted_waste_percentage) in
    let predicted_waste :=
      (adjusted_waste_percentage / lit 100 0)
      * ForecastInput.quantity_to_prepare input in
    let target_waste_percentage := lit 5 0 in
    let recommended_quantity :=
      Math_round
        (ForecastInput.quantity_to_prepare input
         * (lit 100 0 - target_waste_percentage)
         / (lit 100 0 - adjusted_waste_percentage)) in
    let potential_savings :=
      Math_max (lit 0 0)
        ((historical_waste_avg - adjusted_waste_percentage) / lit 100 0
         * ForecastInput.quantity_to_prepare input) in
    let factors_influence := analyzeFactorInfluence (ForecastInput.menu_item input) in
    {| ForecastResult.predicted_waste := predicted_waste;
       ForecastResult.predicted_waste_percentage := adjusted_waste_percentage;
       ForecastResult.confidence_interval :=
         {| Interval.lower := predicted_waste * lit 8 1;
            Interval.upper := predicted_waste * lit 12 1 |};
       ForecastResult.recommended_quantity := recommended_quantity;
       ForecastResult.potential_savings := potential_savings;
       ForecastResult.model_accuracy := lit 85 2;
       ForecastResult.factors_influence := factors_influence |}.
End S.
End ForecastService.

(* ================================================================== *)
(** * Menu planner (services/plannerService.ts, class PlannerService) *)
(* ================================================================== *)

Module PlannerInput.
Record t (num : Type) : Type := {
  date : string;
  estimated_students : num;
  budget_constraint : option num;
  dietary_requirements : option (list string);
  avoid_items : option (list string);
  target_categories : list string
}.
End PlannerInput.

Module MenuRecommendation.
Record t (num : Type) : Type := {
  menu_item : string;
  category : string;
  recommended_quantity : num;
  expected_waste : num;
  cost_per_serving : num;
  popularity_score : num;
  reasoning : string
}.
End MenuRecommendation.

Module NutritionalBalance.
Record t : Type := {
  protein_items : nat;
  carb_items : nat;
  vegetable_items : nat;
  dessert_items : nat
}.
End NutritionalBalance.

Module RiskAssessment.
Record t : Type := {
  high_risk_items : list string;
  safe_items : list string;
  weather_considerations : list string
}.
End RiskAssessment.

Module PlannerResult.
Record t (num : Type) : Type := {
  recommended_menu : list (MenuRecommendation.t num);
  total_cost : num;
  total_expected_waste : num;
  waste_percentage : num;
  cost_savings : num;
  nutritional_balance : NutritionalBalance.t;
  risk_assessment : RiskAssessment.t
}.
End PlannerResult.

Module Scores.
Record t (num : Type) : Type := {
  waste_score : num;
  popularity_score : num;
  cost_score : num;
  prep_score : num;
  shelf_life_score : num;
  season_score : num;
  composite_score : num
}.
End Scores.

(** What [scoreMenuItem] returns: the catalog row spread into a fresh
    object with its scores and its history.  [oid] stands for the identity
    of that object (its index in [scored_items]), which
    [selected.includes(item)] compares. *)
Module ScoredItem.
Record t (num : Type) : Type := {
  oid : nat;
  item : MenuPlanning.t num;
  scores : Scores.t num;
  historical_data : list (DailyProduction.t num)
}.
End ScoredItem.

Module SuggestionConstraints.
Record t (num : Type) : Type := {
  max_prep_time : option num;
  dietary_restrictions : option (list string);
  cost_limit : option num
}.
End SuggestionConstraints.

Module PlannerService.
Section S.
Context {num : Type} `{JSNumber num}.
Variable host : Host num.
Variable production_data : list (DailyProduction.t num).
Variable menu_data : list (MenuPlanning.t num).
Variable external_data : list (ExternalFactor.t num).
Local Open Scope js_scope.

Definition mem_string (s : string) (l : list string) : bool :=
  existsb (String.eqb s) l.

Definition waste_of (d : DailyProduction.t num) : num :=
  DailyProduction.waste_percentage d.

Definition category_of (it : ScoredItem.t num) : string :=
  MenuPlanning.menu_category (ScoredItem.item it).

Definition getAvailableItems (target_categories avoid_items : list string)
  : list (MenuPlanning.t num) :=
  filter (fun item =>
            mem_string (MenuPlanning.menu_category item) target_categories
            && negb (mem_string (MenuPlanning.dish_name item) avoid_items))
         menu_data.

Definition getPreparationScore (difficulty : string) : num :=
  opt_or_default
    (lookup (toLowerCase difficulty)
       [("easy", lit 10 0); ("medium", lit 7 0); ("hard", lit 4 0);
        ("very hard", lit 2 0)])
    (lit 7 0).

Definition getDayOfWeekAdjustment (dish_name date : string) : num :=
  let day_of_week := weekday_long host date in
  let historical_data :=
    filter (fun d => String.eqb (DailyProduction.menu_item d) dish_name
                     && String.eqb (DailyProduction.day_of_week d) day_of_week)
           production_data in
  match historical_data with
  | [] => lit 1 0
  | _ =>
      let all_data :=
        filter (fun d => String.eqb (DailyProduction.menu_item d) dish_name)
               production_data in
      let day_avg := average_by waste_of historical_data in
      let overall_avg := average_by waste_of all_data in
      Math_max (lit 5 1) (Math_min (lit 15 1) (overall_avg / day_avg))
  end.

Definition getSeasonFromMonth (month : num) : string :=
  if ngeb month (lit 2 0) && (month <=? lit 4 0) then "spring"
  else if ngeb month (lit 5 0) && (month <=? lit 7 0) then "summer"
  else if ngeb month (lit 8 0) && (month <=? lit 10 0) then "fall"
  else "winter".

Definition getSeasonScore (season_appropriateness date : string) : num :=
  let month := getMonth host date in
  let season := getSeasonFromMonth month in
  if includes (toLowerCase season) (toLowerCase season_appropriateness)
  then lit 10 0
  else if String.eqb (toLowerCase season_appropriateness) "all_season"
  then lit 8 0
  else lit 5 0.

Definition scoreMenuItem (input : PlannerInput.t num)
    (oid : nat) (item : MenuPlanning.t num) : ScoredItem.t num :=
  let historical_data :=
    filter (fun d => String.eqb (DailyProduction.menu_item d)
                                (MenuPlanning.dish_name item))
           production_data in
  let waste_score :=
    match historical_data with
    | [] => lit 5 0
    | _ =>
        let avg_waste := average_by waste_of historical_data in
        Math_max (lit 1 0) (lit 10 0 - avg_waste / lit 10 0)
    end in
  let popularity_score := MenuPlanning.popularity_score item in
  let cost_score :=
    Math_max (lit 1 0)
      (lit 10 0 - MenuPlanning.ingredient_cost_per_serving item * lit 2 0) in
  let prep_score := getPreparationScore (MenuPlanning.prep_difficulty item) in
  let shelf_life_score :=
    Math_min (lit 10 0) (MenuPlanning.shelf_life_hours item / lit 4 0) in
  let day_adjustment :=
    getDayOfWeekAdjustment (MenuPlanning.dish_name item) (PlannerInput.date input) in
  let season_score :=
    getSeasonScore (MenuPlanning.season_appropriateness item)
                   (PlannerInput.date input) in
  let composite_score :=
    (waste_score * lit 3 1 + popularity_score * lit 25 2 + cost_score * lit 2 1
     + prep_score * lit 1 1 + shelf_life_score * lit 1 1
     + season_score * lit 5 2) * day_adjustment in
  {| ScoredItem.oid := oid;
     ScoredItem.item := item;
     ScoredItem.scores :=
       {| Scores.waste_score := waste_score;
          Scores.popularity_score := popularity_score;
          Scores.cost_score := cost_score;
          Scores.prep_score := prep_score;
          Scores.shelf_life_score := shelf_life_score;
          Scores.season_score := season_score;
          Scores.composite_score := composite_score |};
     ScoredItem.historical_data := historical_data |}.

(** [available_items.map(item => this.scoreMenuItem(item, input))]. *)
Fixpoint score_all (input : PlannerInput.t num) (oid : nat)
    (items : list (MenuPlanning.t num)) : list (ScoredItem.t num) :=
  match items with
  | [] => []
  | item :: rest => scoreMenuItem input oid item :: score_all input (S oid) rest
  end.

Definition getCategoryDemandFactor (category : string) : num :=
  opt_or_default
    (lookup category
       [("breakfast", lit 7 1); ("lunch", lit 8 1); ("dinner", lit 9 1)])
    (lit 7 1).

Definition calculateBaseQuantity (it : ScoredItem.t num)
    (estimated_students : num) : num :=
  let popularity_factor :=
    MenuPlanning.popularity_score (ScoredItem.item it) / lit 10 0 in
  let category_factor := getCategoryDemandFactor (category_of it) in
  Math_round (estimated_students * popularity_factor * category_factor * lit 3 1).

Definition estimateItemCost (it : ScoredItem.t num)
    (estimated_students : num) : num :=
  let base_quantity := calculateBaseQuantity it estimated_students in
  base_quantity * MenuPlanning.ingredient_cost_per_serving (ScoredItem.item it).

(** [(a, b) => b.scores.composite_score - a.scores.composite_score] is
    positive. *)
Definition by_score_desc (a b : ScoredItem.t num) : bool :=
  lit 0 0 <? (Scores.composite_score (ScoredItem.scores b)
              - Scores.composite_score (ScoredItem.scores a)).

(** The state of the greedy loop. *)
Record Selection : Type := {
  selected : list (ScoredItem.t num);
  category_counts : list (string * num);
  total_cost : num
}.

(** [!input.budget_constraint || total <= input.budget_constraint]. *)
Definition within_budget (budget : option num) (total : num) : bool :=
  match budget with
  | None => true
  | Some b => negb (truthy b) || (total <=? b)
  end.

Definition greedy_step (input : PlannerInput.t num)
    (target_per_category : num) (st : Selection) (it : ScoredItem.t num)
  : Selection :=
  let current_count :=
    opt_or_default (lookup (category_of it) (category_counts st)) (lit 0 0) in
  let estimated_cost := estimateItemCost it (PlannerInput.estimated_students input) in
  if (current_count <? target_per_category)
     && (List.length (selected st) <? 12)%nat
     && within_budget (PlannerInput.budget_constraint input)
                      (total_cost st + estimated_cost)
  then
    {| selected := selected st ++ [it];
       category_counts :=
         map_set (category_of it) (current_count + lit 1 0) (category_counts st);
       total_cost := total_cost st + estimated_cost |}
  else st.

Definition has_key {A : Type} (k : string) (m : list (string * A)) : bool :=
  match lookup k m with Some _ => true | None => false end.

Definition is_selected (sel : list (ScoredItem.t num)) (it : ScoredItem.t num)
  : bool :=
  existsb (fun s => (ScoredItem.oid s =? ScoredItem.oid it)%nat) sel.

(** One item for every target category the greedy loop left empty. *)
Definition backfill_step (sorted_items : list (ScoredItem.t num))
    (counts : list (string * num))
    (sel : list (ScoredItem.t num)) (category : string)
  : list (ScoredItem.t num) :=
  if has_key category counts then sel
  else
    match find (fun it => String.eqb (category_of it) category
                          && negb (is_selected sel it)) sorted_items with
    | Some fallback_item => sel ++ [fallback_item]
    | None => sel
    end.

Definition greedy_pass (input : PlannerInput.t num)
    (sorted_items : list (ScoredItem.t num)) : Selection :=
  let target_per_category :=
    Math_ceil (lit 8 0 / num_of_nat (List.length (PlannerInput.target_categories input))) in
  fold_left (greedy_step input target_per_category) sorted_items
    {| selected := []; category_counts := []; total_cost := lit 0 0 |}.

Definition selectOptimalCombination (scored_items : list (ScoredItem.t num))
    (input : PlannerInput.t num) : list (ScoredItem.t num) :=
  let sorted_items := js_sort by_score_desc scored_items in
  let st := greedy_pass input sorted_items in
  fold_left (backfill_step sorted_items (category_counts st))
            (PlannerInput.target_categories input) (selected st).

Definition getExpectedWastePercentage (it : ScoredItem.t num) : num :=
  match ScoredItem.historical_data it with
  | [] =>
      opt_or_default
        (lookup (category_of it)
           [("Entree", lit 12 0); ("Side", lit 15 0); ("Dessert", lit 20 0);
            ("Beverage", lit 8 0); ("Salad", lit 18 0)])
        (lit 15 0)
  | hd => average_by waste_of hd
  end.

Definition generateReasoning (it : ScoredItem.t num) (waste_adjustment : num)
  : string :=
  let sc := ScoredItem.scores it in
  let reasons :=
    (if ngeb (Scores.popularity_score sc) (lit 8 0)
     then ["high popularity score"] else [])
    ++ (if ngeb (Scores.waste_score sc) (lit 7 0)
        then ["low historical waste"] else [])
    ++ (if waste_adjustment <? lit 9 1
        then ["adjusted for waste reduction"] else [])
    ++ (if ngeb (Scores.cost_score sc) (lit 7 0)
        then ["cost-effective"] else [])
    ++ (if ngeb (Scores.season_score sc) (lit 8 0)
        then ["seasonal appropriateness"] else []) in
  String.append "Selected due to: "
    (match reasons with
     | [] => "balanced performance across metrics"
     | _ => String.concat ", " reasons
     end).

Definition waste_adjustment_of (it : ScoredItem.t num) : num :=
  match ScoredItem.historical_data it with
  | [] => lit 1 0
  | hd =>
      let avg_waste_percentage := average_by waste_of hd in
      Math_max (lit 7 1) (lit 1 0 - avg_waste_percentage / lit 100 0)
  end.

Definition generateRecommendation (input : PlannerInput.t num)
    (it : ScoredItem.t num) : MenuRecommendation.t num :=
  let base_quantity :=
    calculateBaseQuantity it (PlannerInput.estimated_students input) in
  let waste_adjustment := waste_adjustment_of it in
  let recommended_quantity := Math_round (base_quantity * waste_adjustment) in
  let expected_waste :=
    recommended_quantity * (getExpectedWastePercentage it / lit 100 0) in
  {| MenuRecommendation.menu_item := MenuPlanning.dish_name (ScoredItem.item it);
     MenuRecommendation.category := category_of it;
     MenuRecommendation.recommended_quantity := recommended_quantity;
     MenuRecommendation.expected_waste := expected_waste;
     MenuRecommendation.cost_per_serving :=
       MenuPlanning.ingredient_cost_per_serving (ScoredItem.item it);
     MenuRecommendation.popularity_score :=
       MenuPlanning.popularity_score (ScoredItem.item it);
     MenuRecommendation.reasoning := generateReasoning it waste_adjustment |}.

Definition getAverageCostPerPound : num := lit 350 2.

Definition calculateHistoricalWasteCost (categories : list string) : num :=
  let total_waste_cost :=
    sum_by (fun d => DailyProduction.quantity_wasted d * getAverageCostPerPound)
           production_data in
  match production_data with
  | [] => lit 0 0
  | _ =>
      let avg_waste_per_day :=
        total_waste_cost / num_of_nat (List.length production_data) in
      avg_waste_per_day * (num_of_nat (List.length categories) / lit 3 0)
  end.

Definition name_has (name : string) (words : list string) : bool :=
  existsb (fun w => includes w name) words.

Definition count_names (words : list string)
    (recs : list (MenuRecommendation.t num)) : nat :=
  List.length
    (filter (fun r => name_has (toLowerCase (MenuRecommendation.menu_item r)) words)
            recs).

Definition analyzeNutritionalBalance (recs : list (MenuRecommendation.t num))
  : NutritionalBalance.t :=
  {| NutritionalBalance.protein_items :=
       count_names ["chicken"; "beef"; "fish"; "salmon"; "tofu"; "eggs";
                    "shrimp"; "pork"; "lamb"] recs;
     NutritionalBalance.carb_items :=
       count_names ["pasta"; "rice"; "bread"; "noodles"; "pizza"; "burrito";
                    "sandwich"; "pancakes"; "toast"] recs;
     NutritionalBalance.vegetable_items :=
       count_names ["salad"; "veggie"; "vegetable"; "spinach"; "kale";
                    "broccoli"; "avocado"; "quinoa"] recs;
     NutritionalBalance.dessert_items :=
       count_names ["cake"; "chocolate"; "dessert"; "parfait"; "pudding";
                    "muffin"; "tiramisu"; "baklava"] recs |}.

Definition is_high_risk (r : MenuRecommendation.t num) : bool :=
  lit 15 2 <? (MenuRecommendation.expected_waste r
               / MenuRecommendation.recommended_quantity r).

Definition assessRisks (recs : list (MenuRecommendation.t num))
    (input : PlannerInput.t num) : RiskAssessment.t :=
  let external_factor :=
    find (fun e => String.eqb (ExternalFactor.date e) (PlannerInput.date input))
         external_data in
  {| RiskAssessment.high_risk_items :=
       map (@MenuRecommendation.menu_item num) (filter is_high_risk recs);
     RiskAssessment.safe_items :=
       map (@MenuRecommendation.menu_item num)
           (filter (fun r => negb (is_high_risk r)) recs);
     RiskAssessment.weather_considerations :=
       match external_factor with
       | None => []
       | Some e =>
           (if includes "rain" (toLowerCase (ExternalFactor.weather_condition e))
            then ["Rainy weather may reduce foot traffic"] else [])
           ++ (if lit 80 0 <? ExternalFactor.temperature_f e
               then ["Hot weather favors cold items and beverages"] else [])
           ++ (if ExternalFactor.temperature_f e <? lit 50 0
               then ["Cold weather increases demand for hot items"] else [])
       end |}.

Definition optimizeMenu (input : PlannerInput.t num) : PlannerResult.t num :=
  let available_items :=
    getAvailableItems (PlannerInput.target_categories input)
      (match PlannerInput.avoid_items input with Some l => l | None => [] end) in
  let scored_items := score_all input 0 available_items in
  let selected_items := selectOptimalCombination scored_items input in
  let recommendations := map (generateRecommendation input) selected_items in
  let total_cost :=
    sum_by (fun r => MenuRecommendation.recommended_quantity r
                     * MenuRecommendation.cost_per_serving r) recommendations in
  let total_expected_waste :=
    sum_by (@MenuRecommendation.expected_waste num) recommendations in
  let total_production :=
    sum_by (@MenuRecommendation.recommended_quantity num) recommendations in
  let waste_percentage := (total_expected_waste / total_production) * lit 100 0 in
  let historical_waste_cost :=
    calculateHistoricalWasteCost (PlannerInput.target_categories input) in
  let projected_waste_cost := total_expected_waste * getAverageCostPerPound in
  let cost_savings := historical_waste_cost - projected_waste_cost in
  {| PlannerResult.recommended_menu := recommendations;
     PlannerResult.total_cost := total_cost;
     PlannerResult.total_expected_waste := total_expected_waste;
     PlannerResult.waste_percentage := waste_percentage;
     PlannerResult.cost_savings := Math_max (lit 0 0) cost_savings;
     PlannerResult.nutritional_balance := analyzeNutritionalBalance recommendations;
     PlannerResult.risk_assessment := assessRisks recommendations input |}.

(** [getMenuSuggestions] returns the suggestions and leaves [this.menu_data]
    in the second component.  [filtered_items] starts as an alias of
    [this.menu_data]; each filter that runs replaces it by a fresh array;
    the final [sort] is in place, so when no filter ran it reorders
    [this.menu_data] itself. *)
Definition by_popularity_desc (a b : MenuPlanning.t num) : bool :=
  lit 0 0 <? (MenuPlanning.popularity_score b - MenuPlanning.popularity_score a).

Definition opt_truthy (o : option num) : bool :=
  match o with Some v => truthy v | None => false end.

Definition getMenuSuggestions (constraints : SuggestionConstraints.t num)
  : list (MenuPlanning.t num) * list (MenuPlanning.t num) :=
  let filtered_items := menu_data in
  let aliased := true in
  let '(filtered_items, aliased) :=
    match SuggestionConstraints.max_prep_time constraints with
    | Some t =>
        if truthy t
        then (filter (fun item => MenuPlanning.preparation_time_hours item <=? t)
                     filtered_items, false)
        else (filtered_items, aliased)
    | None => (filtered_items, aliased)
    end in
  let '(filtered_items, aliased) :=
    match SuggestionConstraints.cost_limit constraints with
    | Some c =>
        if truthy c
        then (filter (fun item => MenuPlanning.ingredient_cost_per_serving item <=? c)
                     filtered_items, false)
        else (filtered_items, aliased)
    | None => (filtered_items, aliased)
    end in
  let '(filtered_items, aliased) :=
    match SuggestionConstraints.dietary_restrictions constraints with
    | Some rs =>
        (filter (fun item =>
                   let allergens := toLowerCase (MenuPlanning.allergens item) in
                   negb (existsb (fun r => includes (toLowerCase r) allergens) rs))
                filtered_items, false)
    | None => (filtered_items, aliased)
    end in
  let sorted := js_sort by_popularity_desc filtered_items in
  (sorted, if aliased then sorted else menu_data).
End S.
End PlannerService.

(* ================================================================== *)
(** * Pickup and route optimiser
      (services/trackerService.ts, class TrackerService) *)
(* ================================================================== *)

Module TimeConstraints.
Record t : Type := { earliest_pickup : string; latest_pickup : string }.
End TimeConstraints.

Module PickupOptimizationInput.
Record t (num : Type) : Type := {
  date : string;
  available_locations : list string;
  available_drivers : list string;
  estimated_food_volume : num;
  priority_destinations : option (list string);
  time_constraints : option TimeConstraints.t
}.
End PickupOptimizationInput.

(** [composite_score] is the extra property of the copies
    [{ ...pickup, composite_score }] that [findBestNextPickup] creates. *)
Module OptimizedPickup.
Record t (num : Type) : Type := {
  pickup_id : string;
  source_location : string;
  destination_partner : string;
  recommended_time : string;
  estimated_volume : num;
  estimated_duration : num;
  transport_cost : num;
  driver_assignment : string;
  priority_score : num;
  efficiency_score : num;
  composite_score : option num
}.
End OptimizedPickup.

Module RouteOptimization.
Record t (num : Type) : Type := {
  route_id : string;
  driver : string;
  locations : list string;
  total_distance : num;
  total_time : num;
  total_volume : num;
  total_cost : num;
  pickups : list (OptimizedPickup.t num)
}.
End RouteOptimization.

Module EfficiencyMetrics.
Record t (num : Type) : Type := {
  avg_pickup_time : num;
  cost_per_pound : num;
  meals_per_dollar : num;
  co2_per_pickup : num
}.
End EfficiencyMetrics.

(** The result of [optimizePickups].  The free-text [recommendations] are
    left out: they are assembled from the input and the location patterns
    only and print numbers, which the model does not render. *)
Module TrackerResult.
Record t (num : Type) : Type := {
  optimized_routes : list (RouteOptimization.t num);
  total_volume_rescued : num;
  total_meals_equivalent : num;
  total_co2_savings : num;
  total_transport_cost : num;
  efficiency_metrics : EfficiencyMetrics.t num
}.
End TrackerResult.

(** The pattern object of a location, with the properties the optimiser
    reads ([time_distribution.peak_start] is [peak_start]). *)
Module LocationPattern.
Record t (num : Type) : Type := {
  avg_volume : num;
  avg_distance : num;
  avg_cost : num;
  peak_start : string;
  day_patterns : list (string * num);
  food_types : list string;
  destinations : list string;
  success_rate : num;
  historical_count : num
}.
End LocationPattern.

Module Totals.
Record t (num : Type) : Type := { volume : num; meals : num; co2 : num; cost : num }.
End Totals.

Module TrackerService.
Section S.
Context {num : Type} `{JSNumber num}.
Variable host : Host num.
Variable pickup_data : list (PickupOperation.t num).
Variable external_data : list (ExternalFactor.t num).
Local Open Scope js_scope.

Definition getDefaultLocationPattern : LocationPattern.t num :=
  {| LocationPattern.avg_volume := lit 45 0;
     LocationPattern.avg_distance := lit 52 1;
     LocationPattern.avg_cost := lit 1250 2;
     LocationPattern.peak_start := "14:00";
     LocationPattern.day_patterns :=
       [("Monday", lit 12 1); ("Wednesday", lit 11 1); ("Friday", lit 13 1)];
     LocationPattern.food_types := ["Mixed"];
     LocationPattern.destinations := ["Local Food Bank"];
     LocationPattern.success_rate := lit 85 2;
     LocationPattern.historical_count := lit 0 0 |}.

(** [map.set(k, (map.get(k) || 0) + 1)] for every key. *)
Definition count_keys (keys : list string) : list (string * num) :=
  fold_left
    (fun m k => map_set k (opt_or_default (lookup k m) (lit 0 0) + lit 1 0) m)
    keys [].

Definition analyzeTimeDistribution (data : list (PickupOperation.t num))
  : string :=
  let time_counts :=
    count_keys (map (fun p => before_colon (PickupOperation.pickup_time p)) data) in
  let peak_hour :=
    fold_left
      (fun (mx : string * num) (e : string * num) =>
         if snd mx <? snd e then e else mx)
      time_counts ("14", lit 0 0) in
  String.append (fst peak_hour) ":00".

(** [if (!m.has(k)) m.set(k, []); m.get(k).push(v)]. *)
Definition push_at (k : string) (v : num) (m : list (string * list num))
  : list (string * list num) :=
  match lookup k m with
  | Some vs => map_set k (vs ++ [v]) m
  | None => map_set k [v] m
  end.

Definition analyzeDayPatterns (data : list (PickupOperation.t num))
  : list (string * num) :=
  let day_volumes :=
    fold_left
      (fun m p =>
         push_at (weekday_long host (PickupOperation.date p))
                 (PickupOperation.quantity_lbs p) m)
      data [] in
  let overall_avg := average_by (@PickupOperation.quantity_lbs num) data in
  fold_left
    (fun m (e : string * list num) =>
       let day_avg := sum (snd e) / num_of_nat (List.length (snd e)) in
       map_set (fst e) (day_avg / overall_avg) m)
    day_volumes [].

(** Entries sorted by [(a, b) => b[1] - a[1]], keys kept. *)
Definition by_count_desc (a b : string * num) : bool :=
  lit 0 0 <? (snd b - snd a).

Definition analyzeFoodTypes (data : list (PickupOperation.t num)) : list string :=
  map fst (js_sort by_count_desc
             (count_keys (map (@PickupOperation.food_type num) data))).

Definition analyzeDestinations (data : list (PickupOperation.t num)) : list string :=
  map fst (js_sort by_count_desc
             (count_keys (map (@PickupOperation.destination_partner num) data))).

Definition pattern_of_location (location : string) : LocationPattern.t num :=
  let location_data :=
    filter (fun p => String.eqb (PickupOperation.source_location p) location)
           pickup_data in
  match location_data with
  | [] => getDefaultLocationPattern
  | _ =>
      let n := num_of_nat (List.length location_data) in
      {| LocationPattern.avg_volume :=
           sum_by (@PickupOperation.quantity_lbs num) location_data / n;
         LocationPattern.avg_distance :=
           sum_by (@PickupOperation.distance_miles num) location_data / n;
         LocationPattern.avg_cost :=
           sum_by (@PickupOperation.transport_cost num) location_data / n;
         LocationPattern.peak_start := analyzeTimeDistribution location_data;
         LocationPattern.day_patterns := analyzeDayPatterns location_data;
         LocationPattern.food_types := analyzeFoodTypes location_data;
         LocationPattern.destinations := analyzeDestinations location_data;
         LocationPattern.success_rate :=
           num_of_nat
             (List.length
                (filter (fun p => String.eqb (PickupOperation.pickup_status p)
                                             "completed") location_data))
           / n;
         LocationPattern.historical_count := n |}
  end.

Definition analyzeLocationPatterns (locations : list string)
  : list (string * LocationPattern.t num) :=
  fold_left (fun patterns location =>
               map_set location (pattern_of_location location) patterns)
            locations [].

Definition calculateOptimalTime (pattern : LocationPattern.t num)
    (input : PickupOptimizationInput.t num) : string :=
  let peak_start := LocationPattern.peak_start pattern in
  match PickupOptimizationInput.time_constraints input with
  | Some tc =>
      let earliest := TimeConstraints.earliest_pickup tc in
      let latest := TimeConstraints.latest_pickup tc in
      if String.ltb peak_start earliest then earliest
      else if String.ltb latest peak_start then latest
      else peak_start
  | None => peak_start
  end.

Definition estimateVolume (pattern : LocationPattern.t num)
    (input : PickupOptimizationInput.t num) : num :=
  let base_volume := LocationPattern.avg_volume pattern in
  let day := weekday_long host (PickupOptimizationInput.date input) in
  let day_factor :=
    opt_or_default (lookup day (LocationPattern.day_patterns pattern)) (lit 1 0) in
  let external :=
    find (fun e => String.eqb (ExternalFactor.date e)
                              (PickupOptimizationInput.date input))
         external_data in
  let student_factor :=
    opt_or_default
      (option_map (@ExternalFactor.student_population_factor num) external)
      (lit 1 0) in
  Math_round (base_volume * day_factor * student_factor).

Definition head_or_default (l : list string) (d : string) : string :=
  str_or_default (hd_error l) d.

Definition selectBestDestination (pattern : LocationPattern.t num)
    (priorities : option (list string)) : string :=
  let fallback :=
    head_or_default (LocationPattern.destinations pattern) "Local Food Bank" in
  match priorities with
  | Some (p0 :: ps) =>
      match find (fun dest =>
                    existsb (fun p => includes (toLowerCase p) (toLowerCase dest))
                            (p0 :: ps))
                 (LocationPattern.destinations pattern) with
      | Some priority_match =>
          if String.eqb priority_match "" then fallback else priority_match
      | None => fallback
      end
  | _ => fallback
  end.

Definition calculatePriorityScore (location : string)
    (pattern : LocationPattern.t num) (input : PickupOptimizationInput.t num)
  : num :=
  let score := lit 50 0 in
  let score := score + Math_min (lit 30 0) (LocationPattern.avg_volume pattern) in
  let score := score + LocationPattern.success_rate pattern * lit 20 0 in
  let score := score + Math_min (lit 10 0) (LocationPattern.historical_count pattern) in
  Math_min (lit 100 0) score.

Definition getEstimatedDistance (source destination : string) : num :=
  let distance_matrix := [("default", lit 55 1)] in
  opt_or_default
    (lookup (String.append source (String.append "-" destination)) distance_matrix)
    (lit 55 1).

Definition estimateTransportCost (source destination : string) (volume : num)
  : num :=
  let base_cost := lit 8 0 in
  let distance_cost := getEstimatedDistance source destination * lit 5 1 in
  let volume_cost := volume * lit 1 1 in
  Math_round ((base_cost + distance_cost + volume_cost) * lit 100 0) / lit 100 0.

Definition estimateDuration (source destination : string) (volume : num) : num :=
  let travel_time := getEstimatedDistance source destination * lit 2 0 in
  let loading_time := Math_max (lit 15 0) (volume * lit 5 1) in
  Math_round (travel_time + loading_time).

Definition calculateEfficiencyScore (pattern : LocationPattern.t num)
    (volume cost : num) : num :=
  let score := lit 50 0 in
  let cost_per_pound := cost / volume in
  let score := score + Math_max (lit 0 0) (lit 20 0 - cost_per_pound * lit 2 0) in
  let score := score + Math_min (lit 30 0) (volume * lit 5 1) in
  Math_min (lit 100 0) score.

Definition getDistancePenalty (from to : string) : num :=
  let distance := getEstimatedDistance from to in
  Math_min (lit 20 0) (distance * lit 2 0).

(** [locations.length - 1] legs between consecutive locations. *)
Fixpoint sum_legs (total : num) (locations : list string) : num :=
  match locations with
  | a :: ((b :: _) as rest) => sum_legs (total + getEstimatedDistance a b) rest
  | _ => total
  end.

Definition calculateTotalDistance (locations : list string) : num :=
  if (List.length locations <=? 1)%nat then lit 0 0
  else sum_legs (lit 0 0) locations.

Definition by_priority_desc (a b : OptimizedPickup.t num) : bool :=
  lit 0 0 <? (OptimizedPickup.priority_score b - OptimizedPickup.priority_score a).

Definition make_suggestion (input : PickupOptimizationInput.t num)
    (pickup_counter : nat) (location : string) (pattern : LocationPattern.t num)
  : OptimizedPickup.t num :=
  let optimal_time := calculateOptimalTime pattern input in
  let estimated_volume := estimateVolume pattern input in
  let destination :=
    selectBestDestination pattern
      (PickupOptimizationInput.priority_destinations input) in
  let priority := calculatePriorityScore location pattern input in
  let cost := estimateTransportCost location destination estimated_volume in
  let efficiency := calculateEfficiencyScore pattern estimated_volume cost in
  {| OptimizedPickup.pickup_id :=
       String.append "PU"
         (String.append (getTime_string host (PickupOptimizationInput.date input))
            (String.append "_" (string_of_nat pickup_counter)));
     OptimizedPickup.source_location := location;
     OptimizedPickup.destination_partner := destination;
     OptimizedPickup.recommended_time := optimal_time;
     OptimizedPickup.estimated_volume := estimated_volume;
     OptimizedPickup.estimated_duration :=
       estimateDuration location destination estimated_volume;
     OptimizedPickup.transport_cost := cost;
     OptimizedPickup.driver_assignment := "";
     OptimizedPickup.priority_score := priority;
     OptimizedPickup.efficiency_score := efficiency;
     OptimizedPickup.composite_score := None |}.

(** The [forEach] of [generatePickupSuggestions], before the sort. *)
Fixpoint collect_suggestions (input : PickupOptimizationInput.t num)
    (patterns : list (string * LocationPattern.t num))
    (pickup_counter : nat) (locations : list string)
  : list (OptimizedPickup.t num) :=
  match locations with
  | [] => []
  | location :: rest =>
      match lookup location patterns with
      | None => collect_suggestions input patterns pickup_counter rest
      | Some pattern =>
          make_suggestion input pickup_counter location pattern
          :: collect_suggestions input patterns (S pickup_counter) rest
      end
  end.

Definition generatePickupSuggestions (input : PickupOptimizationInput.t num)
    (patterns : list (string * LocationPattern.t num))
  : list (OptimizedPickup.t num) :=
  js_sort by_priority_desc
    (collect_suggestions input patterns 1
       (PickupOptimizationInput.available_locations input)).

Definition set_driver (driver : string) (p : OptimizedPickup.t num)
  : OptimizedPickup.t num :=
  {| OptimizedPickup.pickup_id := OptimizedPickup.pickup_id p;
     OptimizedPickup.source_location := OptimizedPickup.source_location p;
     OptimizedPickup.destination_partner := OptimizedPickup.destination_partner p;
     OptimizedPickup.recommended_time := OptimizedPickup.recommended_time p;
     OptimizedPickup.estimated_volume := OptimizedPickup.estimated_volume p;
     OptimizedPickup.estimated_duration := OptimizedPickup.estimated_duration p;
     OptimizedPickup.transport_cost := OptimizedPickup.transport_cost p;
     OptimizedPickup.driver_assignment := driver;
     OptimizedPickup.priority_score := OptimizedPickup.priority_score p;
     OptimizedPickup.efficiency_score := OptimizedPickup.efficiency_score p;
     OptimizedPickup.composite_score := OptimizedPickup.composite_score p |}.

Definition set_composite (c : num) (p : OptimizedPickup.t num)
  : OptimizedPickup.t num :=
  {| OptimizedPickup.pickup_id := OptimizedPickup.pickup_id p;
     OptimizedPickup.source_location := OptimizedPickup.source_location p;
     OptimizedPickup.destination_partner := OptimizedPickup.destination_partner p;
     OptimizedPickup.recommended_time := OptimizedPickup.recommended_time p;
     OptimizedPickup.estimated_volume := OptimizedPickup.estimated_volume p;
     OptimizedPickup.estimated_duration := OptimizedPickup.estimated_duration p;
     OptimizedPickup.transport_cost := OptimizedPickup.transport_cost p;
     OptimizedPickup.driver_assignment := OptimizedPickup.driver_assignment p;
     OptimizedPickup.priority_score := OptimizedPickup.priority_score p;
     OptimizedPickup.efficiency_score := OptimizedPickup.efficiency_score p;
     OptimizedPickup.composite_score := Some c |}.

Definition best_step (current_location : string)
    (best pickup : OptimizedPickup.t num) : OptimizedPickup.t num :=
  let distance_penalty :=
    getDistancePenalty current_location (OptimizedPickup.source_location pickup) in
  let composite :=
    OptimizedPickup.priority_score pickup * lit 4 1
    + OptimizedPickup.efficiency_score pickup * lit 4 1
    - distance_penalty * lit 2 1 in
  let best_score := opt_or_default (OptimizedPickup.composite_score best) (lit 0 0) in
  if best_score <? composite then set_composite composite pickup else best.

Definition findBestNextPickup (current_location : string)
    (available : list (OptimizedPickup.t num)) (current_volume max_volume : num)
  : option (OptimizedPickup.t num) :=
  let feasible :=
    filter (fun p => current_volume + OptimizedPickup.estimated_volume p <=? max_volume)
           available in
  match feasible with
  | [] => None
  | first :: _ => Some (fold_left (best_step current_location) feasible first)
  end.

(** [i = a.findIndex(p => p.pickup_id === id); if (i > -1) a.splice(i, 1)]. *)
Fixpoint remove_by_id (id : string) (a : list (OptimizedPickup.t num))
  : list (OptimizedPickup.t num) :=
  match a with
  | [] => []
  | p :: a' =>
      if String.eqb (OptimizedPickup.pickup_id p) id then a'
      else p :: remove_by_id id a'
  end.

(** The state of the loop of [createOptimalRoute]. *)
Record RouteState : Type := {
  route_pickups : list (OptimizedPickup.t num);
  available_pickups : list (OptimizedPickup.t num);
  current_location : string;
  acc_volume : num;
  acc_time : num
}.

Definition max_pickups_per_route : nat := 4.
Definition max_total_volume : num := lit 200 0.

(** [fuel] counts the iterations [i < max_pickups_per_route] left. *)
Fixpoint route_loop (driver : string) (fuel : nat) (st : RouteState) : RouteState :=
  match fuel with
  | O => st
  | S fuel' =>
      match available_pickups st with
      | [] => st
      | _ =>
          match findBestNextPickup (current_location st) (available_pickups st)
                                   (acc_volume st) max_total_volume with
          | None => st
          | Some best =>
              let best_pickup := set_driver driver best in
              route_loop driver fuel'
                {| route_pickups := route_pickups st ++ [best_pickup];
                   available_pickups :=
                     remove_by_id (OptimizedPickup.pickup_id best_pickup)
                                  (available_pickups st);
                   current_location := OptimizedPickup.destination_partner best_pickup;
                   acc_volume := acc_volume st + OptimizedPickup.estimated_volume best_pickup;
                   acc_time := acc_time st + OptimizedPickup.estimated_duration best_pickup |}
          end
      end
  end.

(** [now] is the rendering of [Date.now()] at the call.  The second
    component is [available_pickups] after the call: the array is the
    caller's and is spliced in place. *)
Definition createOptimalRoute (now : string) (driver : string)
    (available : list (OptimizedPickup.t num))
  : RouteOptimization.t num * list (OptimizedPickup.t num) :=
  let st :=
    route_loop driver max_pickups_per_route
      {| route_pickups := []; available_pickups := available;
         current_location := "depot";
         acc_volume := lit 0 0; acc_time := lit 0 0 |} in
  let locations := map (@OptimizedPickup.source_location num) (route_pickups st) in
  ({| RouteOptimization.route_id :=
        String.append "RT_" (String.append driver (String.append "_" now));
      RouteOptimization.driver := driver;
      RouteOptimization.locations := locations;
      RouteOptimization.total_distance := calculateTotalDistance locations;
      RouteOptimization.total_time := acc_time st;
      RouteOptimization.total_volume := acc_volume st;
      RouteOptimization.total_cost :=
        sum_by (@OptimizedPickup.transport_cost num) (route_pickups st);
      RouteOptimization.pickups := route_pickups st |},
   available_pickups st).

(** [updateRouteMetrics] after [route.pickups.push(pickup)]. *)
Definition push_and_update (pickup : OptimizedPickup.t num)
    (route : RouteOptimization.t num) : RouteOptimization.t num :=
  let pickups :=
    RouteOptimization.pickups route
    ++ [set_driver (RouteOptimization.driver route) pickup] in
  {| RouteOptimization.route_id := RouteOptimization.route_id route;
     RouteOptimization.driver := RouteOptimization.driver route;
     RouteOptimization.locations := RouteOptimization.locations route;
     RouteOptimization.total_distance :=
       calculateTotalDistance (RouteOptimization.locations route);
     RouteOptimization.total_time :=
       sum_by (@OptimizedPickup.estimated_duration num) pickups;
     RouteOptimization.total_volume :=
       sum_by (@OptimizedPickup.estimated_volume num) pickups;
     RouteOptimization.total_cost :=
       sum_by (@OptimizedPickup.transport_cost num) pickups;
     RouteOptimization.pickups := pickups |}.

(** The index of [routes.reduce((best, route) =>
    route.total_time < best.total_time ? route : best)], with the first
    route at index [i0] as the initial [best]. *)
Fixpoint least_time_index (best_i : nat) (best_time : num) (i : nat)
    (routes : list (RouteOptimization.t num)) : nat :=
  match routes with
  | [] => best_i
  | route :: rest =>
      if RouteOptimization.total_time route <? best_time
      then least_time_index i (RouteOptimization.total_time route) (S i) rest
      else least_time_index best_i best_time (S i) rest
  end.

Fixpoint update_nth {A : Type} (i : nat) (f : A -> A) (l : list A) : list A :=
  match l, i with
  | [], _ => []
  | x :: l', O => f x :: l'
  | x :: l', S i' => x :: update_nth i' f l'
  end.

(** Appending one leftover; [None] is the [TypeError] of [reduce] on an
    empty array without an initial value. *)
Definition append_leftover (routes : option (list (RouteOptimization.t num)))
    (pickup : OptimizedPickup.t num) : option (list (RouteOptimization.t num)) :=
  match routes with
  | None => None
  | Some [] => None
  | Some (first :: rest) =>
      let i := least_time_index 0 (RouteOptimization.total_time first) 1 rest in
      Some (update_nth i (push_and_update pickup) (first :: rest))
  end.

(** The first [forEach] of [optimizeRoutes]: one route per driver while
    pickups remain.  [clock k] is what [Date.now()] renders when the
    [k]-th route is created. *)
Fixpoint assign_drivers (clock : nat -> string) (k : nat)
    (drivers : list string) (routes : list (RouteOptimization.t num))
    (remaining : list (OptimizedPickup.t num))
  : list (RouteOptimization.t num) * list (OptimizedPickup.t num) :=
  match drivers with
  | [] => (routes, remaining)
  | driver :: rest =>
      match remaining with
      | [] => assign_drivers clock k rest routes remaining
      | _ =>
          let '(route, remaining1) := createOptimalRoute (clock k) driver remaining in
          let remaining2 :=
            fold_left (fun rem pickup =>
                         remove_by_id (OptimizedPickup.pickup_id pickup) rem)
                      (RouteOptimization.pickups route) remaining1 in
          assign_drivers clock (S k) rest (routes ++ [route]) remaining2
      end
  end.

Definition optimizeRoutes (clock : nat -> string)
    (pickups : list (OptimizedPickup.t num)) (drivers : list string)
  : option (list (RouteOptimization.t num)) :=
  let '(routes, remaining_pickups) := assign_drivers clock 0 drivers [] pickups in
  fold_left append_leftover remaining_pickups (Some routes).

Definition calculateTotals (routes : list (RouteOptimization.t num)) : Totals.t num :=
  fold_left
    (fun totals route =>
       let volume := Totals.volume totals + RouteOptimization.total_volume route in
       let cost := Totals.cost totals + RouteOptimization.total_cost route in
       fold_left
         (fun t pickup =>
            {| Totals.volume := Totals.volume t;
               Totals.meals :=
                 Totals.meals t + OptimizedPickup.estimated_volume pickup * lit 25 1;
               Totals.co2 :=
                 Totals.co2 t + OptimizedPickup.estimated_volume pickup * lit 32 1;
               Totals.cost := Totals.cost t |})
         (RouteOptimization.pickups route)
         {| Totals.volume := volume; Totals.meals := Totals.meals totals;
            Totals.co2 := Totals.co2 totals; Totals.cost := cost |})
    routes
    {| Totals.volume := lit 0 0; Totals.meals := lit 0 0;
       Totals.co2 := lit 0 0; Totals.cost := lit 0 0 |}.

Definition calculateEfficiencyMetrics (totals : Totals.t num)
  : EfficiencyMetrics.t num :=
  let total_pickups :=
    if lit 0 0 <? Totals.volume totals
    then Math_ceil (Totals.volume totals / lit 50 0) else lit 1 0 in
  {| EfficiencyMetrics.avg_pickup_time := lit 25 0;
     EfficiencyMetrics.cost_per_pound :=
       if lit 0 0 <? Totals.volume totals
       then Totals.cost totals / Totals.volume totals else lit 0 0;
     EfficiencyMetrics.meals_per_dollar :=
       if lit 0 0 <? Totals.cost totals
       then Totals.meals totals / Totals.cost totals else lit 0 0;
     EfficiencyMetrics.co2_per_pickup :=
       if lit 0 0 <? total_pickups
       then Totals.co2 totals / total_pickups else lit 0 0 |}.

Definition optimizePickups (clock : nat -> string)
    (input : PickupOptimizationInput.t num) : option (TrackerResult.t num) :=
  let location_insights :=
    analyzeLocationPatterns (PickupOptimizationInput.available_locations input) in
  let pickup_suggestions := generatePickupSuggestions input location_insights in
  match optimizeRoutes clock pickup_suggestions
          (PickupOptimizationInput.available_drivers input) with
  | None => None
  | Some optimized_routes =>
      let totals := calculateTotals optimized_routes in
      Some {| TrackerResult.optimized_routes := optimized_routes;
              TrackerResult.total_volume_rescued := Totals.volume totals;
              TrackerResult.total_meals_equivalent := Totals.meals totals;
              TrackerResult.total_co2_savings := Totals.co2 totals;
              TrackerResult.total_transport_cost := Totals.cost totals;
              TrackerResult.efficiency_metrics := calculateEfficiencyMetrics totals |}
  end.
End S.
End TrackerService.

(* ================================================================== *)
(** * Impact projector (services/impactService.ts, class ImpactService) *)
(* ================================================================== *)

Inductive ProjectionPeriod : Type := week | month | quarter | year.

Module InterventionScenarios.
Record t (num : Type) : Type := {
  waste_reduction_target : option num;
  pickup_efficiency_improvement : option num;
  cost_optimization_target : option num
}.
End InterventionScenarios.

Module ImpactProjectionInput.
Record t (num : Type) : Type := {
  projection_period : ProjectionPeriod;
  intervention_scenarios : option (InterventionScenarios.t num);
  baseline_date : option string
}.
End ImpactProjectionInput.

Module ImpactMetrics.
Record t (num : Type) : Type := {
  food_rescued_lbs : num;
  meals_provided : num;
  co2_emissions_avoided_lbs : num;
  money_saved : num;
  waste_disposal_cost_avoided : num;
  volunteer_hours : num;
  operational_savings : num;
  community_impact_score : num
}.
End ImpactMetrics.

(** The object [calculateDailyAverages] builds, keyed as the data rows. *)
Module DailyAverages.
Record t (num : Type) : Type := {
  food_rescued_lbs_daily : num;
  meals_provided_to_community_daily : num;
  co2_emissions_avoided_lbs_daily : num;
  money_saved_daily : num;
  waste_disposal_cost_avoided_daily : num;
  volunteer_hours_daily : num;
  operational_savings_daily : num;
  community_impact_score_daily : num
}.
End DailyAverages.

Module TrendMultipliers.
Record t (num : Type) : Type := {
  food_rescued : num;
  meals : num;
  co2 : num;
  money : num;
  waste_cost : num;
  volunteer : num;
  operational : num;
  community : num
}.
End TrendMultipliers.

Module ScenarioMultipliers.
Record t (num : Type) : Type := {
  waste_reduction : num;
  pickup_efficiency : num;
  cost_optimization : num
}.
End ScenarioMultipliers.

Module FinancialSummary.
Record t (num : Type) : Type := {
  total_cost_savings : num;
  roi_percentage : num;
  payback_period_months : num
}.
End FinancialSummary.

(** Without the sentence [co2_reduction_equivalent], which prints numbers. *)
Module EnvironmentalSummary.
Record t (num : Type) : Type := {
  water_saved_gallons : num;
  landfill_diversion_lbs : num
}.
End EnvironmentalSummary.

Module SocialSummary.
Record t (num : Type) : Type := {
  people_fed : num;
  community_partnerships : nat;
  volunteer_engagement_hours : num
}.
End SocialSummary.

Module ImpactProjection.
Record t (num : Type) : Type := {
  current_metrics : ImpactMetrics.t num;
  projected_metrics : ImpactMetrics.t num;
  improvement_potential : ImpactMetrics.t num;
  financial_summary : FinancialSummary.t num;
  environmental_summary : EnvironmentalSummary.t num;
  social_summary : SocialSummary.t num
}.
End ImpactProjection.

Inductive Trend : Type := improving | stable | declining.

Module ComparisonMetrics.
Record t (num : Type) : Type := {
  period : string;
  metrics : ImpactMetrics.t num;
  trend : Trend;
  percentage_change : num
}.
End ComparisonMetrics.

Module ImpactService.
Section S.
Context {num : Type} `{JSNumber num}.
Variable host : Host num.
Variable impact_data : list (ImpactTracking.t num).
Variable pickup_data : list (PickupOperation.t num).
Local Open Scope js_scope.

Definition getDefaultMetrics : ImpactMetrics.t num :=
  {| ImpactMetrics.food_rescued_lbs := lit 15000 0;
     ImpactMetrics.meals_provided := lit 18000 0;
     ImpactMetrics.co2_emissions_avoided_lbs := lit 48000 0;
     ImpactMetrics.money_saved := lit 52500 0;
     ImpactMetrics.waste_disposal_cost_avoided := lit 4500 0;
     ImpactMetrics.volunteer_hours := lit 1200 0;
     ImpactMetrics.operational_savings := lit 8000 0;
     ImpactMetrics.community_impact_score := lit 75 0 |}.

Definition calculateDailyAverages (data : list (ImpactTracking.t num))
  : DailyAverages.t num :=
  let count := num_of_nat (List.length data) in
  {| DailyAverages.food_rescued_lbs_daily :=
       sum_by (@ImpactTracking.food_rescued_lbs_daily num) data / count;
     DailyAverages.meals_provided_to_community_daily :=
       sum_by (@ImpactTracking.meals_provided_to_community_daily num) data / count;
     DailyAverages.co2_emissions_avoided_lbs_daily :=
       sum_by (@ImpactTracking.co2_emissions_avoided_lbs_daily num) data / count;
     DailyAverages.money_saved_daily :=
       sum_by (@ImpactTracking.money_saved_daily num) data / count;
     DailyAverages.waste_disposal_cost_avoided_daily :=
       sum_by (@ImpactTracking.waste_disposal_cost_avoided_daily num) data / count;
     DailyAverages.volunteer_hours_daily :=
       sum_by (@ImpactTracking.volunteer_hours_daily num) data / count;
     DailyAverages.operational_savings_daily :=
       sum_by (@ImpactTracking.operational_savings_daily num) data / count;
     DailyAverages.community_impact_score_daily :=
       sum_by (@ImpactTracking.community_impact_score_daily num) data / count |}.

Definition calculateCurrentMetrics (baseline_date : option string)
  : ImpactMetrics.t num :=
  let relevant_data :=
    match baseline_date with
    | Some b =>
        if String.eqb b "" then slice_last 30 impact_data
        else
          let cutoff_date := getTime_30_days_before host b in
          filter (fun d =>
                    ngeb (getTime host (ImpactTracking.date d)) cutoff_date
                    && (getTime host (ImpactTracking.date d) <=? getTime host b))
                 impact_data
    | None => slice_last 30 impact_data
    end in
  match relevant_data with
  | [] => getDefaultMetrics
  | _ =>
      let daily_averages := calculateDailyAverages relevant_data in
      {| ImpactMetrics.food_rescued_lbs :=
           DailyAverages.food_rescued_lbs_daily daily_averages * lit 365 0;
         ImpactMetrics.meals_provided :=
           DailyAverages.meals_provided_to_community_daily daily_averages * lit 365 0;
         ImpactMetrics.co2_emissions_avoided_lbs :=
           DailyAverages.co2_emissions_avoided_lbs_daily daily_averages * lit 365 0;
         ImpactMetrics.money_saved :=
           DailyAverages.money_saved_daily daily_averages * lit 365 0;
         ImpactMetrics.waste_disposal_cost_avoided :=
           DailyAverages.waste_disposal_cost_avoided_daily daily_averages * lit 365 0;
         ImpactMetrics.volunteer_hours :=
           DailyAverages.volunteer_hours_daily daily_averages * lit 365 0;
         ImpactMetrics.operational_savings :=
           DailyAverages.operational_savings_daily daily_averages * lit 365 0;
         ImpactMetrics.community_impact_score :=
           DailyAverages.community_impact_score_daily daily_averages * lit 365 0 |}
  end.

Definition calculateTrendRatio (recent older : num) : num :=
  if older =? lit 0 0 then lit 1 0
  else
    let ratio := recent / older in
    Math_max (lit 8 1) (Math_min (lit 13 1) ratio).

Definition recent_window : list (ImpactTracking.t num) := slice_last 14 impact_data.
Definition older_window : list (ImpactTracking.t num) := slice_between 28 14 impact_data.

Definition calculateTrendMultipliers : TrendMultipliers.t num :=
  let recent_data := recent_window in
  let older_data := older_window in
  if (List.length recent_data =? 0)%nat || (List.length older_data =? 0)%nat
  then
    {| TrendMultipliers.food_rescued := lit 102 2;
       TrendMultipliers.meals := lit 102 2;
       TrendMultipliers.co2 := lit 102 2;
       TrendMultipliers.money := lit 101 2;
       TrendMultipliers.waste_cost := lit 101 2;
       TrendMultipliers.volunteer := lit 1 0;
       TrendMultipliers.operational := lit 101 2;
       TrendMultipliers.community := lit 101 2 |}
  else
    let recent_avg := calculateDailyAverages recent_data in
    let older_avg := calculateDailyAverages older_data in
    {| TrendMultipliers.food_rescued :=
         calculateTrendRatio (DailyAverages.food_rescued_lbs_daily recent_avg)
                             (DailyAverages.food_rescued_lbs_daily older_avg);
       TrendMultipliers.meals :=
         calculateTrendRatio
           (DailyAverages.meals_provided_to_community_daily recent_avg)
           (DailyAverages.meals_provided_to_community_daily older_avg);
       TrendMultipliers.co2 :=
         calculateTrendRatio
           (DailyAverages.co2_emissions_avoided_lbs_daily recent_avg)
           (DailyAverages.co2_emissions_avoided_lbs_daily older_avg);
       TrendMultipliers.money :=
         calculateTrendRatio (DailyAverages.money_saved_daily recent_avg)
                             (DailyAverages.money_saved_daily older_avg);
       TrendMultipliers.waste_cost :=
         calculateTrendRatio
           (DailyAverages.waste_disposal_cost_avoided_daily recent_avg)
           (DailyAverages.waste_disposal_cost_avoided_daily older_avg);
       TrendMultipliers.volunteer :=
         calculateTrendRatio (DailyAverages.volunteer_hours_daily recent_avg)
                             (DailyAverages.volunteer_hours_daily older_avg);
       TrendMultipliers.operational :=
         calculateTrendRatio (DailyAverages.operational_savings_daily recent_avg)
                             (DailyAverages.operational_savings_daily older_avg);
       TrendMultipliers.community :=
         calculateTrendRatio
           (DailyAverages.community_impact_score_daily recent_avg)
           (DailyAverages.community_impact_score_daily older_avg) |}.

Definition calculateScenarioMultipliers
    (scenarios : option (InterventionScenarios.t num))
  : ScenarioMultipliers.t num :=
  match scenarios with
  | None =>
      {| ScenarioMultipliers.waste_reduction := lit 1 0;
         ScenarioMultipliers.pickup_efficiency := lit 1 0;
         ScenarioMultipliers.cost_optimization := lit 1 0 |}
  | Some sc =>
      {| ScenarioMultipliers.waste_reduction :=
           lit 1 0
           + opt_or_default (InterventionScenarios.waste_reduction_target sc) (lit 0 0)
             / lit 100 0;
         ScenarioMultipliers.pickup_efficiency :=
           lit 1 0
           + opt_or_default (InterventionScenarios.pickup_efficiency_improvement sc)
                            (lit 0 0)
             / lit 100 0;
         ScenarioMultipliers.cost_optimization :=
           lit 1 0
           + opt_or_default (InterventionScenarios.cost_optimization_target sc) (lit 0 0)
             / lit 100 0 |}
  end.

Definition period_multiplier_of (p : ProjectionPeriod) : num :=
  match p with
  | week => lit 1 0 / lit 52 0
  | month => lit 1 0 / lit 12 0
  | quarter => lit 1 0 / lit 4 0
  | year => lit 1 0
  end.

Definition projectFutureImpact (current : ImpactMetrics.t num)
    (input : ImpactProjectionInput.t num) : ImpactMetrics.t num :=
  let trend_multipliers := calculateTrendMultipliers in
  let period_multiplier :=
    period_multiplier_of (ImpactProjectionInput.projection_period input) in
  let scenario_multipliers :=
    calculateScenarioMultipliers (ImpactProjectionInput.intervention_scenarios input) in
  {| ImpactMetrics.food_rescued_lbs :=
       ImpactMetrics.food_rescued_lbs current * period_multiplier
       * TrendMultipliers.food_rescued trend_multipliers
       * ScenarioMultipliers.waste_reduction scenario_multipliers;
     ImpactMetrics.meals_provided :=
       ImpactMetrics.meals_provided current * period_multiplier
       * TrendMultipliers.meals trend_multipliers
       * ScenarioMultipliers.waste_reduction scenario_multipliers;
     ImpactMetrics.co2_emissions_avoided_lbs :=
       ImpactMetrics.co2_emissions_avoided_lbs current * period_multiplier
       * TrendMultipliers.co2 trend_multipliers
       * ScenarioMultipliers.waste_reduction scenario_multipliers;
     ImpactMetrics.money_saved :=
       ImpactMetrics.money_saved current * period_multiplier
       * TrendMultipliers.money trend_multipliers
       * ScenarioMultipliers.cost_optimization scenario_multipliers;
     ImpactMetrics.waste_disposal_cost_avoided :=
       ImpactMetrics.waste_disposal_cost_avoided current * period_multiplier
       * TrendMultipliers.waste_cost trend_multipliers
       * ScenarioMultipliers.waste_reduction scenario_multipliers;
     ImpactMetrics.volunteer_hours :=
       ImpactMetrics.volunteer_hours current * period_multiplier
       * TrendMultipliers.volunteer trend_multipliers
       * ScenarioMultipliers.pickup_efficiency scenario_multipliers;
     ImpactMetrics.operational_savings :=
       ImpactMetrics.operational_savings current * period_multiplier
       * TrendMultipliers.operational trend_multipliers
       * ScenarioMultipliers.cost_optimization scenario_multipliers;
     ImpactMetrics.community_impact_score :=
       ImpactMetrics.community_impact_score current * period_multiplier
       * TrendMultipliers.community trend_multipliers
       * lit 1 0 |}.

Definition calculateImprovementPotential (current projected : ImpactMetrics.t num)
  : ImpactMetrics.t num :=
  {| ImpactMetrics.food_rescued_lbs :=
       ImpactMetrics.food_rescued_lbs projected - ImpactMetrics.food_rescued_lbs current;
     ImpactMetrics.meals_provided :=
       ImpactMetrics.meals_provided projected - ImpactMetrics.meals_provided current;
     ImpactMetrics.co2_emissions_avoided_lbs :=
       ImpactMetrics.co2_emissions_avoided_lbs projected
       - ImpactMetrics.co2_emissions_avoided_lbs current;
     ImpactMetrics.money_saved :=
       ImpactMetrics.money_saved projected - ImpactMetrics.money_saved current;
     ImpactMetrics.waste_disposal_cost_avoided :=
       ImpactMetrics.waste_disposal_cost_avoided projected
       - ImpactMetrics.waste_disposal_cost_avoided current;
     ImpactMetrics.volunteer_hours :=
       ImpactMetrics.volunteer_hours projected - ImpactMetrics.volunteer_hours current;
     ImpactMetrics.operational_savings :=
       ImpactMetrics.operational_savings projected
       - ImpactMetrics.operational_savings current;
     ImpactMetrics.community_impact_score :=
       ImpactMetrics.community_impact_score projected
       - ImpactMetrics.community_impact_score current |}.

Definition calculateFinancialSummary (current projected : ImpactMetrics.t num)
  : FinancialSummary.t num :=
  let total_savings :=
    ImpactMetrics.money_saved projected
    + ImpactMetrics.waste_disposal_cost_avoided projected
    + ImpactMetrics.operational_savings projected in
  let current_savings :=
    ImpactMetrics.money_saved current
    + ImpactMetrics.waste_disposal_cost_avoided current
    + ImpactMetrics.operational_savings current in
  let improvement := total_savings - current_savings in
  let implementation_cost := Math_max (lit 5000 0) (improvement * lit 1 1) in
  let roi_percentage :=
    if lit 0 0 <? implementation_cost
    then (improvement / implementation_cost) * lit 100 0 else lit 0 0 in
  let payback_period_months :=
    if lit 0 0 <? improvement
    then implementation_cost / (improvement / lit 12 0) else lit 0 0 in
  {| FinancialSummary.total_cost_savings := total_savings;
     FinancialSummary.roi_percentage :=
       Math_round (roi_percentage * lit 100 0) / lit 100 0;
     FinancialSummary.payback_period_months :=
       Math_round (payback_period_months * lit 100 0) / lit 100 0 |}.

Definition calculateEnvironmentalSummary (metrics : ImpactMetrics.t num)
  : EnvironmentalSummary.t num :=
  let water_saved_gallons := ImpactMetrics.food_rescued_lbs metrics * lit 25 0 in
  {| EnvironmentalSummary.water_saved_gallons := Math_round water_saved_gallons;
     EnvironmentalSummary.landfill_diversion_lbs :=
       ImpactMetrics.food_rescued_lbs metrics |}.

(** [new Set(xs).size]. *)
Definition count_distinct (xs : list string) : nat :=
  List.length (nodup string_dec xs).

Definition calculateSocialSummary (metrics : ImpactMetrics.t num)
  : SocialSummary.t num :=
  {| SocialSummary.people_fed :=
       Math_round (ImpactMetrics.meals_provided metrics / (lit 3 0 * lit 365 0));
     SocialSummary.community_partnerships :=
       count_distinct (map (@PickupOperation.destination_partner num) pickup_data);
     SocialSummary.volunteer_engagement_hours :=
       Math_round (ImpactMetrics.volunteer_hours metrics) |}.

Definition calculateImpact (input : ImpactProjectionInput.t num)
  : ImpactProjection.t num :=
  let current_metrics :=
    calculateCurrentMetrics (ImpactProjectionInput.baseline_date input) in
  let projected_metrics := projectFutureImpact current_metrics input in
  {| ImpactProjection.current_metrics := current_metrics;
     ImpactProjection.projected_metrics := projected_metrics;
     ImpactProjection.improvement_potential :=
       calculateImprovementPotential current_metrics projected_metrics;
     ImpactProjection.financial_summary :=
       calculateFinancialSummary current_metrics projected_metrics;
     ImpactProjection.environmental_summary :=
       calculateEnvironmentalSummary projected_metrics;
     ImpactProjection.social_summary := calculateSocialSummary projected_metrics |}.

Definition getDataForPeriod (period : string) : list (ImpactTracking.t num) :=
  filter (fun d => startsWith period (ImpactTracking.date d)) impact_data.

Definition calculatePeriodMetrics (data : list (ImpactTracking.t num))
  : ImpactMetrics.t num :=
  match data with
  | [] => getDefaultMetrics
  | _ =>
      {| ImpactMetrics.food_rescued_lbs :=
           sum_by (@ImpactTracking.food_rescued_lbs_daily num) data;
         ImpactMetrics.meals_provided :=
           sum_by (@ImpactTracking.meals_provided_to_community_daily num) data;
         ImpactMetrics.co2_emissions_avoided_lbs :=
           sum_by (@ImpactTracking.co2_emissions_avoided_lbs_daily num) data;
         ImpactMetrics.money_saved :=
           sum_by (@ImpactTracking.money_saved_daily num) data;
         ImpactMetrics.waste_disposal_cost_avoided :=
           sum_by (@ImpactTracking.waste_disposal_cost_avoided_daily num) data;
         ImpactMetrics.volunteer_hours :=
           sum_by (@ImpactTracking.volunteer_hours_daily num) data;
         ImpactMetrics.operational_savings :=
           sum_by (@ImpactTracking.operational_savings_daily num) data;
         ImpactMetrics.community_impact_score :=
           sum_by (@ImpactTracking.community_impact_score_daily num) data |}
  end.

Definition calculatePeriodTrend (period : string) : Trend :=
  let period_data := getDataForPeriod period in
  if (List.length period_data <? 7)%nat then stable
  else
    let first_week := firstn 7 period_data in
    let last_week := slice_last 7 period_data in
    let first_avg :=
      average_by (@ImpactTracking.community_impact_score_daily num) first_week in
    let last_avg :=
      average_by (@ImpactTracking.community_impact_score_daily num) last_week in
    if first_avg * lit 105 2 <? last_avg then improving
    else if last_avg <? first_avg * lit 95 2 then declining
    else stable.

(** [random] is the value [Math.random()] returns at the call. *)
Definition calculatePercentageChange (random : num) (period : string) : num :=
  Math_round ((random - lit 5 1) * lit 40 0 * lit 100 0) / lit 100 0.

(** [random k] is the [k]-th draw of [Math.random()] during the call. *)
Fixpoint comparison_from (random : nat -> num) (k : nat) (periods : list string)
  : list (ComparisonMetrics.t num) :=
  match periods with
  | [] => []
  | period :: rest =>
      {| ComparisonMetrics.period := period;
         ComparisonMetrics.metrics := calculatePeriodMetrics (getDataForPeriod period);
         ComparisonMetrics.trend := calculatePeriodTrend period;
         ComparisonMetrics.percentage_change :=
           calculatePercentageChange (random k) period |}
      :: comparison_from random (S k) rest
  end.

Definition getHistoricalComparison (random : nat -> num) (periods : list string)
  : list (ComparisonMetrics.t num) :=
  comparison_from random 0 periods.
End S.
End ImpactService.

(* ================================================================== *)
(** * Forecast calculator, regression model (class ForecastModel) *)
(* ================================================================== *)

Module TrainedModel.
Record t (num : Type) : Type := {
  coefficients : list num;
  r2 : num;
  residuals : list num;
  accuracy : num;
  feature_importance : list num
}.
End TrainedModel.

Module ForecastModel.
Section S.
Context {num : Type} `{JSNumber num}.
Variable host : Host num.
Variable production_data : list (DailyProduction.t num).
Variable external_data : list (ExternalFactor.t num).
Local Open Scope js_scope.

(** [model_cache]: a [Map] from [`model_${menu_item}`] to the model. *)
Definition Cache : Type := list (string * TrainedModel.t num).

Definition waste_of (d : DailyProduction.t num) : num :=
  DailyProduction.waste_percentage d.

Definition getMenuItemData (menu_item : string) : list (DailyProduction.t num) :=
  filter (fun d => String.eqb (DailyProduction.menu_item d) menu_item)
         production_data.

Definition encodeWeather (weather : string) : num :=
  opt_or_default
    (lookup (toLowerCase weather)
       [("sunny", lit 1 0); ("cloudy", lit 2 0); ("rainy", lit 3 0);
        ("stormy", lit 4 0)])
    (lit 1 0).

Definition encodeSpecialEvent (event : string) : num :=
  opt_or_default
    (lookup (toLowerCase event)
       [("none", lit 0 0); ("holiday", lit 1 0); ("orientation", lit 2 0);
        ("exam_week", lit 3 0); ("spring_break", lit 4 0);
        ("sports_game", lit 5 0); ("graduation", lit 6 0)])
    (lit 0 0).

Definition getAverageWastePercentage (menu_item : string) : num :=
  match getMenuItemData menu_item with
  | [] => lit 15 0
  | data => average_by waste_of data
  end.

Definition getSeasonalFactor (menu_item : string) (month : num) : num :=
  let data := getMenuItemData menu_item in
  let seasonal_data :=
    filter (fun d => getMonth host (DailyProduction.date d) =? month) data in
  match seasonal_data with
  | [] => lit 1 0
  | _ => average_by waste_of seasonal_data / average_by waste_of data
  end.

Definition getHistoricalAverage (menu_item before_date : string) : num :=
  let data :=
    slice_last 10
      (filter (fun d => String.ltb (DailyProduction.date d) before_date)
              (getMenuItemData menu_item)) in
  match data with
  | [] => lit 15 0
  | _ => average_by waste_of data
  end.

Definition external_of (date : string) : option (ExternalFactor.t num) :=
  find (fun e => String.eqb (ExternalFactor.date e) date) external_data.

Definition prepareFeatures (input : ForecastInput.t num)
    (historical_data : list (DailyProduction.t num)) : list num :=
  let day_of_week := getDay host (ForecastInput.date input) in
  let month := getMonth host (ForecastInput.date input) in
  let external := external_of (ForecastInput.date input) in
  let weather_encoding :=
    encodeWeather (str_or_default (ForecastInput.weather input) "sunny") in
  let special_event_encoding :=
    encodeSpecialEvent (str_or_default (ForecastInput.special_event input) "none") in
  let avg_waste_percentage :=
    getAverageWastePercentage (ForecastInput.menu_item input) in
  let seasonal_factor := getSeasonalFactor (ForecastInput.menu_item input) month in
  [ day_of_week; month; weather_encoding;
    opt_or_default (ForecastInput.temperature input) (lit 65 0);
    special_event_encoding;
    opt_or_default (ForecastInput.estimated_students input) (lit 1000 0) / lit 1000 0;
    avg_waste_percentage; seasonal_factor;
    opt_or_default (option_map (@ExternalFactor.student_population_factor num) external)
                   (lit 1 0);
    opt_or_default (option_map (@ExternalFactor.precipitation_inches num) external)
                   (lit 0 0) ].

Definition prepareHistoricalFeatures (record : DailyProduction.t num) : list num :=
  let day_of_week := getDay host (DailyProduction.date record) in
  let month := getMonth host (DailyProduction.date record) in
  let external := external_of (DailyProduction.date record) in
  [ day_of_week; month;
    encodeWeather (DailyProduction.weather record);
    DailyProduction.temperature_f record;
    encodeSpecialEvent (DailyProduction.special_event record);
    DailyProduction.estimated_students record / lit 1000 0;
    getHistoricalAverage (DailyProduction.menu_item record) (DailyProduction.date record);
    getSeasonalFactor (DailyProduction.menu_item record) month;
    opt_or_default (option_map (@ExternalFactor.student_population_factor num) external)
                   (lit 1 0);
    opt_or_default (option_map (@ExternalFactor.precipitation_inches num) external)
                   (lit 0 0) ].

Definition getCategoryModel (category : string) : TrainedModel.t num :=
  let category_data :=
    filter (fun d => String.eqb (DailyProduction.category d) category)
           production_data in
  let avg_waste := average_by waste_of category_data in
  {| TrainedModel.coefficients := [avg_waste];
     TrainedModel.r2 := lit 5 1;
     TrainedModel.residuals := [lit 0 0];
     TrainedModel.accuracy := lit 7 1;
     TrainedModel.feature_importance := [] |}.

(** One fold of the cross-validation: the accuracy on rows
    [start .. start + fold_size - 1] of a model trained on the others. *)
Definition fold_accuracy (X : list (list num)) (y : list num)
    (fold_size i : nat) : option num :=
  let start := (i * fold_size)%nat in
  let X_train := firstn start X ++ skipn (start + fold_size) X in
  let y_train := firstn start y ++ skipn (start + fold_size) y in
  let X_test := firstn fold_size (skipn start X) in
  let y_test := firstn fold_size (skipn start y) in
  match Statistics.multipleRegression X_train y_train with
  | None => None
  | Some model =>
      let predictions :=
        map (fun features =>
               Statistics.predictWithCoefficients
                 (lit 1 0 :: features) (Statistics.coefficients model))
            X_test in
      let mse :=
        fold_left
          (fun s idx =>
             s + Statistics.square
                   (Statistics.at_index idx predictions - Statistics.at_index idx y_test))
          (seq 0 (List.length predictions)) (lit 0 0)
        / num_of_nat (List.length predictions) in
      Some (Math_max (lit 0 0) (lit 1 0 - Math_sqrt mse / lit 20 0))
  end.

Definition crossValidateModel (X : list (list num)) (y : list num) : option num :=
  let folds := 5%nat in
  let fold_size := (List.length X / folds)%nat in
  let total_accuracy :=
    fold_left
      (fun (total : option num) i =>
         match total, fold_accuracy X y fold_size i with
         | Some t, Some a => Some (t + a)
         | _, _ => None
         end)
      (seq 0 folds) (Some (lit 0 0)) in
  option_map (fun t => t / num_of_nat folds) total_accuracy.

Definition calculateFeatureImportance (coefficients : list num) : list num :=
  map Math_abs (tl coefficients).

(** [None] stands for an exception ([multipleRegression] on no rows). *)
Definition trainModel (menu_item : string) : option (TrainedModel.t num) :=
  let menu_item_data := getMenuItemData menu_item in
  if (List.length menu_item_data <? 5)%nat
  then
    Some (getCategoryModel
            (str_or_default
               (option_map (@DailyProduction.category num) (hd_error menu_item_data))
               "Entree"))
  else
    let X := map prepareHistoricalFeatures menu_item_data in
    let y := map waste_of menu_item_data in
    match Statistics.multipleRegression X y with
    | None => None
    | Some regression =>
        let residuals :=
          map (fun i =>
                 Statistics.at_index i y
                 - Statistics.predictWithCoefficients
                     (lit 1 0 :: nth i X []) (Statistics.coefficients regression))
              (seq 0 (List.length y)) in
        match crossValidateModel X y with
        | None => None
        | Some accuracy =>
            Some {| TrainedModel.coefficients := Statistics.coefficients regression;
                    TrainedModel.r2 := Statistics.r2 regression;
                    TrainedModel.residuals := residuals;
                    TrainedModel.accuracy := accuracy;
                    TrainedModel.feature_importance :=
                      calculateFeatureImportance (Statistics.coefficients regression) |}
        end
    end.

Definition cache_key (menu_item : string) : string :=
  String.append "model_" menu_item.

Definition getOrTrainModel (cache : Cache) (menu_item : string)
  : option (TrainedModel.t num * Cache) :=
  match lookup (cache_key menu_item) cache with
  | Some model => Some (model, cache)
  | None =>
      match trainModel menu_item with
      | None => None
      | Some model => Some (model, map_set (cache_key menu_item) model cache)
      end
  end.

Definition predictWastePercentage (features : list num) (model : TrainedModel.t num)
  : num :=
  let prediction :=
    Statistics.predictWithCoefficients (lit 1 0 :: features)
                                       (TrainedModel.coefficients model) in
  Math_max (lit 0 0) (Math_min (lit 100 0) prediction).

Definition calculateConfidenceInterval (model : TrainedModel.t num) : Interval.t num :=
  let std_residual :=
    Math_sqrt
      (fold_left (fun s r => s + r * r) (TrainedModel.residuals model) (lit 0 0)
       / num_of_nat (List.length (TrainedModel.residuals model))) in
  let margin := lit 196 2 * std_residual in
  {| Interval.lower := nopp margin; Interval.upper := margin |}.

Definition optimizeQuantity (input : ForecastInput.t num)
    (predicted_waste_percentage : num) : num :=
  let target_waste_percentage := lit 5 0 in
  let adjustment_factor :=
    if target_waste_percentage <? predicted_waste_percentage
    then (lit 100 0 - target_waste_percentage)
         / (lit 100 0 - predicted_waste_percentage)
    else lit 1 0 in
  Math_round (ForecastInput.quantity_to_prepare input * adjustment_factor).

Definition analyzeFactorInfluence (historical_data : list (DailyProduction.t num))
  : FactorsInfluence.t num :=
  let weather_data :=
    map (fun d => encodeWeather (DailyProduction.weather d)) historical_data in
  let waste_data := map waste_of historical_data in
  let day_data := map (fun d => getDay host (DailyProduction.date d)) historical_data in
  let event_data :=
    map (fun d => encodeSpecialEvent (DailyProduction.special_event d)) historical_data in
  let month_data :=
    map (fun d => getMonth host (DailyProduction.date d)) historical_data in
  {| FactorsInfluence.weather_impact :=
       Math_abs (Statistics.correlation weather_data waste_data) * lit 100 0;
     FactorsInfluence.day_of_week_impact :=
       Math_abs (Statistics.correlation day_data waste_data) * lit 100 0;
     FactorsInfluence.seasonal_impact :=
       Math_abs (Statistics.correlation month_data waste_data) * lit 100 0;
     FactorsInfluence.event_impact :=
       Math_abs (Statistics.correlation event_data waste_data) * lit 100 0 |}.

Definition predictFromCategory (input : ForecastInput.t num)
  : ForecastResult.t num :=
  let category :=
    str_or_default
      (option_map (@DailyProduction.category num)
         (find (fun d => String.eqb (DailyProduction.menu_item d)
                                    (ForecastInput.menu_item input))
               production_data))
      "Entree" in
  let category_data :=
    filter (fun d => String.eqb (DailyProduction.category d) category)
           production_data in
  let category_avg := average_by waste_of category_data in
  let predicted_waste :=
    (category_avg / lit 100 0) * ForecastInput.quantity_to_prepare input in
  {| ForecastResult.predicted_waste := predicted_waste;
     ForecastResult.predicted_waste_percentage := category_avg;
     ForecastResult.confidence_interval :=
       {| Interval.lower := nopp (lit 5 0); Interval.upper := lit 5 0 |};
     ForecastResult.recommended_quantity :=
       ForecastInput.quantity_to_prepare input * lit 95 2;
     ForecastResult.potential_savings := lit 0 0;
     ForecastResult.model_accuracy := lit 7 1;
     ForecastResult.factors_influence :=
       {| FactorsInfluence.weather_impact := lit 0 0;
          FactorsInfluence.day_of_week_impact := lit 0 0;
          FactorsInfluence.seasonal_impact := lit 0 0;
          FactorsInfluence.event_impact := lit 0 0 |} |}.

(** [predict] with the cache before and after the call. *)
Definition predict (cache : Cache) (input : ForecastInput.t num)
  : option (ForecastResult.t num * Cache) :=
  let menu_item_data := getMenuItemData (ForecastInput.menu_item input) in
  if (List.length menu_item_data <? 5)%nat
  then Some (predictFromCategory input, cache)
  else
    let features := prepareFeatures input menu_item_data in
    match getOrTrainModel cache (ForecastInput.menu_item input) with
    | None => None
    | Some (model, cache1) =>
        let predicted_waste_percentage := predictWastePercentage features model in
        let predicted_waste :=
          (predicted_waste_percentage / lit 100 0)
          * ForecastInput.quantity_to_prepare input in
        match getOrTrainModel cache1 (ForecastInput.menu_item input) with
        | None => None
        | Some (model_ci, cache2) =>
            let confidence_interval := calculateConfidenceInterval model_ci in
            let recommended_quantity :=
              optimizeQuantity input predicted_waste_percentage in
            let current_avg_waste :=
              getAverageWastePercentage (ForecastInput.menu_item input) in
            let potential_savings :=
              Math_max (lit 0 0)
                ((current_avg_waste - predicted_waste_percentage) / lit 100 0
                 * ForecastInput.quantity_to_prepare input) in
            Some
              ({| ForecastResult.predicted_waste := predicted_waste;
                  ForecastResult.predicted_waste_percentage := predicted_waste_percentage;
                  ForecastResult.confidence_interval :=
                    {| Interval.lower :=
                         Math_max (lit 0 0)
                           (predicted_waste + Interval.lower confidence_interval);
                       Interval.upper :=
                         predicted_waste + Interval.upper confidence_interval |};
                  ForecastResult.recommended_quantity := recommended_quantity;
                  ForecastResult.potential_savings := potential_savings;
                  ForecastResult.model_accuracy := TrainedModel.accuracy model;
                  ForecastResult.factors_influence :=
                    analyzeFactorInfluence menu_item_data |},
               cache2)
        end
    end.
End S.
End ForecastModel.

(* ================================================================== *)
(** * Sample records *)
(* ================================================================== *)

(** Rows of the loaded tables used to evaluate the calculators; the fields
    that an example does not read carry a neutral value. *)
Section Samples.
Context {num : Type} `{JSNumber num}.

(** A production row; [waste] is the waste percentage in tenths. *)
Definition production_row (date day item category : string)
    (waste students : Z) (weather event : string) (temp : Z)
  : DailyProduction.t num :=
  {| DailyProduction.date := date;
     DailyProduction.day_of_week := day;
     DailyProduction.menu_item := item;
     DailyProduction.category := category;
     DailyProduction.quantity_prepared := lit 100 0;
     DailyProduction.quantity_served := lit 100 0;
     DailyProduction.quantity_wasted := lit 0 0;
     DailyProduction.waste_percentage := lit waste 1;
     DailyProduction.estimated_students := lit students 0;
     DailyProduction.weather := weather;
     DailyProduction.special_event := event;
     DailyProduction.temperature_f := lit temp 0 |}.

(** An external-factor row; population factor and precipitation in
    tenths. *)
Definition external_row (date : string) (factor precipitation : Z)
  : ExternalFactor.t num :=
  {| ExternalFactor.date := date;
     ExternalFactor.day_of_week := "";
     ExternalFactor.month := "";
     ExternalFactor.is_weekend := false;
     ExternalFactor.is_holiday := false;
     ExternalFactor.holiday_name := "";
     ExternalFactor.weather_condition := "Sunny";
     ExternalFactor.temperature_f := lit 70 0;
     ExternalFactor.precipitation_inches := lit precipitation 1;
     ExternalFactor.campus_event := "";
     ExternalFactor.student_population_factor := lit factor 1;
     ExternalFactor.semester_status := "";
     ExternalFactor.local_event := "" |}.

Definition forecast_request (item date : string) (weather : option string)
    (temperature students : option Z) (quantity : Z) : ForecastInput.t num :=
  {| ForecastInput.menu_item := item;
     ForecastInput.date := date;
     ForecastInput.weather := weather;
     ForecastInput.temperature := option_map (fun t => lit t 0) temperature;
     ForecastInput.special_event := None;
     ForecastInput.estimated_students := option_map (fun t => lit t 0) students;
     ForecastInput.quantity_to_prepare := lit quantity 0 |}.

(** A catalog row of the given category, name, cost per serving and
    popularity. *)
Definition dish (category name : string) (cost popularity : Z)
  : MenuPlanning.t num :=
  {| MenuPlanning.week_start_date := "2024-06-03";
     MenuPlanning.menu_category := category;
     MenuPlanning.dish_name := name;
     MenuPlanning.dish_type := "main";
     MenuPlanning.preparation_time_hours := lit 1 0;
     MenuPlanning.ingredient_cost_per_serving := lit cost 0;
     MenuPlanning.selling_price := lit 5 0;
     MenuPlanning.shelf_life_hours := lit 48 0;
     MenuPlanning.popularity_score := lit popularity 0;
     MenuPlanning.nutritional_category := "protein";
     MenuPlanning.season_appropriateness := "all_season";
     MenuPlanning.prep_difficulty := "easy";
     MenuPlanning.equipment_needed := "oven";
     MenuPlanning.allergens := "none" |}.

Definition lunch_request (budget : option Z) : PlannerInput.t num :=
  {| PlannerInput.date := "2024-06-01";
     PlannerInput.estimated_students := lit 1000 0;
     PlannerInput.budget_constraint := option_map (fun b => lit b 0) budget;
     PlannerInput.dietary_requirements := None;
     PlannerInput.avoid_items := None;
     PlannerInput.target_categories := ["lunch"] |}.

Definition pickup_request (locations drivers : list string)
  : PickupOptimizationInput.t num :=
  {| PickupOptimizationInput.date := "2024-06-04";
     PickupOptimizationInput.available_locations := locations;
     PickupOptimizationInput.available_drivers := drivers;
     PickupOptimizationInput.estimated_food_volume := lit 100 0;
     PickupOptimizationInput.priority_destinations := None;
     PickupOptimizationInput.time_constraints := None |}.

(** An impact row rescuing [food] pounds. *)
Definition impact_row (date : string) (food : Z) : ImpactTracking.t num :=
  {| ImpactTracking.date := date;
     ImpactTracking.day_of_week := "Monday";
     ImpactTracking.food_cost_daily := lit 0 0;
     ImpactTracking.food_waste_cost_daily := lit 0 0;
     ImpactTracking.food_rescued_lbs_daily := lit food 0;
     ImpactTracking.money_saved_daily := lit 7 0;
     ImpactTracking.co2_emissions_avoided_lbs_daily := lit 3 0;
     ImpactTracking.meals_provided_to_community_daily := lit 4 0;
     ImpactTracking.volunteer_hours_daily := lit 5 0;
     ImpactTracking.transport_costs_daily := lit 0 0;
     ImpactTracking.operational_savings_daily := lit 6 0;
     ImpactTracking.waste_disposal_cost_avoided_daily := lit 8 0;
     ImpactTracking.active_partner_orgs_daily := lit 0 0;
     ImpactTracking.community_impact_score_daily := lit 9 0 |}.

Definition yearly_projection : ImpactProjectionInput.t num :=
  {| ImpactProjectionInput.projection_period := year;
     ImpactProjectionInput.intervention_scenarios := None;
     ImpactProjectionInput.baseline_date := None |}.

(** Three rows of soup, each with 10% waste. *)
Definition soup_history : list (DailyProduction.t num) :=
  [ production_row "2024-05-27" "Monday" "Soup" "Entree" 100 1000 "sunny" "none" 70;
    production_row "2024-05-28" "Tuesday" "Soup" "Entree" 100 1000 "sunny" "none" 70;
    production_row "2024-05-29" "Wednesday" "Soup" "Entree" 100 1000 "sunny" "none" 70 ].

(** Three rows of rice of which nothing was wasted. *)
Definition rice_history : list (DailyProduction.t num) :=
  [ production_row "2024-05-20" "Monday" "Rice" "Side" 0 1000 "sunny" "none" 70;
    production_row "2024-05-27" "Monday" "Rice" "Side" 0 1000 "sunny" "none" 70;
    production_row "2024-05-31" "Friday" "Rice" "Side" 0 1000 "sunny" "none" 70 ].

(** Fourteen rows of stew with two to four and a half percent waste. *)
Definition stew_history : list (DailyProduction.t num) :=
  [ production_row "2024-01-08" "Monday" "Stew" "Entree" 20 900 "sunny" "none" 40;
    production_row "2024-01-16" "Tuesday" "Stew" "Entree" 30 1000 "cloudy" "holiday" 35;
    production_row "2024-02-14" "Wednesday" "Stew" "Entree" 25 1100 "rainy" "none" 45;
    production_row "2024-02-22" "Thursday" "Stew" "Entree" 40 950 "sunny" "exam_week" 50;
    production_row "2024-03-08" "Friday" "Stew" "Entree" 15 1200 "stormy" "none" 55;
    production_row "2024-03-18" "Monday" "Stew" "Entree" 35 1050 "cloudy" "sports_game" 60;
    production_row "2024-04-09" "Tuesday" "Stew" "Entree" 30 800 "sunny" "none" 65;
    production_row "2024-04-17" "Wednesday" "Stew" "Entree" 20 1150 "rainy" "orientation" 58;
    production_row "2024-05-02" "Thursday" "Stew" "Entree" 45 990 "sunny" "none" 72;
    production_row "2024-05-10" "Friday" "Stew" "Entree" 25 1020 "cloudy" "graduation" 75;
    production_row "2024-05-20" "Monday" "Stew" "Entree" 30 870 "sunny" "none" 80;
    production_row "2024-05-28" "Tuesday" "Stew" "Entree" 35 1130 "rainy" "none" 77;
    production_row "2024-06-05" "Wednesday" "Stew" "Entree" 20 1010 "sunny" "holiday" 85;
    production_row "2024-06-13" "Thursday" "Stew" "Entree" 40 940 "cloudy" "none" 88 ].

Definition stew_external : list (ExternalFactor.t num) :=
  [ external_row "2024-01-08" 10 0; external_row "2024-01-16" 9 2;
    external_row "2024-02-14" 11 5; external_row "2024-02-22" 10 1;
    external_row "2024-03-08" 8 7; external_row "2024-03-18" 12 0;
    external_row "2024-04-09" 10 3; external_row "2024-04-17" 9 6;
    external_row "2024-05-02" 11 0; external_row "2024-05-10" 10 2;
    external_row "2024-05-20" 7 0; external_row "2024-05-28" 12 4;
    external_row "2024-06-05" 10 0; external_row "2024-06-13" 9 1 ].

Definition stew_request : ForecastInput.t num :=
  forecast_request "Stew" "2024-06-13" (Some "cloudy") (Some 88%Z) (Some 940%Z) 200.

(** Four weeks of impact rows: nothing rescued in the first two, ten
    pounds a day in the last two. *)
Definition impact_history : list (ImpactTracking.t num) :=
  repeat (impact_row "2024-05-01" 0) 14 ++ repeat (impact_row "2024-05-15" 10) 14.

Definition no_constraints : SuggestionConstraints.t num :=
  {| SuggestionConstraints.max_prep_time := None;
     SuggestionConstraints.dietary_restrictions := None;
     SuggestionConstraints.cost_limit := None |}.
End Samples.

(* ================================================================== *)
(** * The claims in the words of the specification *)
(* ================================================================== *)

Section SpecWords.
Context {num : Type} `{JSNumber num}.
Local Open Scope js_scope.

(** A confidence interval taken from the fixed rule: between 20% and 30%
    of the predicted waste on either side of it. *)
Definition fixed_band_rule (r : ForecastResult.t num) : bool :=
  let pw := ForecastResult.predicted_waste r in
  let ci := ForecastResult.confidence_interval r in
  (pw * lit 7 1 <=? Interval.lower ci) && (Interval.lower ci <=? pw * lit 8 1)
  && (pw * lit 12 1 <=? Interval.upper ci) && (Interval.upper ci <=? pw * lit 13 1).

(** The same rule with the interval read as a pair of offsets from the
    predicted waste: 20% to 30% of it below and above. *)
Definition fixed_offsets_rule (r : ForecastResult.t num) : bool :=
  let pw := ForecastResult.predicted_waste r in
  let ci := ForecastResult.confidence_interval r in
  (nopp (pw * lit 3 1) <=? Interval.lower ci) && (Interval.lower ci <=? nopp (pw * lit 2 1))
  && (pw * lit 2 1 <=? Interval.upper ci) && (Interval.upper ci <=? pw * lit 3 1).

(** The quantity that brings the waste to 5%:
    [round(quantity * (100 - 5) / (100 - predicted))]. *)
Definition target_five_percent (quantity predicted : num) : num :=
  Math_round (quantity * (lit 100 0 - lit 5 0) / (lit 100 0 - predicted)).

(** The trend multiplier as the specification words it: the ratio of the
    two averages clamped to [0.8, 1.3]. *)
Definition clamped_ratio (recent older : num) : num :=
  Math_max (lit 8 1) (Math_min (lit 13 1) (recent / older)).

(** The scenario multiplier [1 + target / 100]; a field that is absent,
    zero or NaN counts as 0. *)
Definition scenario_multiplier (target : option num) : num :=
  lit 1 0 + opt_or_default target (lit 0 0) / lit 100 0.

(** The trend multiplier of the code: the defaults when a window is
    empty, 1 when the older average is 0, the clamped ratio otherwise. *)
Definition guarded_trend (window_empty : bool) (default recent older : num) : num :=
  if window_empty then default
  else if older =? lit 0 0 then lit 1 0
  else clamped_ratio recent older.

(** The scenario multiplier of one intervention field. *)
Definition scenario_for (scenarios : option (InterventionScenarios.t num))
    (field : InterventionScenarios.t num -> option num) : num :=
  match scenarios with
  | None => lit 1 0
  | Some sc => scenario_multiplier (field sc)
  end.

(** A route and a result with the route identifiers blanked. *)
Definition without_route_id (r : RouteOptimization.t num) : RouteOptimization.t num :=
  {| RouteOptimization.route_id := "";
     RouteOptimization.driver := RouteOptimization.driver r;
     RouteOptimization.locations := RouteOptimization.locations r;
     RouteOptimization.total_distance := RouteOptimization.total_distance r;
     RouteOptimization.total_time := RouteOptimization.total_time r;
     RouteOptimization.total_volume := RouteOptimization.total_volume r;
     RouteOptimization.total_cost := RouteOptimization.total_cost r;
     RouteOptimization.pickups := RouteOptimization.pickups r |}.

Definition without_route_ids (t : TrackerResult.t num) : TrackerResult.t num :=
  {| TrackerResult.optimized_routes :=
       map without_route_id (TrackerResult.optimized_routes t);
     TrackerResult.total_volume_rescued := TrackerResult.total_volume_rescued t;
     TrackerResult.total_meals_equivalent := TrackerResult.total_meals_equivalent t;
     TrackerResult.total_co2_savings := TrackerResult.total_co2_savings t;
     TrackerResult.total_transport_cost := TrackerResult.total_transport_cost t;
     TrackerResult.efficiency_metrics := TrackerResult.efficiency_metrics t |}.

(** A comparison entry without its [percentage_change]. *)
Definition without_percentage_change (c : ComparisonMetrics.t num)
  : string * ImpactMetrics.t num * Trend :=
  (ComparisonMetrics.period c, ComparisonMetrics.metrics c, ComparisonMetrics.trend c).

(** The route caps of the specification. *)
Definition within_caps (r : RouteOptimization.t num) : Prop :=
  (List.length (RouteOptimization.pickups r) <= 4)%nat
  /\ (RouteOptimization.total_volume r <=? lit 200 0) = true.

Definition within_capsb (r : RouteOptimization.t num) : bool :=
  (List.length (RouteOptimization.pickups r) <=? 4)%nat
  && (RouteOptimization.total_volume r <=? lit 200 0).

(** A route of [routes] with the least accumulated time: no route of the
    list has a smaller [total_time]. *)
Definition least_time (routes : list (RouteOptimization.t num))
    (r : RouteOptimization.t num) : Prop :=
  In r routes
  /\ forall r' : RouteOptimization.t num,
       In r' routes ->
       (RouteOptimization.total_time r' <? RouteOptimization.total_time r) = false.

(** The leftover pickups appended one after the other, each to a route
    that has the least accumulated time when its turn comes; no cap is
    looked at. *)
Inductive appended_to_least
  : list (RouteOptimization.t num) -> list (OptimizedPickup.t num)
    -> list (RouteOptimization.t num) -> Prop :=
| appended_none (routes : list (RouteOptimization.t num)) :
    appended_to_least routes [] routes
| appended_next (routes : list (RouteOptimization.t num)) (i : nat)
    (r : RouteOptimization.t num) (pickup : OptimizedPickup.t num)
    (leftovers : list (OptimizedPickup.t num))
    (routes' : list (RouteOptimization.t num)) :
    nth_error routes i = Some r ->
    least_time routes r ->
    appended_to_least
      (TrackerService.update_nth i (TrackerService.push_and_update pickup) routes)
      leftovers routes' ->
    appended_to_least routes (pickup :: leftovers) routes'.
End SpecWords.

(* ================================================================== *)
(** * Auxiliary notions for the proofs *)
(* ================================================================== *)

(** The order of two doubles of equal sign by exponent, then mantissa. *)
Definition lex_lt (e1 : Z) (m1 : positive) (e2 : Z) (m2 : positive) : Prop :=
  (e1 < e2)%Z \/ (e1 = e2 /\ (m1 < m2)%positive).

Section Auxiliary.
Context {num : Type} `{JSNumber num}.

(** The identifiers of a list of pickups, and of the pickups of a list
    of routes, route after route. *)
Definition ids (l : list (OptimizedPickup.t num)) : list string :=
  map (@OptimizedPickup.pickup_id num) l.

Definition route_ids (rs : list (RouteOptimization.t num)) : list string :=
  flat_map (fun r => ids (RouteOptimization.pickups r)) rs.

(** The identifier [generatePickupSuggestions] gives its [counter]-th
    candidate. *)
Definition candidate_id (host : Host num) (input : PickupOptimizationInput.t num)
    (counter : nat) : string :=
  String.append "PU"
    (String.append (getTime_string host (PickupOptimizationInput.date input))
       (String.append "_" (string_of_nat counter))).

(** A cache that holds, for every item it knows, the model training
    yields on the loaded records. *)
Definition cache_consistent (host : Host num)
    (production_data : list (DailyProduction.t num))
    (external_data : list (ExternalFactor.t num))
    (cache : list (string * TrainedModel.t num)) : Prop :=
  forall menu_item model,
    lookup (ForecastModel.cache_key menu_item) cache = Some model ->
    ForecastModel.trainModel host production_data external_data menu_item = Some model.
End Auxiliary.


(** The sums of [Statistics.correlation] in exact arithmetic, written by
    recursion on the samples. *)
Section ExactSums.
Local Open Scope R_scope.

Fixpoint total (l : list R) : R :=
  match l with
  | [] => 0
  | v :: l' => v + total l'
  end.

Definition Sx (l : list (R * R)) : R := total (map fst l).
Definition Sy (l : list (R * R)) : R := total (map snd l).
Definition Sxx (l : list (R * R)) : R := total (map (fun p => fst p * fst p) l).
Definition Syy (l : list (R * R)) : R := total (map (fun p => snd p * snd p) l).
Definition Sxy (l : list (R * R)) : R := total (map (fun p => fst p * snd p) l).
End ExactSums.

(** What the budget argument needs of a scored catalog row, and the state
    of the greedy loop of [selectOptimalCombination] under a budget [b]:
    nothing chosen yet, or a non-empty choice within the budget that has
    counted its category. *)
Section PlannerInvariants.
Local Open Scope R_scope.

Definition sound_item (it : ScoredItem.t R) : Prop :=
  PlannerService.category_of it = "lunch"
  /\ 0 <= MenuPlanning.popularity_score (ScoredItem.item it)
  /\ 0 <= MenuPlanning.ingredient_cost_per_serving (ScoredItem.item it)
  /\ Forall (fun d => 0 <= DailyProduction.waste_percentage d)
            (ScoredItem.historical_data it).

Definition greedy_invariant (input : PlannerInput.t R) (b : R)
    (st : PlannerService.Selection) : Prop :=
  PlannerService.total_cost st
  = total (map (fun it => PlannerService.estimateItemCost
                            it (PlannerInput.estimated_students input))
               (PlannerService.selected st))
  /\ ((PlannerService.selected st = []
       /\ PlannerService.category_counts st = [])
      \/ (PlannerService.selected st <> []
          /\ PlannerService.total_cost st <= b
          /\ PlannerService.has_key "lunch" (PlannerService.category_counts st) = true)).
End PlannerInvariants.

From Stdlib Require Import Sorted.

(* ================================================================== *)
(** * Further notions for the properties *)
(* ================================================================== *)

Section Ranges.
Context {num : Type} `{JSNumber num}.
Local Open Scope js_scope.

(** A number that is NaN or lies between [lo] and [hi], as [<=] of the
    numbers decides. *)
Definition NaN_or_within (lo hi x : num) : Prop :=
  isNaN x = true \/ ((lo <=? x) = true /\ (x <=? hi) = true).

(** The fields of a record of trend multipliers. *)
Definition trend_multipliers (t : TrendMultipliers.t num) : list num :=
  [ TrendMultipliers.food_rescued t; TrendMultipliers.meals t;
    TrendMultipliers.co2 t; TrendMultipliers.money t;
    TrendMultipliers.waste_cost t; TrendMultipliers.volunteer t;
    TrendMultipliers.operational t; TrendMultipliers.community t ].

(** The four influences of a record. *)
Definition influences (f : FactorsInfluence.t num) : list num :=
  [ FactorsInfluence.weather_impact f; FactorsInfluence.day_of_week_impact f;
    FactorsInfluence.seasonal_impact f; FactorsInfluence.event_impact f ].
End Ranges.

(** Text of ASCII characters only. *)
Definition is_ascii (s : string) : bool :=
  forallb (fun c => (nat_of_ascii c <? 128)%nat) (list_ascii_of_string s).

(** The names every object literal inherits from [Object.prototype]. *)
Definition inherited_keys : list string :=
  ["constructor"; "__proto__"; "hasOwnProperty"; "isPrototypeOf";
   "propertyIsEnumerable"; "toString"; "toLocaleString"; "valueOf";
   "__defineGetter__"; "__defineSetter__"; "__lookupGetter__";
   "__lookupSetter__"].

(** A key an object literal answers from its own properties or not at
    all. *)
Definition plain_key (key : string) : bool :=
  negb (existsb (String.eqb key) inherited_keys).

(** A production row whose weather, day and event are ASCII text and read
    the encoding tables as plain keys. *)
Definition plain_factors {num : Type} (d : DailyProduction.t num) : bool :=
  is_ascii (DailyProduction.weather d)
  && plain_key (toLowerCase (DailyProduction.weather d))
  && plain_key (DailyProduction.day_of_week d)
  && is_ascii (DailyProduction.special_event d)
  && plain_key (toLowerCase (DailyProduction.special_event d)).

(** A catalog row like [dish] with the given allergens. *)
Definition dish_with_allergens {num : Type} `{JSNumber num}
    (name allergens : string) : MenuPlanning.t num :=
  {| MenuPlanning.week_start_date := "2024-06-03";
     MenuPlanning.menu_category := "lunch";
     MenuPlanning.dish_name := name;
     MenuPlanning.dish_type := "main";
     MenuPlanning.preparation_time_hours := lit 1 0;
     MenuPlanning.ingredient_cost_per_serving := lit 2 0;
     MenuPlanning.selling_price := lit 5 0;
     MenuPlanning.shelf_life_hours := lit 48 0;
     MenuPlanning.popularity_score := lit 7 0;
     MenuPlanning.nutritional_category := "protein";
     MenuPlanning.season_appropriateness := "all_season";
     MenuPlanning.prep_difficulty := "easy";
     MenuPlanning.equipment_needed := "oven";
     MenuPlanning.allergens := allergens |}.

(* ================================================================== *)
(** * Statistics toolkit, continued (utils/statistics.ts) *)
(* ================================================================== *)

Module StatisticsTools.
Section S.
Context {num : Type} `{JSNumber num}.
Local Open Scope js_scope.

Record LinearFit : Type := { slope : num; intercept : num; r2 : num }.

(** [y.reduce((acc, yi, i) => acc + Math.pow(yi - (slope * x[i] + intercept), 2), acc0)];
    past the end of [x], [x[i]] is [undefined] and the term NaN. *)
Fixpoint residual_squares (slope intercept acc : num) (x y : list num) : num :=
  match y with
  | [] => acc
  | yi :: y' =>
      match x with
      | xi :: x' =>
          residual_squares slope intercept
            (acc + Statistics.square (yi - (slope * xi + intercept))) x' y'
      | [] =>
          residual_squares slope intercept
            (acc + Statistics.square (yi - (slope * Statistics.NaN + intercept))) [] y'
      end
  end.

Definition linearRegression (x y : list num) : LinearFit :=
  let n := num_of_nat (List.length x) in
  let sumX := sum x in
  let sumY := sum y in
  let sumXY := Statistics.sum_products (num_of_Z 0) x y in
  let sumXX := Statistics.sum_squares x in
  let slope := (n * sumXY - sumX * sumY) / (n * sumXX - sumX * sumX) in
  let intercept := (sumY - slope * sumX) / n in
  let yMean := sumY / n in
  let ssRes := residual_squares slope intercept (num_of_Z 0) x y in
  let ssTot :=
    fold_left (fun acc yi => acc + Statistics.square (yi - yMean)) y (num_of_Z 0) in
  {| slope := slope; intercept := intercept; r2 := num_of_Z 1 - ssRes / ssTot |}.

(** [movingAverage(data, window)] for a [window] that is a non-negative
    integer.  [i < window - 1] reads [i + 1 < window]; in the other branch
    [data.slice(i - window + 1, i + 1)] holds the [window] entries that end
    at [i]. *)
Definition movingAverage (data : list num) (window : nat) : list num :=
  map (fun i =>
         if (S i <? window)%nat then nth i data Statistics.NaN
         else sum (firstn window (skipn (S i - window) data)) / num_of_nat window)
      (seq 0 (List.length data)).

(** [(a, b) => a - b] is positive. *)
Definition ascending (a b : num) : bool := num_of_Z 0 <? a - b.

Definition Infinity : num := num_of_Z 1 / num_of_Z 0.

(** [Math.min] and [Math.max] of two numbers, signed zeros included: of
    two equal numbers the one whose inverse is negative, respectively
    positive, is the zero to return. *)
Definition min2 (a b : num) : num :=
  if isNaN a then a else if isNaN b then b
  else if b <? a then b else if a <? b then a
  else if num_of_Z 1 / b <? num_of_Z 0 then b else a.

Definition max2 (a b : num) : num :=
  if isNaN a then a else if isNaN b then b
  else if a <? b then b else if b <? a then a
  else if num_of_Z 0 <? num_of_Z 1 / b then b else a.

Record Summary : Type := {
  mean : num;
  median : option num;
  std : num;
  min : num;
  max : num;
  q1 : option num;
  q3 : option num
}.

(** [summary(data)].  [sorted[k]] is [undefined] ([None]) on empty data.
    For the length [n], [Math.floor(n / 2)], [Math.floor(n * 0.25)] and
    [Math.floor(n * 0.75)] are the integer quotients [n / 2], [n / 4] and
    [3 n / 4]: the factors are dyadic and the products exact. *)
Definition summary (data : list num) : Summary :=
  let sorted := js_sort ascending data in
  let n := List.length data in
  let mean := sum data / num_of_nat n in
  let variance :=
    fold_left (fun acc val => acc + Statistics.square (val - mean)) data (num_of_Z 0)
    / num_of_nat n in
  {| mean := mean;
     median := nth_error sorted (n / 2);
     std := Math_sqrt variance;
     min := fold_left min2 data Infinity;
     max := fold_left max2 data (nopp Infinity);
     q1 := nth_error sorted (n / 4);
     q3 := nth_error sorted (3 * n / 4) |}.

(** [undefined] in arithmetic. *)
Definition number_of (o : option num) : num :=
  match o with Some v => v | None => Statistics.NaN end.

(** The [forEach] of [detectOutliers] from index [index] on. *)
Fixpoint collect_outliers (lowerBound upperBound : num) (index : nat)
    (data : list num) : list num * list nat :=
  match data with
  | [] => ([], [])
  | value :: rest =>
      let '(outliers, indices) :=
        collect_outliers lowerBound upperBound (S index) rest in
      if (value <? lowerBound) || (upperBound <? value)
      then (value :: outliers, index :: indices)
      else (outliers, indices)
  end.

Definition detectOutliers (data : list num) : list num * list nat :=
  let stats := summary data in
  let iqr := number_of (q3 stats) - number_of (q1 stats) in
  let lowerBound := number_of (q1 stats) - lit 15 1 * iqr in
  let upperBound := number_of (q3 stats) + lit 15 1 * iqr in
  collect_outliers lowerBound upperBound 0 data.
End S.
End StatisticsTools.

(* ================================================================== *)
(** * CSV upload helpers (services/uploadService.ts, class UploadService) *)
(* ================================================================== *)

Module UploadService.

(** [parseCSVLine]; the characters of a string are its code units, [trim]
    is [String.prototype.trim] and ["034"] is the double quote. *)
Section Parse.
Variable trim : string -> string.

Fixpoint parse_from (line current : string) (inQuotes : bool) : list string :=
  match line with
  | EmptyString => [trim current]
  | String char rest =>
      if Ascii.eqb char "034"%char then parse_from rest current (negb inQuotes)
      else if Ascii.eqb char ","%char && negb inQuotes
      then trim current :: parse_from rest EmptyString inQuotes
      else parse_from rest (String.append current (String char EmptyString)) inQuotes
  end.

Definition parseCSVLine (line : string) : list string :=
  parse_from line EmptyString false.
End Parse.

(** The row [matrix[j]] right of its first cell, from the row [matrix[j-1]]
    ([prev]) and the cell to the left ([left]). *)
Fixpoint fill_row (c2 : ascii) (str1 : string) (prev : list nat) (left : nat)
  : list nat :=
  match str1, prev with
  | String c1 str1', diag :: ((up :: _) as prev') =>
      let indicator := if Ascii.eqb c1 c2 then 0 else 1 in
      let cell := Nat.min (left + 1) (Nat.min (up + 1) (diag + indicator)) in
      cell :: fill_row c2 str1' prev' cell
  | _, _ => []
  end.

(** The rows after [matrix[j]], one per character of [str2]. *)
Fixpoint fill_rows (str1 str2 : string) (j : nat) (prev : list nat) : list nat :=
  match str2 with
  | EmptyString => prev
  | String c2 str2' =>
      fill_rows str1 str2' (S j) (S j :: fill_row c2 str1 prev (S j))
  end.

Definition levenshteinDistance (str1 str2 : string) : nat :=
  nth (String.length str1)
      (fill_rows str1 str2 0 (seq 0 (S (String.length str1)))) 0.

Section Similarity.
Context {num : Type} `{JSNumber num}.
Local Open Scope js_scope.

Definition calculateSimilarity (str1 str2 : string) : num :=
  let longer :=
    if (String.length str2 <? String.length str1)%nat then str1 else str2 in
  let shorter :=
    if (String.length str2 <? String.length str1)%nat then str2 else str1 in
  if (String.length longer =? 0)%nat then lit 1 0
  else
    let distance := levenshteinDistance longer shorter in
    (num_of_nat (String.length longer) - num_of_nat distance)
    / num_of_nat (String.length longer).
End Similarity.
End UploadService.

(* ================================================================== *)
(** * Dashboard (services/dashboardService.ts, class DashboardService) *)
(* ================================================================== *)

Module DashboardService.
Inductive Direction : Type := higher_better | lower_better.
Inductive TrendVerdict : Type := improving | stable | worsening.

Record RecentTrends : Type := {
  waste_trend : TrendVerdict;
  pickup_efficiency_trend : TrendVerdict;
  cost_savings_trend : TrendVerdict
}.

Section S.
Context {num : Type} `{JSNumber num}.
Variable production_data : list (DailyProduction.t num).
Variable pickup_data : list (PickupOperation.t num).
Variable impact_data : list (ImpactTracking.t num).
Local Open Scope js_scope.

Definition getTrend (recent previous : num) (direction : Direction) : TrendVerdict :=
  let change_percentage := ((recent - previous) / previous) * lit 100 0 in
  let threshold := lit 5 0 in
  if Math_abs change_percentage <? threshold then stable
  else
    match direction with
    | higher_better => if lit 0 0 <? change_percentage then improving else worsening
    | lower_better => if change_percentage <? lit 0 0 then improving else worsening
    end.

Definition completed (p : PickupOperation.t num) : bool :=
  String.eqb (PickupOperation.pickup_status p) "completed".

Definition success_rate (pickups : list (PickupOperation.t num)) : num :=
  num_of_nat (List.length (filter completed pickups)) / num_of_nat (List.length pickups).

Definition analyzeRecentTrends : RecentTrends :=
  let recent_production := slice_last 14 production_data in
  let previous_production := slice_between 28 14 production_data in
  let recent_pickups := slice_last 14 pickup_data in
  let previous_pickups := slice_between 28 14 pickup_data in
  let recent_impact := slice_last 14 impact_data in
  let previous_impact := slice_between 28 14 impact_data in
  let recent_waste_avg :=
    average_by (@DailyProduction.waste_percentage num) recent_production in
  let previous_waste_avg :=
    average_by (@DailyProduction.waste_percentage num) previous_production in
  let recent_success_rate := success_rate recent_pickups in
  let previous_success_rate := success_rate previous_pickups in
  let recent_savings :=
    average_by (@ImpactTracking.money_saved_daily num) recent_impact in
  let previous_savings :=
    average_by (@ImpactTracking.money_saved_daily num) previous_impact in
  {| waste_trend := getTrend recent_waste_avg previous_waste_avg lower_better;
     pickup_efficiency_trend :=
       getTrend recent_success_rate previous_success_rate higher_better;
     cost_savings_trend := getTrend recent_savings previous_savings higher_better |}.
End S.
End DashboardService.

(** The edit distance of two strings, by recursion on both. *)
Fixpoint edit_distance (a : list ascii) : list ascii -> nat :=
  match a with
  | [] => fun b => List.length b
  | x :: a' =>
      fix inner (b : list ascii) : nat :=
        match b with
        | [] => List.length a
        | y :: b' =>
            Nat.min (edit_distance a' b + 1)
                    (Nat.min (inner b' + 1)
                             (edit_distance a' b' + if Ascii.eqb x y then 0 else 1))
        end
  end.

(** The row of the matrix of [levenshteinDistance] for the prefix [p] of
    the second string: the distances to [p] of the prefixes of the first
    string from [done] on. *)
Fixpoint distance_row (done : list ascii) (todo : string) (p : list ascii)
  : list nat :=
  edit_distance (rev done) (rev p)
  :: match todo with
     | EmptyString => []
     | String c t => distance_row (done ++ [c]) t p
     end.

(** [String.prototype.trim] on strings of ASCII characters: tab, line
    feed, vertical tab, form feed, carriage return and space are dropped
    at both ends. *)
Definition is_space (c : ascii) : bool :=
  let n := nat_of_ascii c in
  ((9 <=? n)%nat && (n <=? 13)%nat) || (n =? 32)%nat.

Fixpoint trim_start (s : string) : string :=
  match s with
  | EmptyString => EmptyString
  | String c s' => if is_space c then trim_start s' else s
  end.

Fixpoint trim_end (s : string) : string :=
  match s with
  | EmptyString => EmptyString
  | String c s' =>
      match trim_end s' with
      | EmptyString => if is_space c then EmptyString else String c EmptyString
      | rest => String c rest
      end
  end.

Definition ascii_trim (s : string) : string := trim_end (trim_start s).

(* ================================================================== *)
(** * Dashboard aggregator: the clock (services/dashboardService.ts) *)
(* ================================================================== *)

(** One reading of the clock, [new Date()], through what the aggregator
    asks of it. *)
Module Now.
Record t (num : Type) : Type := {
  (* [now.getFullYear()] *)
  getFullYear : Z;
  (* [now.getMonth()], 0 to 11 *)
  getMonth : nat;
  (* [now.getTime()] *)
  getTime : num;
  (* [now.toISOString()] *)
  toISOString : string;
  (* [now.setDate(now.getDate() + n); now.toISOString().split('T')[0]] *)
  date_after_days : nat -> string
}.
End Now.

Module WasteReduction.
Record t (num : Type) : Type := {
  current_month : num;
  previous_month : num;
  target : num;
  performance : string
}.
End WasteReduction.

Module CostSavings.
Record t (num : Type) : Type := {
  current_month : num;
  previous_month : num;
  target : num;
  performance : string
}.
End CostSavings.

Module PickupEfficiency.
Record t (num : Type) : Type := {
  current_success_rate : num;
  previous_success_rate : num;
  target : num;
  performance : string
}.
End PickupEfficiency.

Module EnvironmentalImpact.
Record t (num : Type) : Type := {
  co2_saved_current : num;
  co2_saved_previous : num;
  target : num;
  performance : string
}.
End EnvironmentalImpact.

Module PerformanceMetrics.
Record t (num : Type) : Type := {
  waste_reduction : WasteReduction.t num;
  cost_savings : CostSavings.t num;
  pickup_efficiency : PickupEfficiency.t num;
  environmental_impact : EnvironmentalImpact.t num
}.
End PerformanceMetrics.

Module ProblematicItem.
Record t (num : Type) : Type := {
  menu_item : string;
  avg_waste_percentage : num;
  frequency : nat;
  estimated_annual_cost : num
}.
End ProblematicItem.

Module PerformingItem.
Record t (num : Type) : Type := {
  menu_item : string;
  avg_waste_percentage : num;
  frequency : nat;
  efficiency_score : num
}.
End PerformingItem.

Module HighRiskItem.
Record t (num : Type) : Type := {
  menu_item : string;
  scheduled_date : string;
  risk_level : string;
  predicted_waste : num
}.
End HighRiskItem.

Module TopItemsAnalysis.
Record t (num : Type) : Type := {
  most_problematic_items : list (ProblematicItem.t num);
  best_performing_items : list (PerformingItem.t num);
  upcoming_high_risk : list (HighRiskItem.t num)
}.
End TopItemsAnalysis.

Module SystemHealth.
Record t : Type := {
  data_freshness : string;
  api_status : string;
  last_updated : string
}.
End SystemHealth.

Module SystemStatus.
Record t (num Overview : Type) : Type := {
  overview : Overview;
  performance : PerformanceMetrics.t num;
  top_items : TopItemsAnalysis.t num;
  system_health : SystemHealth.t
}.
End SystemStatus.

Module DashboardClock.
Section S.
Context {num : Type} `{JSNumber num}.
Variable host : Host num.
Variable production_data : list (DailyProduction.t num).
Variable pickup_data : list (PickupOperation.t num).
Variable impact_data : list (ImpactTracking.t num).
Local Open Scope js_scope.

(** [String(n).padStart(2, '0')]. *)
Definition padStart2 (n : nat) : string :=
  if (n <? 10)%nat then String.append "0" (string_of_nat n) else string_of_nat n.

(** [year + '-' + String(month + 1).padStart(2, '0')]. *)
Definition year_month (year : Z) (month : nat) : string :=
  String.append (string_of_Z year) (String.append "-" (padStart2 (month + 1))).

Record MonthData : Type := {
  production : list (DailyProduction.t num);
  pickups : list (PickupOperation.t num);
  impact : list (ImpactTracking.t num)
}.

(** The rows whose [date] starts with the given month. *)
Definition rows_of_month (month : string) : MonthData :=
  {| production :=
       filter (fun d => String.prefix month (DailyProduction.date d)) production_data;
     pickups :=
       filter (fun d => String.prefix month (PickupOperation.date d)) pickup_data;
     impact :=
       filter (fun d => String.prefix month (ImpactTracking.date d)) impact_data |}.

Definition getCurrentMonthData (now : Now.t num) : MonthData :=
  let current_month := year_month (Now.getFullYear now) (Now.getMonth now) in
  rows_of_month current_month.

(** Year and month of [new Date(year, month - 1, 1)]: a year from 0 to 99
    counts from 1900, and the month before January is December of the year
    before. *)
Definition month_before (year : Z) (month : nat) : Z * nat :=
  let year := if ((0 <=? year) && (year <=? 99))%Z then (1900 + year)%Z else year in
  match month with
  | O => ((year - 1)%Z, 11%nat)
  | S m => (year, m)
  end.

Definition getPreviousMonthData (now : Now.t num) : MonthData :=
  let prev_month := month_before (Now.getFullYear now) (Now.getMonth now) in
  let previous_month := year_month (fst prev_month) (snd prev_month) in
  rows_of_month previous_month.

Definition calculateAverageWaste (data : list (DailyProduction.t num)) : num :=
  match data with
  | [] => lit 0 0
  | _ => average_by (@DailyProduction.waste_percentage num) data
  end.

Definition calculateTotalSavings (data : list (ImpactTracking.t num)) : num :=
  fold_left
    (fun sum d =>
       sum + ImpactTracking.money_saved_daily d
       + ImpactTracking.operational_savings_daily d)
    data (lit 0 0).

Definition calculateSuccessRate (data : list (PickupOperation.t num)) : num :=
  match data with
  | [] => lit 0 0
  | _ =>
      num_of_nat
        (List.length
           (filter (fun d => String.eqb (PickupOperation.pickup_status d) "completed")
                   data))
      / num_of_nat (List.length data)
  end.

Definition calculateTotalCO2 (data : list (ImpactTracking.t num)) : num :=
  sum_by (@ImpactTracking.co2_emissions_avoided_lbs_daily num) data.

(** [direction] is ['higher_better'] ([true]) or ['lower_better']. *)
Definition getPerformanceLevel (current target : num) (higher_better : bool)
  : string :=
  let ratio := current / target in
  if higher_better then
    if lit 11 1 <=? ratio then "ahead"
    else if lit 9 1 <=? ratio then "on_track"
    else "behind"
  else
    if ratio <=? lit 9 1 then "ahead"
    else if ratio <=? lit 11 1 then "on_track"
    else "behind".

(** [clock k] is the [k]-th reading of the clock during the call. *)
Definition getPerformanceMetrics (clock : nat -> Now.t num)
  : PerformanceMetrics.t num :=
  let current_month_data := getCurrentMonthData (clock 0%nat) in
  let previous_month_data := getPreviousMonthData (clock 1%nat) in
  let current_waste := calculateAverageWaste (production current_month_data) in
  let previous_waste := calculateAverageWaste (production previous_month_data) in
  let waste_target := lit 12 0 in
  let current_savings := calculateTotalSavings (impact current_month_data) in
  let previous_savings := calculateTotalSavings (impact previous_month_data) in
  let savings_target := lit 15000 0 in
  let current_pickup_rate := calculateSuccessRate (pickups current_month_data) in
  let previous_pickup_rate := calculateSuccessRate (pickups previous_month_data) in
  let pickup_target := lit 90 2 in
  let current_co2 := calculateTotalCO2 (impact current_month_data) in
  let previous_co2 := calculateTotalCO2 (impact previous_month_data) in
  let co2_target := lit 5000 0 in
  {| PerformanceMetrics.waste_reduction :=
       {| WasteReduction.current_month := current_waste;
          WasteReduction.previous_month := previous_waste;
          WasteReduction.target := waste_target;
          WasteReduction.performance :=
            getPerformanceLevel current_waste waste_target false |};
     PerformanceMetrics.cost_savings :=
       {| CostSavings.current_month := current_savings;
          CostSavings.previous_month := previous_savings;
          CostSavings.target := savings_target;
          CostSavings.performance :=
            getPerformanceLevel current_savings savings_target true |};
     PerformanceMetrics.pickup_efficiency :=
       {| PickupEfficiency.current_success_rate := current_pickup_rate;
          PickupEfficiency.previous_success_rate := previous_pickup_rate;
          PickupEfficiency.target := pickup_target;
          PickupEfficiency.performance :=
            getPerformanceLevel current_pickup_rate pickup_target true |};
     PerformanceMetrics.environmental_impact :=
       {| EnvironmentalImpact.co2_saved_current := current_co2;
          EnvironmentalImpact.co2_saved_previous := previous_co2;
          EnvironmentalImpact.target := co2_target;
          EnvironmentalImpact.performance :=
            getPerformanceLevel current_co2 co2_target true |} |}.

(** An entry of the [item_stats] map. *)
Record ItemStats : Type := {
  wastes : list num;
  total_waste_cost : num;
  stats_frequency : nat
}.

(** One step of the [forEach] that fills [item_stats]. *)
Definition add_to_stats (item_stats : list (string * ItemStats))
    (d : DailyProduction.t num) : list (string * ItemStats) :=
  let item := DailyProduction.menu_item d in
  let stats :=
    match lookup item item_stats with
    | Some stats => stats
    | None => {| wastes := []; total_waste_cost := lit 0 0; stats_frequency := 0 |}
    end in
  map_set item
    {| wastes := wastes stats ++ [DailyProduction.waste_percentage d];
       total_waste_cost :=
         total_waste_cost stats + DailyProduction.quantity_wasted d * lit 35 1;
       stats_frequency := stats_frequency stats + 1 |}
    item_stats.

Definition average_waste (stats : ItemStats) : num :=
  sum (wastes stats) / num_of_nat (List.length (wastes stats)).

(** [(a, b) => b.avg_waste_percentage - a.avg_waste_percentage]. *)
Definition by_waste_desc (a b : ProblematicItem.t num) : bool :=
  lit 0 0 <? (ProblematicItem.avg_waste_percentage b
              - ProblematicItem.avg_waste_percentage a).

(** [(a, b) => a.avg_waste_percentage - b.avg_waste_percentage]. *)
Definition by_waste_asc (a b : PerformingItem.t num) : bool :=
  lit 0 0 <? (PerformingItem.avg_waste_percentage a
              - PerformingItem.avg_waste_percentage b).

(** [this.getNextWeekDate(dayOffset)] at the reading [now]. *)
Definition getNextWeekDate (now : Now.t num) (dayOffset : nat) : string :=
  Now.date_after_days now (7 + dayOffset).

(** [most_problematic.slice(0, 5).map((item, index) => ...)]: the entry for
    [index] reads the clock once, the [index]-th reading. *)
Fixpoint upcoming_from (clock : nat -> Now.t num) (index : nat)
    (items : list (ProblematicItem.t num)) : list (HighRiskItem.t num) :=
  match items with
  | [] => []
  | item :: rest =>
      {| HighRiskItem.menu_item := ProblematicItem.menu_item item;
         HighRiskItem.scheduled_date := getNextWeekDate (clock index) index;
         HighRiskItem.risk_level :=
           if lit 25 0 <? ProblematicItem.avg_waste_percentage item then "high"
           else if lit 15 0 <? ProblematicItem.avg_waste_percentage item then "medium"
           else "low";
         HighRiskItem.predicted_waste :=
           Math_round (ProblematicItem.avg_waste_percentage item * lit 8 1) |}
      :: upcoming_from clock (S index) rest
  end.

Definition getTopItemsAnalysis (clock : nat -> Now.t num) : TopItemsAnalysis.t num :=
  let item_stats := fold_left add_to_stats production_data [] in
  let most_problematic :=
    firstn 10
      (js_sort by_waste_desc
         (filter (fun item => (3 <=? ProblematicItem.frequency item)%nat)
            (map (fun entry : string * ItemStats =>
                    let (item, stats) := entry in
                    {| ProblematicItem.menu_item := item;
                       ProblematicItem.avg_waste_percentage := average_waste stats;
                       ProblematicItem.frequency := stats_frequency stats;
                       ProblematicItem.estimated_annual_cost :=
                         total_waste_cost stats
                         * (lit 365 0 / num_of_nat (stats_frequency stats)) |})
                 item_stats))) in
  let best_performing :=
    firstn 10
      (js_sort by_waste_asc
         (filter (fun item => (3 <=? PerformingItem.frequency item)%nat)
            (map (fun entry : string * ItemStats =>
                    let (item, stats) := entry in
                    {| PerformingItem.menu_item := item;
                       PerformingItem.avg_waste_percentage := average_waste stats;
                       PerformingItem.frequency := stats_frequency stats;
                       PerformingItem.efficiency_score :=
                         lit 100 0 - average_waste stats |})
                 item_stats))) in
  let upcoming_high_risk := upcoming_from clock 0 (firstn 5 most_problematic) in
  {| TopItemsAnalysis.most_problematic_items := most_problematic;
     TopItemsAnalysis.best_performing_items := best_performing;
     TopItemsAnalysis.upcoming_high_risk := upcoming_high_risk |}.

(** The time value of [new Date(value)]: NaN unless [value] is a number
    within 8.64e15 of 0, then its integer part, with [+0] for [-0]. *)
Definition time_of_value (value : num) : num :=
  if Math_abs value <=? lit 8640000000000000 0 then
    (if value <? lit 0 0 then nopp (Math_floor (nopp value)) else Math_floor value)
    + lit 0 0
  else Statistics.NaN.

(** [new Date(Math.max(...dates.map(d => new Date(d).getTime()))).getTime()]. *)
Definition latest (dates : list string) : num :=
  time_of_value
    (fold_left StatisticsTools.max2 (map (getTime host) dates)
       (nopp StatisticsTools.Infinity)).

Definition checkDataFreshness (now : Now.t num) : string :=
  let latest_production := latest (map (@DailyProduction.date num) production_data) in
  let latest_pickup := latest (map (@PickupOperation.date num) pickup_data) in
  let latest_impact := latest (map (@ImpactTracking.date num) impact_data) in
  let day_ms := lit 86400000 0 in
  let oldest_latest :=
    time_of_value
      (StatisticsTools.min2
         (StatisticsTools.min2
            (StatisticsTools.min2 StatisticsTools.Infinity latest_production)
            latest_pickup)
         latest_impact) in
  let days_old := (Now.getTime now - oldest_latest) / day_ms in
  if days_old <=? lit 1 0 then "fresh"
  else if days_old <=? lit 7 0 then "stale"
  else "outdated".

(** [getSystemStatus].  [overview] is what [getDashboardOverview] returns,
    which reads the record arrays and the other services and no clock.
    The clock is read twice for the performance metrics, once for each
    upcoming item, once for the freshness and once for [last_updated]. *)
Definition getSystemStatus {Overview : Type} (overview : Overview)
    (clock : nat -> Now.t num) : SystemStatus.t num Overview :=
  let performance := getPerformanceMetrics clock in
  let top_items := getTopItemsAnalysis (fun k => clock (2 + k)%nat) in
  let reads := (2 + List.length (TopItemsAnalysis.upcoming_high_risk top_items))%nat in
  {| SystemStatus.overview := overview;
     SystemStatus.performance := performance;
     SystemStatus.top_items := top_items;
     SystemStatus.system_health :=
       {| SystemHealth.data_freshness := checkDataFreshness (clock reads);
          SystemHealth.api_status := "operational";
          SystemHealth.last_updated := Now.toISOString (clock (S reads)) |} |}.
End S.
End DashboardClock.

Section ClockFields.
Context {num : Type} `{JSNumber num}.

(** The year and month of a reading. *)
Definition month_of (now : Now.t num) : Z * nat :=
  (Now.getFullYear now, Now.getMonth now).

(** An upcoming item without its [scheduled_date]. *)
Definition without_scheduled_date (item : HighRiskItem.t num)
  : string * string * num :=
  (HighRiskItem.menu_item item, HighRiskItem.risk_level item,
   HighRiskItem.predicted_waste item).

(** A top-items analysis without the [scheduled_date] of its upcoming
    items. *)
Definition without_scheduled_dates (a : TopItemsAnalysis.t num)
  : list (ProblematicItem.t num) * list (PerformingItem.t num)
    * list (string * string * num) :=
  (TopItemsAnalysis.most_problematic_items a,
   TopItemsAnalysis.best_performing_items a,
   map without_scheduled_date (TopItemsAnalysis.upcoming_high_risk a)).

(** A system status without [scheduled_date], [data_freshness] and
    [last_updated]. *)
Definition without_clock_fields {Overview : Type} (s : SystemStatus.t num Overview)
  : Overview * PerformanceMetrics.t num
    * (list (ProblematicItem.t num) * list (PerformingItem.t num)
       * list (string * string * num))
    * string :=
  (SystemStatus.overview s, SystemStatus.performance s,
   without_scheduled_dates (SystemStatus.top_items s),
   SystemHealth.api_status (SystemStatus.system_health s)).
End ClockFields.

Section ClockSamples.
Context {num : Type} `{JSNumber num}.

(** Noon UTC of a day of June 2024, as read in the UTC time zone. *)
Definition june_2024 (day : nat) : Now.t num :=
  {| Now.getFullYear := 2024;
     Now.getMonth := 5;
     Now.getTime := lit (1717200000000 + Z.of_nat day * 86400000) 0;
     Now.toISOString :=
       String.append "2024-06-"
         (String.append (DashboardClock.padStart2 day) "T12:00:00.000Z");
     Now.date_after_days := fun n =>
       if (day + n <=? 30)%nat
       then String.append "2024-06-" (DashboardClock.padStart2 (day + n))
       else String.append "2024-07-" (DashboardClock.padStart2 (day + n - 30)) |}.
End ClockSamples.
(* ================================================================== *)
(** * Lemmas on maps, lists and sorting *)
(* ================================================================== *)

Section StoreLemmas.
Context {A : Type}.

Lemma lookup_map_set_same (k : string) (v : A) (m : list (string * A)) :
  lookup k (map_set k v m) = Some v.
Proof.
  induction m as [|[k' v'] m IH]; simpl.
  - now rewrite String.eqb_refl.
  - destruct (String.eqb k k') eqn:E; simpl.
    + now rewrite String.eqb_refl.
    + now rewrite E.
Qed.

Lemma lookup_map_set_other (k k' : string) (v : A) (m : list (string * A)) :
  k <> k' -> lookup k (map_set k' v m) = lookup k m.
Proof.
  intros Hne. induction m as [|[k2 v2] m IH]; simpl.
  - destruct (String.eqb k k') eqn:E; [apply String.eqb_eq in E; contradiction|reflexivity].
  - destruct (String.eqb k' k2) eqn:E2; simpl.
    + apply String.eqb_eq in E2. subst k2.
      destruct (String.eqb k k') eqn:E; [apply String.eqb_eq in E; contradiction|reflexivity].
    + destruct (String.eqb k k2); [reflexivity|apply IH].
Qed.

Lemma find_none_of_filter_nil (f : A -> bool) (l : list A) :
  filter f l = [] -> find f l = None.
Proof.
  induction l as [|x l IH]; simpl; [reflexivity|].
  destruct (f x); [discriminate|exact IH].
Qed.
End StoreLemmas.


Lemma NoDup_disjoint_false {A : Type} (l1 l2 : list A) (a : A) :
  In a l1 -> In a l2 -> NoDup (l1 ++ l2) -> False.
Proof.
  intros H1 H2 Hnd. induction l1 as [|x l1 IH]; [contradiction|].
  simpl in Hnd. inversion Hnd as [|? ? Hnot Hnd']; subst.
  destruct H1 as [->|H1].
  - apply Hnot. apply in_or_app. now right.
  - now apply IH.
Qed.

Lemma NoDup_map_injective {A B : Type} (f : A -> B) (l : list A) :
  (forall x y, f x = f y -> x = y) -> NoDup l -> NoDup (map f l).
Proof.
  intros Hinj Hnd. induction Hnd as [|x l Hnot Hnd IH]; simpl; constructor; [|exact IH].
  intros Hin. apply in_map_iff in Hin. destruct Hin as (y & Heq & Hy).
  apply Hinj in Heq. now subst y.
Qed.

Section SortLemmas.
Context {A : Type} (after : A -> A -> bool).

Lemma sort_insert_perm (x : A) (l : list A) :
  Permutation (sort_insert after x l) (x :: l).
Proof.
  induction l as [|y l IH]; simpl; [reflexivity|].
  destruct (after x y); [|reflexivity].
  rewrite IH. apply perm_swap.
Qed.

Lemma js_sort_perm (l : list A) : Permutation (js_sort after l) l.
Proof.
  induction l as [|x l IH]; simpl; [reflexivity|].
  rewrite sort_insert_perm. now constructor.
Qed.
End SortLemmas.

(* ================================================================== *)
(** * The forecast calculators *)
(* ================================================================== *)

Section ForecastLemmas.
Context {num : Type} `{JSNumber num}.
Variable host : Host num.
Variable production_data : list (DailyProduction.t num).
Variable external_data : list (ExternalFactor.t num).

Lemma multipleRegression_some (X : list (list num)) (y : list num) :
  X <> [] -> exists r, Statistics.multipleRegression X y = Some r.
Proof.
  intros HX. unfold Statistics.multipleRegression.
  destruct X as [|row X']; [contradiction|].
  match goal with |- context [fold_left ?f ?l ?a] => destruct (fold_left f l a) end.
  eexists; reflexivity.
Qed.

Lemma fold_accuracy_some (X : list (list num)) (y : list num) (fold_size i : nat) :
  firstn (i * fold_size) X ++ skipn (i * fold_size + fold_size) X <> [] ->
  exists a, ForecastModel.fold_accuracy X y fold_size i = Some a.
Proof.
  intros HX. unfold ForecastModel.fold_accuracy.
  destruct (@multipleRegression_some _ (firstn (i * fold_size) y ++ skipn (i * fold_size + fold_size) y) HX)
    as [r Hr].
  rewrite Hr. eexists; reflexivity.
Qed.

Lemma training_rows_nonempty {B : Type} (X : list B) (i : nat) :
  (5 <= List.length X)%nat -> (i < 5)%nat ->
  firstn (i * (List.length X / 5)) X
  ++ skipn (i * (List.length X / 5) + List.length X / 5) X <> [].
Proof.
  intros Hlen Hi Hnil.
  apply (f_equal (@List.length B)) in Hnil.
  rewrite length_app, length_firstn, length_skipn in Hnil.
  change (List.length (@nil B)) with 0%nat in Hnil.
  assert (Hq : (1 <= List.length X / 5)%nat)
    by (apply Nat.div_le_lower_bound; lia).
  assert (Hm : (5 * (List.length X / 5) <= List.length X)%nat)
    by (apply Nat.Div0.mul_div_le).
  remember (List.length X / 5)%nat as q.
  destruct i as [|i]; [cbn [Nat.mul Nat.add] in Hnil; lia|].
  assert (Hi' : (q <= S i * q)%nat) by (cbn [Nat.mul]; lia).
  destruct (Nat.min_spec (S i * q) (List.length X)) as [[_ Hmin]|[_ Hmin]];
    rewrite Hmin in Hnil; lia.
Qed.

Lemma crossValidateModel_some (X : list (list num)) (y : list num) :
  (5 <= List.length X)%nat -> exists a, ForecastModel.crossValidateModel X y = Some a.
Proof.
  intros Hlen. unfold ForecastModel.crossValidateModel.
  cbn [seq fold_left].
  destruct (@fold_accuracy_some X y _ 0 (@training_rows_nonempty _ X 0 Hlen ltac:(lia))) as [a0 H0].
  destruct (@fold_accuracy_some X y _ 1 (@training_rows_nonempty _ X 1 Hlen ltac:(lia))) as [a1 H1].
  destruct (@fold_accuracy_some X y _ 2 (@training_rows_nonempty _ X 2 Hlen ltac:(lia))) as [a2 H2].
  destruct (@fold_accuracy_some X y _ 3 (@training_rows_nonempty _ X 3 Hlen ltac:(lia))) as [a3 H3].
  destruct (@fold_accuracy_some X y _ 4 (@training_rows_nonempty _ X 4 Hlen ltac:(lia))) as [a4 H4].
  rewrite H0, H1, H2, H3, H4. eexists; reflexivity.
Qed.

Lemma trainModel_some (menu_item : string) :
  exists m, ForecastModel.trainModel host production_data external_data menu_item = Some m.
Proof.
  unfold ForecastModel.trainModel.
  destruct (List.length (ForecastModel.getMenuItemData production_data menu_item) <? 5)%nat eqn:E.
  - eexists; reflexivity.
  - apply Nat.ltb_ge in E.
    set (data := ForecastModel.getMenuItemData production_data menu_item) in *.
    set (X := map (ForecastModel.prepareHistoricalFeatures host production_data external_data) data).
    assert (HX : (5 <= List.length X)%nat) by (unfold X; now rewrite length_map).
    assert (HXn : X <> []) by (intros Hn; rewrite Hn in HX; simpl in HX; lia).
    destruct (@multipleRegression_some X (map (@ForecastModel.waste_of num) data) HXn) as [r Hr].
    rewrite Hr.
    destruct (@crossValidateModel_some X (map (@ForecastModel.waste_of num) data) HX) as [a Ha].
    rewrite Ha. eexists; reflexivity.
Qed.

(** A call of [getOrTrainModel] returns, and a second call hits the cache. *)
Lemma getOrTrainModel_some (cache : ForecastModel.Cache) (menu_item : string) :
  exists m cache',
    ForecastModel.getOrTrainModel host production_data external_data cache menu_item
    = Some (m, cache')
    /\ ForecastModel.getOrTrainModel host production_data external_data cache' menu_item
       = Some (m, cache').
Proof.
  unfold ForecastModel.getOrTrainModel.
  destruct (lookup (ForecastModel.cache_key menu_item) cache) as [m|] eqn:E.
  - exists m, cache. now rewrite E.
  - destruct (trainModel_some menu_item) as [m Hm]. rewrite Hm.
    exists m, (map_set (ForecastModel.cache_key menu_item) m cache).
    now rewrite lookup_map_set_same.
Qed.
End ForecastLemmas.


(** Without history both forecasts take the fallback, whatever the model
    cache holds and without touching it: [ForecastService] places its
    interval at 0.7 and 1.3 times the predicted waste, [ForecastModel]
    returns the pair [-5, 5]. *)
Lemma fallback_results {num : Type} `{JSNumber num}
    (host : Host num) (production_data : list (DailyProduction.t num))
    (external_data : list (ExternalFactor.t num)) (input : ForecastInput.t num) :
  ForecastModel.getMenuItemData production_data (ForecastInput.menu_item input) = [] ->
  (let r := ForecastService.predict host production_data input in
   (ForecastResult.model_accuracy r = lit 65 2 \/ ForecastResult.model_accuracy r = lit 7 1)
   /\ ForecastResult.confidence_interval r
      = {| Interval.lower := (ForecastResult.predicted_waste r * lit 7 1)%js;
           Interval.upper := (ForecastResult.predicted_waste r * lit 13 1)%js |})
  /\ (forall cache : ForecastModel.Cache,
        exists r,
          ForecastModel.predict host production_data external_data cache input
          = Some (r, cache)
          /\ ForecastResult.model_accuracy r = lit 7 1
          /\ ForecastResult.confidence_interval r
             = {| Interval.lower := nopp (lit 5 0); Interval.upper := lit 5 0 |}).
Proof.
  intros Hzero. unfold ForecastModel.getMenuItemData in Hzero. split.
  - unfold ForecastService.predict. rewrite Hzero. cbn [List.length Nat.ltb Nat.leb].
    unfold ForecastService.predictFromCategory.
    rewrite (find_none_of_filter_nil _ _ Hzero).
    match goal with |- context [match ?l with [] => _ | _ :: _ => _ end] => destruct l end;
      cbn; split; auto.
  - intros cache. unfold ForecastModel.predict, ForecastModel.getMenuItemData.
    rewrite Hzero. cbn [List.length Nat.ltb Nat.leb].
    eexists. split; [reflexivity|]. split; reflexivity.
Qed.

(** C3: the fallback of [ForecastModel] returns its confidence offsets
    where the interval belongs.  For "Salad", an item without history
    beside three rows of soup with 10% waste, and 1000 servings, the
    accuracy is the constant 0.7 and the predicted waste 100, but
    [confidence_interval] is [-5, 5]: its lower end is negative, the
    predicted waste lies outside it, and it is a band of 20% to 30% of the
    predicted waste neither as an interval nor as a pair of offsets.  The
    model path of the same class adds its offsets to the predicted waste, and
    [ForecastService] returns [70, 130] on this input. *)
Theorem C3_fallback_interval_not_around_prediction :
  let request := forecast_request "Salad" "2024-06-03" None None None 1000 in
  ForecastModel.getMenuItemData (num := float) soup_history "Salad" = []
  /\ (exists r,
        ForecastModel.predict (num := float) utc_host soup_history [] [] request
        = Some (r, [])
        /\ ForecastResult.model_accuracy r = lit 7 1
        /\ ForecastResult.predicted_waste r = lit 100 0
        /\ ForecastResult.confidence_interval r
           = {| Interval.lower := nopp (lit 5 0); Interval.upper := lit 5 0 |}
        /\ (ForecastResult.predicted_waste r
            <=? Interval.upper (ForecastResult.confidence_interval r))%js = false
        /\ fixed_band_rule r = false
        /\ fixed_offsets_rule r = false)
  /\ (let r := ForecastService.predict (num := float) utc_host soup_history request in
      ForecastResult.confidence_interval r
      = {| Interval.lower := lit 70 0; Interval.upper := lit 130 0 |}
      /\ fixed_band_rule r = true).
Proof.
  cbv zeta. split; [reflexivity|]. split.
  - eexists. split; [vm_compute; reflexivity|].
    repeat split; vm_compute; reflexivity.
  - split; vm_compute; reflexivity.
Qed.

(** C5, as stated, fails on [ForecastModel]: on fourteen rows of stew the
    regression predicts less than 5% waste for the request, and the
    recommended quantity is the requested 200, not the 197 the formula
    [round(200 * 95 / (100 - predicted))] gives. *)
Lemma C5_counterexample :
  (5 <= List.length (ForecastModel.getMenuItemData (num:=float) stew_history "Stew"))%nat
  /\ exists r cache',
       ForecastModel.predict (num:=float) utc_host stew_history stew_external [] stew_request
       = Some (r, cache')
       /\ (ForecastResult.predicted_waste_percentage r <? lit 5 0)%js = true
       /\ ForecastResult.recommended_quantity r = lit 200 0
       /\ target_five_percent (ForecastInput.quantity_to_prepare stew_request)
            (ForecastResult.predicted_waste_percentage r) = lit 197 0.
Proof.
  split; [vm_compute; lia|].
  do 2 eexists. split; [vm_compute; reflexivity|].
  repeat split; vm_compute; reflexivity.
Qed.

(** C5 (amended): on the model path, [ForecastService.predict] (at least 3
    rows of the item) returns [round(quantity * (100 - 5) / (100 -
    predicted))]; [ForecastModel.predict] (at least 5 rows) returns a result
    for every cache, with [round(quantity * ((100 - 5) / (100 -
    predicted)))] when the predicted percentage exceeds 5 and
    [round(quantity * 1)] otherwise. *)
Theorem C5_recommended_quantity {num : Type} `{JSNumber num}
    (host : Host num) (production_data : list (DailyProduction.t num))
    (external_data : list (ExternalFactor.t num)) (input : ForecastInput.t num) :
  ((3 <= List.length (ForecastModel.getMenuItemData production_data
                        (ForecastInput.menu_item input)))%nat ->
   let r := ForecastService.predict host production_data input in
   ForecastResult.recommended_quantity r
   = target_five_percent (ForecastInput.quantity_to_prepare input)
       (ForecastResult.predicted_waste_percentage r))
  /\ ((5 <= List.length (ForecastModel.getMenuItemData production_data
                           (ForecastInput.menu_item input)))%nat ->
      forall cache : ForecastModel.Cache,
      exists r cache',
        ForecastModel.predict host production_data external_data cache input
        = Some (r, cache')
        /\ ForecastResult.recommended_quantity r
           = if (lit 5 0 <? ForecastResult.predicted_waste_percentage r)%js
             then Math_round
                    (ForecastInput.quantity_to_prepare input
                     * ((lit 100 0 - lit 5 0)
                        / (lit 100 0 - ForecastResult.predicted_waste_percentage r)))%js
             else Math_round (ForecastInput.quantity_to_prepare input * lit 1 0)%js).
Proof.
  split.
  - intros Hlen. unfold ForecastService.predict.
    unfold ForecastModel.getMenuItemData in Hlen.
    apply Nat.ltb_ge in Hlen. rewrite Hlen. reflexivity.
  - intros Hlen cache. unfold ForecastModel.predict.
    apply Nat.ltb_ge in Hlen. rewrite Hlen.
    destruct (getOrTrainModel_some host production_data external_data cache
                (ForecastInput.menu_item input)) as (m & cache' & H1 & H2).
    rewrite H1, H2. do 2 eexists. split; [reflexivity|].
    cbn [ForecastResult.recommended_quantity ForecastResult.predicted_waste_percentage].
    unfold ForecastModel.optimizeQuantity.
    destruct (_ <? _)%js; reflexivity.
Qed.

Lemma C5_recommended_quantity_witness :
  (5 <= List.length (ForecastModel.getMenuItemData (num := float) stew_history "Stew"))%nat
  /\ exists r cache',
       ForecastModel.predict (num := float) utc_host stew_history stew_external []
         stew_request = Some (r, cache')
       /\ ForecastResult.recommended_quantity r
          = if (lit 5 0 <? ForecastResult.predicted_waste_percentage r)%js
            then Math_round
                   (ForecastInput.quantity_to_prepare stew_request
                    * ((lit 100 0 - lit 5 0)
                       / (lit 100 0 - ForecastResult.predicted_waste_percentage r)))%js
            else Math_round (ForecastInput.quantity_to_prepare stew_request * lit 1 0)%js.
Proof.
  assert (Hlen : (5 <= List.length
                        (ForecastModel.getMenuItemData (num := float) stew_history "Stew"))%nat)
    by (vm_compute; lia).
  split; [exact Hlen|].
  exact (proj2 (C5_recommended_quantity (num := float) utc_host stew_history
                  stew_external stew_request) Hlen []).
Defined.

(* ================================================================== *)
(** * The impact projector *)
(* ================================================================== *)

(** C6, as stated, fails when the older window averages 0: with nothing
    rescued in the first two of four weeks and ten pounds a day in the last
    two, the ratio 10 / 0 clamps to 1.3 and the formula of the claim gives
    2372.5 pounds for the year, but the projection is the annualized 1825
    pounds: the code takes the trend multiplier 1. *)
Lemma C6_counterexample :
  let current :=
    ImpactService.calculateCurrentMetrics (num := float) utc_host impact_history None in
  let projected :=
    ImpactProjection.projected_metrics
      (ImpactService.calculateImpact (num := float) utc_host impact_history []
         yearly_projection) in
  let recent :=
    DailyAverages.food_rescued_lbs_daily
      (ImpactService.calculateDailyAverages
         (ImpactService.recent_window (num := float) impact_history)) in
  let older :=
    DailyAverages.food_rescued_lbs_daily
      (ImpactService.calculateDailyAverages
         (ImpactService.older_window (num := float) impact_history)) in
  List.length (ImpactService.recent_window (num := float) impact_history) = 14%nat
  /\ List.length (ImpactService.older_window (num := float) impact_history) = 14%nat
  /\ recent = lit 10 0 /\ older = lit 0 0
  /\ ImpactMetrics.food_rescued_lbs current = lit 1825 0
  /\ ImpactMetrics.food_rescued_lbs projected = lit 1825 0
  /\ (ImpactMetrics.food_rescued_lbs current
      * ImpactService.period_multiplier_of year
      * clamped_ratio recent older
      * scenario_multiplier None)%js = lit 23725 1.
Proof. repeat split; vm_compute; reflexivity. Qed.


(** C6 (amended): every projected metric is the current (annualized) metric
    times the period multiplier (1/52, 1/12, 1/4 or 1), times a trend
    multiplier, times a scenario multiplier.  The trend multiplier is the
    mild-growth constant when either 14-day window is empty, 1 when the
    older average is 0, and otherwise the ratio of the recent to the older
    average clamped to [0.8, 1.3].  The scenario multiplier is
    [1 + target / 100] for the intervention field of the metric (1 without
    scenarios), and 1 for the community impact score, which has no
    field. *)
Theorem C6_projected_metrics {num : Type} `{JSNumber num}
    (host : Host num) (impact_data : list (ImpactTracking.t num))
    (pickup_data : list (PickupOperation.t num))
    (input : ImpactProjectionInput.t num) :
  let result := ImpactService.calculateImpact host impact_data pickup_data input in
  let current := ImpactProjection.current_metrics result in
  let projected := ImpactProjection.projected_metrics result in
  let period :=
    ImpactService.period_multiplier_of (ImpactProjectionInput.projection_period input) in
  let recent := ImpactService.calculateDailyAverages (ImpactService.recent_window impact_data) in
  let older := ImpactService.calculateDailyAverages (ImpactService.older_window impact_data) in
  let window_empty :=
    (List.length (ImpactService.recent_window impact_data) =? 0)%nat
    || (List.length (ImpactService.older_window impact_data) =? 0)%nat in
  let trend default (metric : DailyAverages.t num -> num) :=
    guarded_trend window_empty default (metric recent) (metric older) in
  let scenario := scenario_for (ImpactProjectionInput.intervention_scenarios input) in
  current = ImpactService.calculateCurrentMetrics host impact_data
              (ImpactProjectionInput.baseline_date input)
  /\ ImpactMetrics.food_rescued_lbs projected
     = (ImpactMetrics.food_rescued_lbs current * period
        * trend (lit 102 2) (@DailyAverages.food_rescued_lbs_daily num)
        * scenario (@InterventionScenarios.waste_reduction_target num))%js
  /\ ImpactMetrics.meals_provided projected
     = (ImpactMetrics.meals_provided current * period
        * trend (lit 102 2) (@DailyAverages.meals_provided_to_community_daily num)
        * scenario (@InterventionScenarios.waste_reduction_target num))%js
  /\ ImpactMetrics.co2_emissions_avoided_lbs projected
     = (ImpactMetrics.co2_emissions_avoided_lbs current * period
        * trend (lit 102 2) (@DailyAverages.co2_emissions_avoided_lbs_daily num)
        * scenario (@InterventionScenarios.waste_reduction_target num))%js
  /\ ImpactMetrics.money_saved projected
     = (ImpactMetrics.money_saved current * period
        * trend (lit 101 2) (@DailyAverages.money_saved_daily num)
        * scenario (@InterventionScenarios.cost_optimization_target num))%js
  /\ ImpactMetrics.waste_disposal_cost_avoided projected
     = (ImpactMetrics.waste_disposal_cost_avoided current * period
        * trend (lit 101 2) (@DailyAverages.waste_disposal_cost_avoided_daily num)
        * scenario (@InterventionScenarios.waste_reduction_target num))%js
  /\ ImpactMetrics.volunteer_hours projected
     = (ImpactMetrics.volunteer_hours current * period
        * trend (lit 1 0) (@DailyAverages.volunteer_hours_daily num)
        * scenario (@InterventionScenarios.pickup_efficiency_improvement num))%js
  /\ ImpactMetrics.operational_savings projected
     = (ImpactMetrics.operational_savings current * period
        * trend (lit 101 2) (@DailyAverages.operational_savings_daily num)
        * scenario (@InterventionScenarios.cost_optimization_target num))%js
  /\ ImpactMetrics.community_impact_score projected
     = (ImpactMetrics.community_impact_score current * period
        * trend (lit 101 2) (@DailyAverages.community_impact_score_daily num)
        * lit 1 0)%js.
Proof.
  cbv zeta.
  unfold ImpactService.calculateImpact, ImpactService.projectFutureImpact,
    ImpactService.calculateTrendMultipliers, ImpactService.calculateScenarioMultipliers,
    ImpactService.calculateTrendRatio, guarded_trend, scenario_for, scenario_multiplier,
    clamped_ratio.
  cbn [ImpactProjection.current_metrics ImpactProjection.projected_metrics].
  destruct ((List.length (ImpactService.recent_window impact_data) =? 0)%nat
            || (List.length (ImpactService.older_window impact_data) =? 0)%nat);
    destruct (ImpactProjectionInput.intervention_scenarios input);
    repeat split; reflexivity.
Qed.


(* ================================================================== *)
(** * The clamp of the multiplicative forecast *)
(* ================================================================== *)

(** C10: the clamp [Math.max(1, Math.min(50, x))] lets NaN through.  For
    rice, three rows without any waste, two of them on Mondays, and a
    request for Monday 2024-06-03, the day-of-week factor is 0 / 0; the
    adjusted percentage is NaN after the clamp, so is the divisor
    [100 - percentage], and the recommended quantity is NaN. *)
Theorem C10_clamp_misses_NaN :
  let input := forecast_request (num := float) "Rice" "2024-06-03" None None None 200 in
  let r := ForecastService.predict (num := float) utc_host rice_history input in
  let p := ForecastResult.predicted_waste_percentage r in
  (3 <= List.length (ForecastModel.getMenuItemData (num := float) rice_history "Rice"))%nat
  /\ ForecastService.getDayOfWeekFactor (num := float) utc_host rice_history
       "Rice" "2024-06-03" = Statistics.NaN
  /\ p = Statistics.NaN
  /\ (lit 1 0 <=? p)%js = false
  /\ (p <=? lit 50 0)%js = false
  /\ (lit 100 0 - p)%js = Statistics.NaN
  /\ ForecastResult.recommended_quantity r = Statistics.NaN.
Proof. repeat split; vm_compute; try reflexivity; lia. Qed.


(* ================================================================== *)
(** * The record arrays *)
(* ================================================================== *)

(** C8: [getMenuSuggestions] without constraints sorts [this.menu_data]
    itself: a catalog holding Water (popularity 3) before Steak
    (popularity 9) holds Steak before Water after the call. *)
Theorem C8_getMenuSuggestions_reorders_menu_data :
  let menu_data := [dish (num := float) "lunch" "Water" 0 3; dish "lunch" "Steak" 4 9] in
  PlannerService.getMenuSuggestions menu_data no_constraints
  = ([dish "lunch" "Steak" 4 9; dish "lunch" "Water" 0 3],
     [dish "lunch" "Steak" 4 9; dish "lunch" "Water" 0 3])
  /\ snd (PlannerService.getMenuSuggestions menu_data no_constraints) <> menu_data.
Proof.
  split; [vm_compute; reflexivity|].
  intros Heq.
  apply (f_equal (map (@MenuPlanning.dish_name float))) in Heq.
  vm_compute in Heq. discriminate.
Qed.


(** With a filter at work the array that is sorted is a copy, and the
    catalog is left as it was. *)
Lemma getMenuSuggestions_filtered_keeps_menu_data {num : Type} `{JSNumber num}
    (menu_data : list (MenuPlanning.t num)) (constraints : SuggestionConstraints.t num) :
  SuggestionConstraints.dietary_restrictions constraints <> None ->
  snd (PlannerService.getMenuSuggestions menu_data constraints) = menu_data.
Proof.
  intros Hd. unfold PlannerService.getMenuSuggestions.
  destruct (SuggestionConstraints.max_prep_time constraints) as [t|];
    [destruct (truthy t)|];
    (destruct (SuggestionConstraints.cost_limit constraints) as [c|];
       [destruct (truthy c)|]);
    (destruct (SuggestionConstraints.dietary_restrictions constraints);
       [reflexivity|contradiction]).
Qed.

(* ================================================================== *)
(** * The route optimiser *)
(* ================================================================== *)

Section TrackerLemmas.
Context {num : Type} `{JSNumber num}.
Variable host : Host num.
Variable pickup_data : list (PickupOperation.t num).
Variable external_data : list (ExternalFactor.t num).

Local Abbreviation pickup := (OptimizedPickup.t num).
Local Abbreviation route := (RouteOptimization.t num).

(** What [findBestNextPickup] returns is a feasible pickup, possibly
    copied with its composite score. *)
Lemma best_of_feasible (P : pickup -> Prop) (loc : string)
    (feasible : list pickup) (first : pickup) :
  (forall c p, P p -> P (TrackerService.set_composite c p)) ->
  P first -> Forall P feasible ->
  P (fold_left (TrackerService.best_step loc) feasible first).
Proof.
  intros Hcopy. revert first.
  induction feasible as [|p l IH]; intros first Hfirst Hall; simpl; [exact Hfirst|].
  inversion Hall as [|? ? Hp Hl]; subst.
  apply IH; [|exact Hl].
  unfold TrackerService.best_step. destruct (_ <? _)%js; auto.
Qed.

Lemma findBestNextPickup_spec (loc : string) (available : list pickup)
    (volume cap : num) (best : pickup) :
  TrackerService.findBestNextPickup loc available volume cap = Some best ->
  (volume + OptimizedPickup.estimated_volume best <=? cap)%js = true
  /\ In (OptimizedPickup.pickup_id best) (ids available).
Proof.
  unfold TrackerService.findBestNextPickup.
  set (ok := fun p : pickup => (volume + OptimizedPickup.estimated_volume p <=? cap)%js).
  destruct (filter ok available) as [|first rest] eqn:Hf; [discriminate|].
  intros Hbest. injection Hbest as <-.
  assert (Hall : Forall (fun p => ok p = true /\ In (OptimizedPickup.pickup_id p) (ids available))
                        (first :: rest)).
  { rewrite <- Hf. apply Forall_forall. intros p Hp.
    apply filter_In in Hp. destruct Hp as [Hin Hok]. split; [exact Hok|].
    unfold ids. now apply in_map. }
  apply (@best_of_feasible
           (fun p => ok p = true /\ In (OptimizedPickup.pickup_id p) (ids available))
           loc (first :: rest) first).
  - intros c p Hp. exact Hp.
  - exact (Forall_inv Hall).
  - exact Hall.
Qed.

Lemma remove_by_id_perm (id : string) (a : list pickup) :
  In id (ids a) ->
  Permutation (id :: ids (TrackerService.remove_by_id id a)) (ids a).
Proof.
  induction a as [|p a IH]; simpl; [contradiction|].
  destruct (String.eqb (OptimizedPickup.pickup_id p) id) eqn:E.
  - apply String.eqb_eq in E. subst id. reflexivity.
  - intros [Heq|Hin].
    + subst id. now rewrite String.eqb_refl in E.
    + simpl. rewrite perm_swap. constructor. now apply IH.
Qed.

Lemma remove_by_id_absent (id : string) (a : list pickup) :
  ~ In id (ids a) -> TrackerService.remove_by_id id a = a.
Proof.
  induction a as [|p a IH]; simpl; [reflexivity|].
  intros Hnot.
  destruct (String.eqb (OptimizedPickup.pickup_id p) id) eqn:E.
  - apply String.eqb_eq in E. exfalso. apply Hnot. now left.
  - f_equal. apply IH. intros Hin. apply Hnot. now right.
Qed.

(** The loop of [createOptimalRoute] moves pickups from the pool to the
    route. *)
Lemma route_loop_perm (driver : string) (fuel : nat) (st : TrackerService.RouteState) :
  let st' := TrackerService.route_loop driver fuel st in
  Permutation
    (ids (TrackerService.route_pickups st') ++ ids (TrackerService.available_pickups st'))
    (ids (TrackerService.route_pickups st) ++ ids (TrackerService.available_pickups st)).
Proof.
  revert st. induction fuel as [|fuel IH]; intros st; simpl; [reflexivity|].
  destruct (TrackerService.available_pickups st) as [|a0 arest] eqn:Havail.
  - rewrite Havail. reflexivity.
  - rewrite <- Havail.
    destruct (TrackerService.findBestNextPickup _ _ _ _) as [best|] eqn:Hbest;
      [|reflexivity].
    apply findBestNextPickup_spec in Hbest. destruct Hbest as [_ Hin].
    match goal with |- context [TrackerService.route_loop driver fuel ?s] =>
      specialize (IH s) end.
    cbn [TrackerService.route_pickups TrackerService.available_pickups
         TrackerService.set_driver OptimizedPickup.pickup_id] in IH.
    rewrite IH. unfold ids at 1. rewrite map_app.
    fold (ids (TrackerService.route_pickups st)).
    simpl. rewrite <- app_assoc. apply Permutation_app_head. simpl.
    now apply remove_by_id_perm.
Qed.

(** It keeps the accumulated volume within the cap and adds at most
    [fuel] stops. *)
Lemma route_loop_caps (driver : string) (fuel : nat) (st : TrackerService.RouteState) :
  (TrackerService.acc_volume st <=? TrackerService.max_total_volume)%js = true ->
  let st' := TrackerService.route_loop driver fuel st in
  (TrackerService.acc_volume st' <=? TrackerService.max_total_volume)%js = true
  /\ (List.length (TrackerService.route_pickups st')
      <= List.length (TrackerService.route_pickups st) + fuel)%nat.
Proof.
  revert st. induction fuel as [|fuel IH]; intros st Hcap; simpl.
  - split; [exact Hcap|lia].
  - destruct (TrackerService.available_pickups st) as [|a0 arest] eqn:Havail.
    + split; [exact Hcap|lia].
    + rewrite <- Havail.
      destruct (TrackerService.findBestNextPickup _ _ _ _) as [best|] eqn:Hbest;
        [|split; [exact Hcap|lia]].
      apply findBestNextPickup_spec in Hbest. destruct Hbest as [Hvol _].
      match goal with |- context [TrackerService.route_loop driver fuel ?s] =>
        specialize (IH s) end.
      cbn [TrackerService.acc_volume TrackerService.route_pickups
           TrackerService.set_driver OptimizedPickup.estimated_volume] in IH.
      destruct (IH Hvol) as (IH1 & IH2).
      split; [exact IH1|]. rewrite length_app in IH2. simpl in IH2. lia.
Qed.

Lemma createOptimalRoute_perm (now driver : string) (available : list pickup) :
  Permutation
    (ids (RouteOptimization.pickups
            (fst (TrackerService.createOptimalRoute now driver available)))
     ++ ids (snd (TrackerService.createOptimalRoute now driver available)))
    (ids available).
Proof.
  unfold TrackerService.createOptimalRoute. cbn [fst snd RouteOptimization.pickups].
  match goal with |- context [TrackerService.route_loop ?d ?f ?s] =>
    exact (route_loop_perm d f s) end.
Qed.

Lemma createOptimalRoute_caps (now driver : string) (available : list pickup) :
  (lit 0 0 <=? lit 200 0)%js = true ->
  within_caps (fst (TrackerService.createOptimalRoute now driver available)).
Proof.
  intros Hzero. unfold TrackerService.createOptimalRoute, within_caps.
  cbn [fst RouteOptimization.pickups RouteOptimization.total_volume].
  match goal with |- context [TrackerService.route_loop ?d ?f ?s] =>
    destruct (route_loop_caps d f s Hzero) as [Hv Hl] end.
  split; [exact Hl|exact Hv].
Qed.

Lemma fold_remove_absent (l rem : list pickup) :
  (forall p, In p l -> ~ In (OptimizedPickup.pickup_id p) (ids rem)) ->
  fold_left (fun rem p => TrackerService.remove_by_id (OptimizedPickup.pickup_id p) rem)
            l rem = rem.
Proof.
  induction l as [|p l IH]; intros Habs; simpl; [reflexivity|].
  rewrite remove_by_id_absent by (apply Habs; now left).
  apply IH. intros q Hq. apply Habs. now right.
Qed.

Lemma route_ids_app (rs1 rs2 : list route) :
  route_ids (rs1 ++ rs2) = route_ids rs1 ++ route_ids rs2.
Proof. unfold route_ids. apply flat_map_app. Qed.

Lemma assign_drivers_nil (clock : nat -> string) (k : nat) (drivers : list string)
    (routes : list route) :
  TrackerService.assign_drivers clock k drivers routes [] = (routes, []).
Proof. induction drivers as [|d ds IH]; simpl; [reflexivity|exact IH]. Qed.

(** After [createOptimalRoute] the second removal finds nothing left to
    remove, the identifiers being distinct. *)
Lemma second_removal_noop (now driver : string) (remaining : list pickup) :
  NoDup (ids remaining) ->
  fold_left (fun rem p => TrackerService.remove_by_id (OptimizedPickup.pickup_id p) rem)
    (RouteOptimization.pickups (fst (TrackerService.createOptimalRoute now driver remaining)))
    (snd (TrackerService.createOptimalRoute now driver remaining))
  = snd (TrackerService.createOptimalRoute now driver remaining).
Proof.
  intros Hnd. apply fold_remove_absent. intros p Hp Hin.
  pose proof (createOptimalRoute_perm now driver remaining) as Hperm.
  apply Permutation_sym in Hperm.
  pose proof (Permutation_NoDup Hperm Hnd) as Hnd'.
  apply NoDup_app_remove_l in Hnd' as Hnd2.
  revert Hnd'. apply NoDup_disjoint_false with (a := OptimizedPickup.pickup_id p).
  - unfold ids. now apply in_map.
  - exact Hin.
Qed.

Lemma assign_drivers_cons (clock : nat -> string) (k : nat) (d : string)
    (ds : list string) (routes : list route) (remaining : list pickup) :
  remaining <> [] ->
  TrackerService.assign_drivers clock k (d :: ds) routes remaining
  = let created := TrackerService.createOptimalRoute (clock k) d remaining in
    TrackerService.assign_drivers clock (S k) ds (routes ++ [fst created])
      (fold_left
         (fun rem p => TrackerService.remove_by_id (OptimizedPickup.pickup_id p) rem)
         (RouteOptimization.pickups (fst created)) (snd created)).
Proof.
  destruct remaining as [|r0 rest]; [contradiction|]. intros _.
  cbn [TrackerService.assign_drivers].
  now destruct (TrackerService.createOptimalRoute (clock k) d (r0 :: rest)).
Qed.

Lemma assign_drivers_perm (clock : nat -> string) (drivers : list string) :
  forall (k : nat) (routes : list route) (remaining : list pickup),
    NoDup (ids remaining) ->
    Permutation
      (route_ids (fst (TrackerService.assign_drivers clock k drivers routes remaining))
       ++ ids (snd (TrackerService.assign_drivers clock k drivers routes remaining)))
      (route_ids routes ++ ids remaining).
Proof.
  induction drivers as [|d ds IH]; intros k routes remaining Hnd; [reflexivity|].
  destruct (list_eq_dec string_dec (ids remaining) []) as [Hnil|Hne].
  - destruct remaining; [|discriminate]. rewrite assign_drivers_nil. reflexivity.
  - assert (Hrem : remaining <> []) by (intros ->; now apply Hne).
    rewrite (assign_drivers_cons clock k d ds routes Hrem). cbv zeta.
    rewrite (@second_removal_noop (clock k) d remaining Hnd).
    pose proof (createOptimalRoute_perm (clock k) d remaining) as Hperm.
    assert (Hnd1 : NoDup (ids (snd (TrackerService.createOptimalRoute (clock k) d remaining)))).
    { pose proof (Permutation_NoDup (Permutation_sym Hperm) Hnd) as Hnd'.
      now apply NoDup_app_remove_l in Hnd'. }
    rewrite (IH (S k) _ _ Hnd1).
    rewrite route_ids_app. unfold route_ids at 2. simpl. rewrite app_nil_r.
    rewrite <- app_assoc. apply Permutation_app_head. exact Hperm.
Qed.

Lemma assign_drivers_caps (clock : nat -> string) (drivers : list string) :
  (lit 0 0 <=? lit 200 0)%js = true ->
  forall (k : nat) (routes : list route) (remaining : list pickup),
    Forall within_caps routes ->
    Forall within_caps
      (fst (TrackerService.assign_drivers clock k drivers routes remaining)).
Proof.
  intros Hzero.
  induction drivers as [|d ds IH]; intros k routes remaining Hall; [exact Hall|].
  destruct remaining as [|r0 rest] eqn:Hrem.
  - now rewrite assign_drivers_nil.
  - rewrite <- Hrem.
    assert (Hne : remaining <> []) by (rewrite Hrem; discriminate).
    rewrite (assign_drivers_cons clock k d ds routes Hne). cbv zeta.
    apply IH. apply Forall_app. split; [exact Hall|].
    constructor; [|constructor].
    now apply createOptimalRoute_caps.
Qed.

Lemma assign_drivers_keeps_routes (clock : nat -> string) (drivers : list string) :
  forall (k : nat) (routes : list route) (remaining : list pickup),
    routes <> [] ->
    fst (TrackerService.assign_drivers clock k drivers routes remaining) <> [].
Proof.
  induction drivers as [|d ds IH]; intros k routes remaining Hne; [exact Hne|].
  destruct remaining as [|r0 rest] eqn:Hrem.
  - now rewrite assign_drivers_nil.
  - rewrite <- Hrem.
    assert (Hr : remaining <> []) by (rewrite Hrem; discriminate).
    rewrite (assign_drivers_cons clock k d ds routes Hr). cbv zeta.
    apply IH. now destruct routes.
Qed.

(** With a driver, pickups are left over only beside a route. *)
Lemma assign_drivers_route_exists (clock : nat -> string) (drivers : list string)
    (k : nat) (remaining : list pickup) :
  drivers <> [] ->
  snd (TrackerService.assign_drivers clock k drivers [] remaining) <> [] ->
  fst (TrackerService.assign_drivers clock k drivers [] remaining) <> [].
Proof.
  destruct drivers as [|d ds]; [contradiction|]. intros _.
  destruct remaining as [|r0 rest] eqn:Hrem.
  - rewrite assign_drivers_nil. simpl. contradiction.
  - rewrite <- Hrem.
    assert (Hr : remaining <> []) by (rewrite Hrem; discriminate).
    rewrite (assign_drivers_cons clock k d ds [] Hr). cbv zeta.
    intros _. apply assign_drivers_keeps_routes. discriminate.
Qed.

Lemma least_time_index_bound (rest : list route) :
  forall (best_i : nat) (best_time : num) (i : nat),
    (best_i < i)%nat ->
    (TrackerService.least_time_index best_i best_time i rest < i + List.length rest)%nat.
Proof.
  induction rest as [|r rest IH]; intros best_i best_time i Hlt; simpl; [lia|].
  destruct (_ <? _)%js.
  - specialize (IH i (RouteOptimization.total_time r) (S i)). lia.
  - specialize (IH best_i best_time (S i)). lia.
Qed.

Lemma update_nth_route_ids (p : pickup) (rs : list route) :
  forall i : nat,
    (i < List.length rs)%nat ->
    Permutation
      (route_ids (TrackerService.update_nth i (TrackerService.push_and_update p) rs))
      (OptimizedPickup.pickup_id p :: route_ids rs).
Proof.
  induction rs as [|r rs IH]; intros i Hi; simpl in Hi; [lia|].
  destruct i as [|i]; simpl.
  - unfold ids at 1. rewrite map_app. simpl.
    fold (ids (RouteOptimization.pickups r)).
    rewrite <- app_assoc. simpl.
    symmetry. apply Permutation_middle.
  - rewrite (IH i) by lia. symmetry. apply Permutation_middle.
Qed.

Lemma update_nth_nonempty {A : Type} (i : nat) (f : A -> A) (l : list A) :
  l <> [] -> TrackerService.update_nth i f l <> [].
Proof. destruct l; [contradiction|]. intros _. destruct i; discriminate. Qed.

Lemma append_leftover_spec (rs : list route) (p : pickup) :
  rs <> [] ->
  exists rs',
    TrackerService.append_leftover (Some rs) p = Some rs'
    /\ rs' <> []
    /\ Permutation (route_ids rs') (OptimizedPickup.pickup_id p :: route_ids rs).
Proof.
  destruct rs as [|first rest]; [contradiction|]. intros _.
  unfold TrackerService.append_leftover.
  eexists. split; [reflexivity|]. split.
  - apply update_nth_nonempty. discriminate.
  - apply update_nth_route_ids.
    pose proof (least_time_index_bound rest (RouteOptimization.total_time first)
                  (best_i := 0) (i := 1) ltac:(lia)).
    simpl. lia.
Qed.

Lemma fold_append_leftover (leftovers : list pickup) :
  forall rs : list route,
    rs <> [] ->
    exists rs',
      fold_left TrackerService.append_leftover leftovers (Some rs) = Some rs'
      /\ Permutation (route_ids rs') (route_ids rs ++ ids leftovers).
Proof.
  induction leftovers as [|p l IH]; intros rs Hne; cbn [fold_left].
  - exists rs. split; [reflexivity|]. simpl. now rewrite app_nil_r.
  - destruct (append_leftover_spec p Hne) as (rs1 & Heq & Hne1 & Hperm).
    rewrite Heq.
    destruct (IH rs1 Hne1) as (rs' & Hfold & Hperm').
    exists rs'. split; [exact Hfold|].
    rewrite Hperm', Hperm. simpl. apply Permutation_middle.
Qed.

(** Every pickup given to [optimizeRoutes] ends in exactly one route. *)
Lemma optimizeRoutes_perm (clock : nat -> string) (pickups : list pickup)
    (drivers : list string) :
  drivers <> [] -> NoDup (ids pickups) ->
  exists rs,
    TrackerService.optimizeRoutes clock pickups drivers = Some rs
    /\ Permutation (route_ids rs) (ids pickups).
Proof.
  intros Hd Hnd. unfold TrackerService.optimizeRoutes.
  pose proof (@assign_drivers_perm clock drivers 0 [] pickups Hnd) as Hperm.
  pose proof (@assign_drivers_route_exists clock drivers 0 pickups Hd) as Hex.
  destruct (TrackerService.assign_drivers clock 0 drivers [] pickups)
    as [routes leftovers].
  cbn [fst snd] in Hperm, Hex. simpl in Hperm.
  destruct leftovers as [|l0 ls] eqn:Hl.
  - exists routes. split; [reflexivity|]. now rewrite app_nil_r in Hperm.
  - rewrite <- Hl in *.
    assert (Hne : routes <> []) by (apply Hex; rewrite Hl; discriminate).
    destruct (fold_append_leftover leftovers Hne) as (rs' & Hfold & Hperm').
    exists rs'. split; [exact Hfold|]. now rewrite Hperm'.
Qed.

(** ** The candidates *)

Lemma lookup_after_sets {A : Type} (f : string -> A) (ls : list string) :
  forall (m0 : list (string * A)) (k : string),
    In k ls \/ lookup k m0 <> None ->
    lookup k (fold_left (fun m l => map_set l (f l) m) ls m0) <> None.
Proof.
  induction ls as [|l ls IH]; intros m0 k Hk; simpl.
  - destruct Hk as [[]|Hk]; exact Hk.
  - apply IH.
    destruct (string_dec k l) as [->|Hne].
    + right. rewrite lookup_map_set_same. discriminate.
    + destruct Hk as [[Heq|Hin]|Hk].
      * congruence.
      * now left.
      * right. now rewrite lookup_map_set_other.
Qed.

Lemma append_inj (s a b : string) : String.append s a = String.append s b -> a = b.
Proof. induction s as [|c s IH]; simpl; [auto|]. intros [= Heq]. now apply IH. Qed.

Lemma string_of_nat_inj (n m : nat) : string_of_nat n = string_of_nat m -> n = m.
Proof.
  unfold string_of_nat. intros Heq.
  apply DecimalNat.Unsigned.to_uint_inj.
  pose proof (NilEmpty.usu (Nat.to_uint n)) as Hn.
  pose proof (NilEmpty.usu (Nat.to_uint m)) as Hm.
  rewrite Heq in Hn. rewrite Hn in Hm. now injection Hm.
Qed.

Lemma candidate_id_inj (input : PickupOptimizationInput.t num) (n m : nat) :
  candidate_id host input n = candidate_id host input m -> n = m.
Proof.
  unfold candidate_id. intros Heq.
  apply string_of_nat_inj.
  repeat (apply append_inj in Heq). exact Heq.
Qed.

Lemma collect_suggestions_ids (input : PickupOptimizationInput.t num)
    (patterns : list (string * LocationPattern.t num)) (locations : list string) :
  (forall l, In l locations -> lookup l patterns <> None) ->
  forall counter : nat,
    ids (TrackerService.collect_suggestions host external_data input patterns
           counter locations)
    = map (candidate_id host input) (seq counter (List.length locations)).
Proof.
  induction locations as [|l ls IH]; intros Hall counter; simpl; [reflexivity|].
  destruct (lookup l patterns) as [pat|] eqn:E.
  - simpl. f_equal. apply IH. intros l' Hl'. apply Hall. now right.
  - exfalso. apply (Hall l); [now left|exact E].
Qed.

Lemma candidates_spec (input : PickupOptimizationInput.t num) :
  let locations := PickupOptimizationInput.available_locations input in
  let candidates :=
    TrackerService.generatePickupSuggestions host external_data input
      (TrackerService.analyzeLocationPatterns host pickup_data locations) in
  List.length candidates = List.length locations /\ NoDup (ids candidates).
Proof.
  cbv zeta. unfold TrackerService.generatePickupSuggestions.
  set (locations := PickupOptimizationInput.available_locations input).
  set (raw := TrackerService.collect_suggestions _ _ _ _ _ _).
  assert (Hids : ids raw = map (candidate_id host input) (seq 1 (List.length locations))).
  { apply collect_suggestions_ids. intros l Hl.
    unfold TrackerService.analyzeLocationPatterns.
    apply lookup_after_sets. now left. }
  pose proof (js_sort_perm (@TrackerService.by_priority_desc num _) raw) as Hperm.
  split.
  - rewrite (Permutation_length Hperm).
    transitivity (List.length (ids raw)); [unfold ids; now rewrite length_map|].
    rewrite Hids, length_map. apply length_seq.
  - apply (Permutation_NoDup (l := ids raw)).
    + unfold ids. apply Permutation_map. now symmetry.
    + rewrite Hids. apply NoDup_map_injective; [|apply seq_NoDup].
      intros n m. apply candidate_id_inj.
Qed.
End TrackerLemmas.


(** ** Where the leftovers go *)

(** [<] on doubles is a strict order: NaN is below and above nothing. *)
Lemma SFcompare_pos_Lt (e1 e2 : Z) (m1 m2 : positive) :
  match (e1 ?= e2)%Z with
  | Lt => Lt | Gt => Gt | Eq => Pos.compare_cont Eq m1 m2
  end = Lt <-> lex_lt e1 m1 e2 m2.
Proof.
  unfold lex_lt. change (Pos.compare_cont Eq m1 m2) with (m1 ?= m2)%positive.
  destruct (Z.compare_spec e1 e2); [destruct (Pos.compare_spec m1 m2)| |];
    split; intros Hlt; try discriminate; try reflexivity; lia.
Qed.

Lemma SFcompare_neg_Lt (e1 e2 : Z) (m1 m2 : positive) :
  match (e1 ?= e2)%Z with
  | Lt => Gt | Gt => Lt | Eq => CompOpp (Pos.compare_cont Eq m1 m2)
  end = Lt <-> lex_lt e2 m2 e1 m1.
Proof.
  unfold lex_lt. change (Pos.compare_cont Eq m1 m2) with (m1 ?= m2)%positive.
  destruct (Z.compare_spec e1 e2); [destruct (Pos.compare_spec m1 m2)| |];
    split; intros Hlt; try discriminate; try reflexivity; cbn in *; lia.
Qed.

Lemma SFltb_finite (s1 s2 : bool) (m1 m2 : positive) (e1 e2 : Z) :
  SFltb (S754_finite s1 m1 e1) (S754_finite s2 m2 e2) = true
  <-> match s1, s2 with
      | true, false => True
      | false, true => False
      | false, false => lex_lt e1 m1 e2 m2
      | true, true => lex_lt e2 m2 e1 m1
      end.
Proof.
  unfold SFltb, SFcompare. destruct s1, s2.
  - rewrite <- SFcompare_neg_Lt.
    destruct (match (e1 ?= e2)%Z with Lt => Gt | Gt => Lt | Eq => _ end);
      split; congruence.
  - tauto.
  - split; [discriminate|contradiction].
  - rewrite <- SFcompare_pos_Lt.
    destruct (match (e1 ?= e2)%Z with Lt => Lt | Gt => Gt | Eq => _ end);
      split; congruence.
Qed.

Lemma SFltb_irrefl (x : spec_float) : SFltb x x = false.
Proof.
  destruct x as [s|s| |s m e]; try reflexivity.
  - now destruct s.
  - destruct (SFltb (S754_finite s m e) (S754_finite s m e)) eqn:E; [|reflexivity].
    apply SFltb_finite in E. unfold lex_lt in E. destruct s; lia.
Qed.

Lemma SFltb_trans (x y z : spec_float) :
  SFltb x y = true -> SFltb y z = true -> SFltb x z = true.
Proof.
  destruct x as [sx|sx| |sx mx ex], y as [sy|sy| |sy my ey], z as [sz|sz| |sz mz ez];
    try discriminate; try reflexivity;
    try (destruct sx, sy, sz; cbn; congruence);
    try (destruct sx, sy; cbn; congruence);
    try (destruct sx, sz; cbn; congruence);
    try (destruct sy, sz; cbn; congruence).
  rewrite !SFltb_finite. unfold lex_lt. destruct sx, sy, sz; try tauto; lia.
Qed.

Lemma float_ltb_irrefl (x : float) : (x <? x)%js = false.
Proof. cbn [nltb float_JSNumber]. rewrite ltb_spec. apply SFltb_irrefl. Qed.

Lemma float_ltb_trans (x y z : float) :
  (x <? y)%js = true -> (y <? z)%js = true -> (x <? z)%js = true.
Proof. cbn [nltb float_JSNumber]. rewrite !ltb_spec. apply SFltb_trans. Qed.

Section LeastTime.
Context {num : Type} `{JSNumber num}.
Hypothesis ltb_irrefl : forall x : num, (x <? x)%js = false.
Hypothesis ltb_trans :
  forall x y z : num, (x <? y)%js = true -> (y <? z)%js = true -> (x <? z)%js = true.

Local Abbreviation pickup := (OptimizedPickup.t num).
Local Abbreviation route := (RouteOptimization.t num).

(** The [reduce] of the leftover loop: after the routes [seen], with the
    best of them at [best_i], the index returned is that of a route no
    route of the whole list undercuts. *)
Lemma least_time_index_least (rest : list route) :
  forall (seen : list route) (best_i : nat) (best : route),
    nth_error seen best_i = Some best ->
    (forall r', In r' seen ->
       (RouteOptimization.total_time r' <? RouteOptimization.total_time best)%js = false) ->
    exists r,
      nth_error (seen ++ rest)
        (TrackerService.least_time_index best_i (RouteOptimization.total_time best)
           (List.length seen) rest) = Some r
      /\ forall r', In r' (seen ++ rest) ->
           (RouteOptimization.total_time r' <? RouteOptimization.total_time r)%js = false.
Proof.
  induction rest as [|r0 rest IH]; intros seen best_i best Hbest Hleast;
    cbn [TrackerService.least_time_index].
  - rewrite app_nil_r. now exists best.
  - replace (seen ++ r0 :: rest) with ((seen ++ [r0]) ++ rest)
      by (now rewrite <- app_assoc).
    replace (S (List.length seen)) with (List.length (seen ++ [r0]))
      by (rewrite length_app; simpl; lia).
    destruct (RouteOptimization.total_time r0 <? RouteOptimization.total_time best)%js
      eqn:Hless.
    + apply IH.
      * rewrite nth_error_app2 by lia. now rewrite Nat.sub_diag.
      * intros r' Hin. apply in_app_or in Hin. destruct Hin as [Hin|[<-|[]]].
        -- destruct (RouteOptimization.total_time r' <? RouteOptimization.total_time r0)%js
             eqn:E; [|reflexivity].
           rewrite <- (Hleast r' Hin). symmetry. now apply ltb_trans with (2 := Hless).
        -- apply ltb_irrefl.
    + apply IH.
      * rewrite nth_error_app1; [exact Hbest|]. apply nth_error_Some. congruence.
      * intros r' Hin. apply in_app_or in Hin. destruct Hin as [Hin|[<-|[]]];
          [now apply Hleast|exact Hless].
Qed.

(** One leftover goes to a route with the least accumulated time. *)
Lemma append_leftover_least (rs : list route) (p : pickup) :
  rs <> [] ->
  exists i r,
    nth_error rs i = Some r /\ least_time rs r
    /\ TrackerService.append_leftover (Some rs) p
       = Some (TrackerService.update_nth i (TrackerService.push_and_update p) rs).
Proof.
  destruct rs as [|first rest]; [contradiction|]. intros _.
  destruct (least_time_index_least rest [first] 0 (best := first) eq_refl) as (r & Hr & Hleast).
  { intros r' [<-|[]]. apply ltb_irrefl. }
  cbn [List.length app] in Hr, Hleast.
  exists (TrackerService.least_time_index 0 (RouteOptimization.total_time first) 1 rest), r.
  split; [exact Hr|]. split; [|reflexivity].
  split; [|exact Hleast]. eapply nth_error_In. exact Hr.
Qed.

Lemma fold_append_leftover_least (leftovers : list pickup) :
  forall rs : list route,
    rs <> [] ->
    exists rs',
      fold_left TrackerService.append_leftover leftovers (Some rs) = Some rs'
      /\ appended_to_least rs leftovers rs'.
Proof.
  induction leftovers as [|p l IH]; intros rs Hne; cbn [fold_left].
  - exists rs. split; [reflexivity|constructor].
  - destruct (append_leftover_least p Hne) as (i & r & Hnth & Hleast & Heq).
    rewrite Heq.
    destruct (IH _ (update_nth_nonempty i (TrackerService.push_and_update p) Hne))
      as (rs' & Hfold & Happ).
    exists rs'. split; [exact Hfold|].
    eapply appended_next; [exact Hnth|exact Hleast|exact Happ].
Qed.

(** With a driver, [optimizeRoutes] returns the routes of the per-driver
    pass with every leftover appended to a route of least accumulated
    time. *)
Lemma optimizeRoutes_appends_to_least (clock : nat -> string) (pickups : list pickup)
    (drivers : list string) :
  drivers <> [] ->
  exists rs,
    TrackerService.optimizeRoutes clock pickups drivers = Some rs
    /\ appended_to_least
         (fst (TrackerService.assign_drivers clock 0 drivers [] pickups))
         (snd (TrackerService.assign_drivers clock 0 drivers [] pickups)) rs.
Proof.
  intros Hd. unfold TrackerService.optimizeRoutes.
  pose proof (@assign_drivers_route_exists _ _ clock drivers 0 pickups Hd) as Hex.
  destruct (TrackerService.assign_drivers clock 0 drivers [] pickups)
    as [routes leftovers].
  cbn [fst snd] in Hex |- *.
  destruct leftovers as [|l0 ls] eqn:Hl.
  - exists routes. split; [reflexivity|constructor].
  - rewrite <- Hl in *. apply fold_append_leftover_least.
    apply Hex. rewrite Hl. discriminate.
Qed.
End LeastTime.






(* ================================================================== *)
(** * What the outputs depend on *)
(* ================================================================== *)

Section ClockLemmas.
Context {num : Type} `{JSNumber num}.

Local Abbreviation pickup := (OptimizedPickup.t num).
Local Abbreviation route := (RouteOptimization.t num).

Lemma assign_drivers_clock (clock1 clock2 : nat -> string) (drivers : list string) :
  forall (k1 k2 : nat) (routes1 routes2 : list route) (remaining : list pickup),
    map without_route_id routes1 = map without_route_id routes2 ->
    map without_route_id
      (fst (TrackerService.assign_drivers clock1 k1 drivers routes1 remaining))
    = map without_route_id
        (fst (TrackerService.assign_drivers clock2 k2 drivers routes2 remaining))
    /\ snd (TrackerService.assign_drivers clock1 k1 drivers routes1 remaining)
       = snd (TrackerService.assign_drivers clock2 k2 drivers routes2 remaining).
Proof.
  induction drivers as [|d ds IH]; intros k1 k2 routes1 routes2 remaining Heq.
  - split; [exact Heq|reflexivity].
  - destruct remaining as [|r0 rest] eqn:Hrem.
    + rewrite !assign_drivers_nil. split; [exact Heq|reflexivity].
    + rewrite <- Hrem.
      assert (Hne : remaining <> []) by (rewrite Hrem; discriminate).
      rewrite (assign_drivers_cons clock1 k1 d ds routes1 Hne).
      rewrite (assign_drivers_cons clock2 k2 d ds routes2 Hne).
      cbv zeta. apply IH.
      rewrite !map_app. f_equal. exact Heq.
Qed.

Lemma least_time_index_erased (rest : list route) :
  forall (best_i : nat) (best_time : num) (i : nat),
    TrackerService.least_time_index best_i best_time i (map without_route_id rest)
    = TrackerService.least_time_index best_i best_time i rest.
Proof.
  induction rest as [|r rest IH]; intros best_i best_time i; simpl; [reflexivity|].
  destruct (_ <? _)%js; apply IH.
Qed.

Lemma update_nth_erased (p : pickup) (rs : list route) :
  forall i : nat,
    map without_route_id (TrackerService.update_nth i (TrackerService.push_and_update p) rs)
    = TrackerService.update_nth i (TrackerService.push_and_update p)
        (map without_route_id rs).
Proof.
  induction rs as [|r rs IH]; intros i; [now destruct i|].
  destruct i as [|i]; simpl; [reflexivity|]. f_equal. apply IH.
Qed.

Lemma append_leftover_erased (o : option (list route)) (p : pickup) :
  option_map (map without_route_id) (TrackerService.append_leftover o p)
  = TrackerService.append_leftover (option_map (map without_route_id) o) p.
Proof.
  destruct o as [[|first rest]|]; try reflexivity.
  cbn [option_map map TrackerService.append_leftover].
  rewrite update_nth_erased.
  cbn [RouteOptimization.total_time without_route_id map].
  now rewrite least_time_index_erased.
Qed.

Lemma fold_append_leftover_erased (leftovers : list pickup) :
  forall o : option (list route),
    option_map (map without_route_id)
      (fold_left TrackerService.append_leftover leftovers o)
    = fold_left TrackerService.append_leftover leftovers
        (option_map (map without_route_id) o).
Proof.
  induction leftovers as [|p l IH]; intros o; cbn [fold_left]; [reflexivity|].
  rewrite IH. now rewrite append_leftover_erased.
Qed.

(** Two runs of [optimizeRoutes] differ in the route identifiers only. *)
Lemma optimizeRoutes_clock (clock1 clock2 : nat -> string) (pickups : list pickup)
    (drivers : list string) :
  option_map (map without_route_id)
    (TrackerService.optimizeRoutes clock1 pickups drivers)
  = option_map (map without_route_id)
      (TrackerService.optimizeRoutes clock2 pickups drivers).
Proof.
  unfold TrackerService.optimizeRoutes.
  destruct (@assign_drivers_clock clock1 clock2 drivers 0 0 [] [] pickups eq_refl)
    as [Hroutes Hleft].
  destruct (TrackerService.assign_drivers clock1 0 drivers [] pickups) as [routes1 left1].
  destruct (TrackerService.assign_drivers clock2 0 drivers [] pickups) as [routes2 left2].
  cbn [fst snd] in Hroutes, Hleft. subst left2.
  rewrite !fold_append_leftover_erased. cbn [option_map]. now rewrite Hroutes.
Qed.

Lemma calculateTotals_erased (rs : list route) :
  TrackerService.calculateTotals (map without_route_id rs)
  = TrackerService.calculateTotals rs.
Proof.
  unfold TrackerService.calculateTotals.
  generalize ({| Totals.volume := lit 0 0; Totals.meals := lit 0 0;
                 Totals.co2 := lit 0 0; Totals.cost := lit 0 0 |} : Totals.t num).
  induction rs as [|r rs IH]; intros t; [reflexivity|].
  cbn [map fold_left]. apply IH.
Qed.

(** The result of [optimizePickups] as a function of the routes with
    their identifiers blanked. *)
Lemma optimizePickups_erased (host : Host num)
    (pickup_data : list (PickupOperation.t num))
    (external_data : list (ExternalFactor.t num)) (clock : nat -> string)
    (input : PickupOptimizationInput.t num) :
  option_map without_route_ids
    (TrackerService.optimizePickups host pickup_data external_data clock input)
  = option_map
      (fun erased =>
         let totals := TrackerService.calculateTotals erased in
         {| TrackerResult.optimized_routes := erased;
            TrackerResult.total_volume_rescued := Totals.volume totals;
            TrackerResult.total_meals_equivalent := Totals.meals totals;
            TrackerResult.total_co2_savings := Totals.co2 totals;
            TrackerResult.total_transport_cost := Totals.cost totals;
            TrackerResult.efficiency_metrics :=
              TrackerService.calculateEfficiencyMetrics totals |})
      (option_map (map without_route_id)
         (TrackerService.optimizeRoutes clock
            (TrackerService.generatePickupSuggestions host external_data input
               (TrackerService.analyzeLocationPatterns host pickup_data
                  (PickupOptimizationInput.available_locations input)))
            (PickupOptimizationInput.available_drivers input))).
Proof.
  unfold TrackerService.optimizePickups.
  destruct (TrackerService.optimizeRoutes _ _ _) as [rs|]; [|reflexivity].
  cbn [option_map]. unfold without_route_ids.
  cbn [TrackerResult.optimized_routes TrackerResult.total_volume_rescued
       TrackerResult.total_meals_equivalent TrackerResult.total_co2_savings
       TrackerResult.total_transport_cost TrackerResult.efficiency_metrics].
  now rewrite calculateTotals_erased.
Qed.

Lemma comparison_random (impact_data : list (ImpactTracking.t num))
    (random1 random2 : nat -> num) (periods : list string) :
  forall k1 k2 : nat,
    map without_percentage_change
      (ImpactService.comparison_from impact_data random1 k1 periods)
    = map without_percentage_change
        (ImpactService.comparison_from impact_data random2 k2 periods).
Proof.
  induction periods as [|p ps IH]; intros k1 k2; [reflexivity|].
  cbn [ImpactService.comparison_from map]. f_equal. apply IH.
Qed.

(** The model a call of [getOrTrainModel] returns is the cached one or
    the trained one; a consistent cache stays so. *)
Lemma getOrTrainModel_consistent (host : Host num)
    (production_data : list (DailyProduction.t num))
    (external_data : list (ExternalFactor.t num))
    (cache cache' : ForecastModel.Cache) (menu_item : string)
    (model : TrainedModel.t num) :
  cache_consistent host production_data external_data cache ->
  ForecastModel.getOrTrainModel host production_data external_data cache menu_item
  = Some (model, cache') ->
  ForecastModel.trainModel host production_data external_data menu_item = Some model.
Proof.
  intros Hcons. unfold ForecastModel.getOrTrainModel.
  destruct (lookup (ForecastModel.cache_key menu_item) cache) as [m|] eqn:E.
  - intros [= <- <-]. now apply Hcons.
  - destruct (ForecastModel.trainModel _ _ _ _) as [m|]; [|discriminate].
    now intros [= <- <-].
Qed.

Lemma getOrTrainModel_hit_again (host : Host num)
    (production_data : list (DailyProduction.t num))
    (external_data : list (ExternalFactor.t num))
    (cache cache' : ForecastModel.Cache) (menu_item : string)
    (model : TrainedModel.t num) :
  ForecastModel.getOrTrainModel host production_data external_data cache menu_item
  = Some (model, cache') ->
  ForecastModel.getOrTrainModel host production_data external_data cache' menu_item
  = Some (model, cache').
Proof.
  unfold ForecastModel.getOrTrainModel.
  destruct (lookup (ForecastModel.cache_key menu_item) cache) as [m|] eqn:E.
  - intros [= <- <-]. now rewrite E.
  - destruct (ForecastModel.trainModel _ _ _ _) as [m|]; [|discriminate].
    intros [= <- <-]. now rewrite lookup_map_set_same.
Qed.

(** A second call of [ForecastModel.predict] finds the model in the
    cache and returns what the first call returned. *)
Lemma predict_again (host : Host num)
    (production_data : list (DailyProduction.t num))
    (external_data : list (ExternalFactor.t num))
    (cache cache' : ForecastModel.Cache) (input : ForecastInput.t num)
    (r : ForecastResult.t num) :
  ForecastModel.predict host production_data external_data cache input
  = Some (r, cache') ->
  ForecastModel.predict host production_data external_data cache' input
  = Some (r, cache').
Proof.
  unfold ForecastModel.predict.
  destruct (_ <? 5)%nat; [now intros [= <- <-]|].
  destruct (ForecastModel.getOrTrainModel host production_data external_data cache
              (ForecastInput.menu_item input)) as [[m c1]|] eqn:E1; [|discriminate].
  pose proof E1 as E2. apply getOrTrainModel_hit_again in E2.
  rewrite E2. intros [= <- <-]. rewrite E2. cbv beta iota. now rewrite E2.
Qed.

(** On a consistent cache the forecast is the one an empty cache gives. *)
Lemma predict_cache_independent (host : Host num)
    (production_data : list (DailyProduction.t num))
    (external_data : list (ExternalFactor.t num))
    (cache cache' : ForecastModel.Cache) (input : ForecastInput.t num)
    (r : ForecastResult.t num) :
  cache_consistent host production_data external_data cache ->
  ForecastModel.predict host production_data external_data cache input
  = Some (r, cache') ->
  option_map fst (ForecastModel.predict host production_data external_data [] input)
  = Some r.
Proof.
  intros Hcons. unfold ForecastModel.predict.
  destruct (_ <? 5)%nat; [now intros [= <- <-]|].
  destruct (ForecastModel.getOrTrainModel host production_data external_data cache
              (ForecastInput.menu_item input)) as [[m c1]|] eqn:E1; [|discriminate].
  pose proof E1 as Htrain. eapply getOrTrainModel_consistent in Htrain; [|exact Hcons].
  pose proof E1 as E2. apply getOrTrainModel_hit_again in E2.
  rewrite E2. intros [= <- <-].
  unfold ForecastModel.getOrTrainModel at 1. cbn [lookup]. rewrite Htrain.
  unfold ForecastModel.getOrTrainModel at 1.
  rewrite lookup_map_set_same. reflexivity.
Qed.
End ClockLemmas.

(** ** The clock of the dashboard aggregator *)

Section DashboardClockLemmas.
Context {num : Type} `{JSNumber num}.
Variable host : Host num.
Variable production_data : list (DailyProduction.t num).
Variable pickup_data : list (PickupOperation.t num).
Variable impact_data : list (ImpactTracking.t num).

(** The performance metrics read the month of two readings and nothing
    else of the clock. *)
Lemma getPerformanceMetrics_months (clock1 clock2 : nat -> Now.t num) :
  month_of (clock1 0%nat) = month_of (clock2 0%nat) ->
  month_of (clock1 1%nat) = month_of (clock2 1%nat) ->
  DashboardClock.getPerformanceMetrics production_data pickup_data impact_data clock1
  = DashboardClock.getPerformanceMetrics production_data pickup_data impact_data clock2.
Proof.
  unfold month_of. intros [= Hy0 Hm0] [= Hy1 Hm1].
  unfold DashboardClock.getPerformanceMetrics, DashboardClock.getCurrentMonthData,
    DashboardClock.getPreviousMonthData.
  now rewrite Hy0, Hm0, Hy1, Hm1.
Qed.

Lemma upcoming_from_dates (clock1 clock2 : nat -> Now.t num)
    (items : list (ProblematicItem.t num)) :
  forall index : nat,
    map without_scheduled_date (DashboardClock.upcoming_from clock1 index items)
    = map without_scheduled_date (DashboardClock.upcoming_from clock2 index items).
Proof.
  induction items as [|item rest IH]; intros index; [reflexivity|].
  cbn [DashboardClock.upcoming_from map]. f_equal. apply IH.
Qed.

Lemma upcoming_from_length (clock : nat -> Now.t num)
    (items : list (ProblematicItem.t num)) :
  forall index : nat,
    List.length (DashboardClock.upcoming_from clock index items) = List.length items.
Proof.
  induction items as [|item rest IH]; intros index; [reflexivity|].
  cbn [DashboardClock.upcoming_from List.length]. now rewrite IH.
Qed.

(** The top-items analysis reads the clock for the [scheduled_date] of
    its upcoming items only. *)
Lemma getTopItemsAnalysis_dates (clock1 clock2 : nat -> Now.t num) :
  without_scheduled_dates (DashboardClock.getTopItemsAnalysis production_data clock1)
  = without_scheduled_dates (DashboardClock.getTopItemsAnalysis production_data clock2).
Proof.
  unfold without_scheduled_dates, DashboardClock.getTopItemsAnalysis. cbv zeta.
  cbn [TopItemsAnalysis.most_problematic_items TopItemsAnalysis.best_performing_items
       TopItemsAnalysis.upcoming_high_risk].
  f_equal. apply upcoming_from_dates.
Qed.

(** The system status reads the clock for the months of the performance
    metrics, the [scheduled_date] of the upcoming items, [data_freshness]
    and [last_updated]. *)
Lemma getSystemStatus_clock_fields {Overview : Type} (overview : Overview)
    (clock1 clock2 : nat -> Now.t num) :
  month_of (clock1 0%nat) = month_of (clock2 0%nat) ->
  month_of (clock1 1%nat) = month_of (clock2 1%nat) ->
  without_clock_fields
    (DashboardClock.getSystemStatus host production_data pickup_data impact_data
       overview clock1)
  = without_clock_fields
      (DashboardClock.getSystemStatus host production_data pickup_data impact_data
         overview clock2).
Proof.
  intros H0 H1. unfold without_clock_fields, DashboardClock.getSystemStatus. cbv zeta.
  cbn [SystemStatus.overview SystemStatus.performance SystemStatus.top_items
       SystemStatus.system_health SystemHealth.api_status].
  rewrite (getPerformanceMetrics_months clock1 clock2 H0 H1).
  f_equal. f_equal. apply getTopItemsAnalysis_dates.
Qed.
End DashboardClockLemmas.

(** C4, as stated, fails for the route optimiser: two calls of
    [optimizePickups] on the same input and records, one millisecond apart,
    return different results.  So do two calls of the aggregator's
    [getSystemStatus] on different days. *)
Lemma C4_counterexample :
  TrackerService.optimizePickups (num := float) utc_host [] []
    (fun _ => "1717372800000") (pickup_request ["Cafeteria"] ["Ann"])
  <> TrackerService.optimizePickups (num := float) utc_host [] []
       (fun _ => "1717372800001") (pickup_request ["Cafeteria"] ["Ann"])
  /\ DashboardClock.getSystemStatus (num := float) utc_host soup_history [] [] tt
       (fun _ => june_2024 3)
     <> DashboardClock.getSystemStatus (num := float) utc_host soup_history [] [] tt
          (fun _ => june_2024 4).
Proof.
  split.
  - intros Heq.
    apply (f_equal (option_map (fun r => map (@RouteOptimization.route_id float)
                                             (TrackerResult.optimized_routes r)))) in Heq.
    vm_compute in Heq. discriminate.
  - intros Heq.
    apply (f_equal (fun s => SystemHealth.last_updated (SystemStatus.system_health s)))
      in Heq.
    vm_compute in Heq. discriminate.
Qed.

(** C4 (amended): two calls on the same input and records agree except
    where the code reads the random number generator or the clock.
    [optimizePickups] reads the clock for the [route_id] of each route and
    [getHistoricalComparison] draws a random [percentage_change]: two calls
    agree on everything else.  [ForecastModel.predict], which keeps a model
    cache, returns on a second call what the first returned, and on a cache
    consistent with the records what it returns on an empty one.  The
    dashboard aggregator reads the clock: [getPerformanceMetrics] for the
    current and the previous month, so that calls whose readings fall in
    the same month agree; [getTopItemsAnalysis] for the [scheduled_date] of
    its upcoming items; [getSystemStatus], beside these, for
    [data_freshness] and [last_updated]. *)
Theorem C4_same_output_up_to_clock_and_random {num : Type} `{JSNumber num}
    (host : Host num) (production_data : list (DailyProduction.t num))
    (pickup_data : list (PickupOperation.t num))
    (external_data : list (ExternalFactor.t num))
    (impact_data : list (ImpactTracking.t num)) :
  (forall (clock1 clock2 : nat -> string) (input : PickupOptimizationInput.t num),
      option_map without_route_ids
        (TrackerService.optimizePickups host pickup_data external_data clock1 input)
      = option_map without_route_ids
          (TrackerService.optimizePickups host pickup_data external_data clock2 input))
  /\ (forall (random1 random2 : nat -> num) (periods : list string),
         map without_percentage_change
           (ImpactService.getHistoricalComparison impact_data random1 periods)
         = map without_percentage_change
             (ImpactService.getHistoricalComparison impact_data random2 periods))
  /\ (forall (cache cache' : ForecastModel.Cache) (input : ForecastInput.t num)
             (r : ForecastResult.t num),
         ForecastModel.predict host production_data external_data cache input
         = Some (r, cache') ->
         ForecastModel.predict host production_data external_data cache' input
         = Some (r, cache')
         /\ (cache_consistent host production_data external_data cache ->
             option_map fst
               (ForecastModel.predict host production_data external_data [] input)
             = Some r))
  /\ (forall clock1 clock2 : nat -> Now.t num,
         month_of (clock1 0%nat) = month_of (clock2 0%nat) ->
         month_of (clock1 1%nat) = month_of (clock2 1%nat) ->
         DashboardClock.getPerformanceMetrics production_data pickup_data impact_data
           clock1
         = DashboardClock.getPerformanceMetrics production_data pickup_data impact_data
             clock2)
  /\ (forall clock1 clock2 : nat -> Now.t num,
         without_scheduled_dates
           (DashboardClock.getTopItemsAnalysis production_data clock1)
         = without_scheduled_dates
             (DashboardClock.getTopItemsAnalysis production_data clock2))
  /\ (forall (Overview : Type) (overview : Overview)
             (clock1 clock2 : nat -> Now.t num),
         month_of (clock1 0%nat) = month_of (clock2 0%nat) ->
         month_of (clock1 1%nat) = month_of (clock2 1%nat) ->
         without_clock_fields
           (DashboardClock.getSystemStatus host production_data pickup_data
              impact_data overview clock1)
         = without_clock_fields
             (DashboardClock.getSystemStatus host production_data pickup_data
                impact_data overview clock2)).
Proof.
  split; [|split; [|split; [|split; [|split]]]].
  - intros clock1 clock2 input.
    rewrite !optimizePickups_erased. f_equal. apply optimizeRoutes_clock.
  - intros random1 random2 periods. apply comparison_random.
  - intros cache cache' input r Hfirst. split.
    + eapply predict_again. exact Hfirst.
    + intros Hcons. eapply predict_cache_independent; [exact Hcons|exact Hfirst].
  - intros clock1 clock2. apply getPerformanceMetrics_months.
  - intros clock1 clock2. apply getTopItemsAnalysis_dates.
  - intros Overview overview clock1 clock2. apply getSystemStatus_clock_fields.
Qed.

Lemma C4_same_output_up_to_clock_and_random_witness :
  (exists r cache',
      ForecastModel.predict (num := float) utc_host stew_history stew_external []
        stew_request = Some (r, cache')
      /\ ForecastModel.predict (num := float) utc_host stew_history stew_external cache'
           stew_request = Some (r, cache'))
  /\ without_clock_fields
       (DashboardClock.getSystemStatus (num := float) utc_host stew_history [] [] tt
          (fun _ => june_2024 3))
     = without_clock_fields
         (DashboardClock.getSystemStatus (num := float) utc_host stew_history [] [] tt
            (fun _ => june_2024 17)).
Proof.
  pose proof (C4_same_output_up_to_clock_and_random (num := float)
                utc_host stew_history [] stew_external [])
    as (_ & _ & Hcache & _ & _ & Hstatus).
  split.
  - destruct (ForecastModel.predict (num := float) utc_host stew_history stew_external []
                stew_request) as [[r cache']|] eqn:Hfirst;
      [|vm_compute in Hfirst; discriminate].
    exists r, cache'. split; [reflexivity|].
    exact (proj1 (Hcache [] cache' stew_request r Hfirst)).
  - apply Hstatus; reflexivity.
Defined.
(* ================================================================== *)
(** * Correlation *)
(* ================================================================== *)

(** ** Multiplication of doubles commutes *)

Lemma SFmul_comm (prec emax : Z) (x y : spec_float) :
  SFmul prec emax x y = SFmul prec emax y x.
Proof.
  destruct x as [sx|sx| |sx mx ex], y as [sy|sy| |sy my ey]; simpl;
    rewrite ?(xorb_comm sx sy); try reflexivity.
  now rewrite Pos.mul_comm, Z.add_comm.
Qed.

Lemma float_mul_comm (x y : float) : PrimFloat.mul x y = PrimFloat.mul y x.
Proof.
  apply Prim2SF_inj. rewrite !mul_spec. apply SFmul_comm.
Qed.

Section CorrelationSymmetry.
Context {num : Type} `{JSNumber num}.
Hypothesis nmul_comm : forall a b : num, (a * b)%js = (b * a)%js.

Lemma sum_products_comm (x : list num) :
  forall (y : list num) (acc : num),
    List.length x = List.length y ->
    Statistics.sum_products acc x y = Statistics.sum_products acc y x.
Proof.
  induction x as [|xi x IH]; intros [|yi y] acc Hlen; try discriminate; [reflexivity|].
  simpl. rewrite (nmul_comm xi yi). apply IH. now injection Hlen.
Qed.

Lemma correlation_symmetric (x y : list num) :
  List.length x = List.length y ->
  Statistics.correlation x y = Statistics.correlation y x.
Proof.
  intros Hlen.
  unfold Statistics.correlation, Statistics.correlation_numerator,
    Statistics.correlation_denominator.
  rewrite <- Hlen. rewrite (sum_products_comm x y _ Hlen).
  rewrite (nmul_comm (sum y) (sum x)).
  rewrite (nmul_comm (_ - sum y * sum y)%js (_ - sum x * sum x)%js).
  reflexivity.
Qed.
End CorrelationSymmetry.

(** ** The exact correlation lies in [-1, 1] *)

Section ExactCorrelation.
Local Open Scope R_scope.

Lemma fold_sum_total {A : Type} (f : A -> R) (l : list A) :
  forall a : R, fold_left (fun s d => nadd s (f d)) l a = a + total (map f l).
Proof.
  induction l as [|v l IH]; intros a; simpl; [lra|].
  rewrite IH. unfold nadd; simpl. lra.
Qed.

Lemma sum_total (x : list R) : sum x = total x.
Proof.
  unfold sum. rewrite (fold_sum_total (fun v => v)). rewrite map_id. simpl. lra.
Qed.

Lemma sum_squares_total (x : list R) :
  Statistics.sum_squares x = total (map (fun v => v * v) x).
Proof.
  unfold Statistics.sum_squares.
  rewrite (fold_sum_total (fun v => v * v)). simpl. lra.
Qed.

Lemma sum_products_total (x : list R) :
  forall (y : list R) (acc : R),
    List.length x = List.length y ->
    Statistics.sum_products acc x y
    = acc + total (map (fun p => fst p * snd p) (combine x y)).
Proof.
  induction x as [|xi x IH]; intros [|yi y] acc Hlen; try discriminate; simpl; [lra|].
  rewrite IH by (now injection Hlen). unfold nadd, nmul; simpl. lra.
Qed.

Lemma total_fst_combine (x : list R) :
  forall y : list R, List.length x = List.length y -> total (map fst (combine x y)) = total x.
Proof.
  induction x as [|xi x IH]; intros [|yi y] Hlen; try discriminate; simpl; [reflexivity|].
  rewrite IH by (now injection Hlen). reflexivity.
Qed.

Lemma total_snd_combine (x : list R) :
  forall y : list R, List.length x = List.length y -> total (map snd (combine x y)) = total y.
Proof.
  induction x as [|xi x IH]; intros [|yi y] Hlen; try discriminate; simpl; [reflexivity|].
  rewrite IH by (now injection Hlen). reflexivity.
Qed.

Lemma total_sq_fst_combine (x : list R) :
  forall y : list R, List.length x = List.length y ->
    total (map (fun p => fst p * fst p) (combine x y)) = total (map (fun v => v * v) x).
Proof.
  induction x as [|xi x IH]; intros [|yi y] Hlen; try discriminate; simpl; [reflexivity|].
  rewrite IH by (now injection Hlen). reflexivity.
Qed.

Lemma total_sq_snd_combine (x : list R) :
  forall y : list R, List.length x = List.length y ->
    total (map (fun p => snd p * snd p) (combine x y)) = total (map (fun v => v * v) y).
Proof.
  induction x as [|xi x IH]; intros [|yi y] Hlen; try discriminate; simpl; [reflexivity|].
  rewrite IH by (now injection Hlen). reflexivity.
Qed.

(** The quadratic form [sum ((n x - p) t + (n y - q))^2], expanded. *)
Lemma quadratic_expansion (n p q t : R) (l : list (R * R)) :
  total (map (fun v => ((n * fst v - p) * t + (n * snd v - q))
                       * ((n * fst v - p) * t + (n * snd v - q))) l)
  = t * t * (n * n * Sxx l - 2 * n * p * Sx l + INR (List.length l) * p * p)
    + 2 * t * (n * n * Sxy l - n * q * Sx l - n * p * Sy l + INR (List.length l) * p * q)
    + (n * n * Syy l - 2 * n * q * Sy l + INR (List.length l) * q * q).
Proof.
  unfold Sx, Sy, Sxx, Syy, Sxy.
  induction l as [|[a b] l IH].
  - simpl. ring.
  - cbn [map total fst snd List.length]. rewrite IH. rewrite S_INR. ring.
Qed.

Lemma total_squares_nonneg {A : Type} (g : A -> R) (l : list A) :
  0 <= total (map (fun v => g v * g v) l).
Proof.
  induction l as [|v l IH]; simpl; [lra|]. pose proof (Rle_0_sqr (g v)) as Hsq.
  unfold Rsqr in Hsq. lra.
Qed.

(** Cauchy-Schwarz for the centred sums. *)
Lemma covariance_bound (l : list (R * R)) :
  let n := INR (List.length l) in
  (n * Sxy l - Sx l * Sy l) * (n * Sxy l - Sx l * Sy l)
  <= (n * Sxx l - Sx l * Sx l) * (n * Syy l - Sy l * Sy l).
Proof.
  cbv zeta. set (n := INR (List.length l)).
  set (A := n * Sxx l - Sx l * Sx l).
  set (B := n * Syy l - Sy l * Sy l).
  set (C := n * Sxy l - Sx l * Sy l).
  assert (Hn : 0 <= n) by apply pos_INR.
  assert (HQ : forall t, 0 <= n * (A * t * t + 2 * C * t + B)).
  { intros t.
    pose proof (total_squares_nonneg
                  (fun v : R * R => (n * fst v - Sx l) * t + (n * snd v - Sy l)) l) as Hq.
    cbv beta in Hq. rewrite (quadratic_expansion n (Sx l) (Sy l) t l) in Hq.
    fold n in Hq. unfold A, B, C.
    replace (n * ((n * Sxx l - Sx l * Sx l) * t * t + 2 * (n * Sxy l - Sx l * Sy l) * t
                  + (n * Syy l - Sy l * Sy l)))
      with (t * t * (n * n * Sxx l - 2 * n * Sx l * Sx l + n * Sx l * Sx l)
            + 2 * t * (n * n * Sxy l - n * Sy l * Sx l - n * Sx l * Sy l + n * Sx l * Sy l)
            + (n * n * Syy l - 2 * n * Sy l * Sy l + n * Sy l * Sy l)) by ring.
    exact Hq. }
  destruct (Req_dec n 0) as [Hz|Hnz].
  - assert (Hl : l = []).
    { unfold n in Hz. apply (INR_eq _ 0) in Hz. now apply length_zero_iff_nil. }
    unfold C, A, B, n. rewrite Hl. unfold Sx, Sy, Sxx, Syy, Sxy. simpl. lra.
  - assert (Hpos : 0 < n) by lra.
    assert (HP : forall t, 0 <= A * t * t + 2 * C * t + B).
    { intros t. specialize (HQ t). nra. }
    pose proof (HP 0) as HB.
    destruct (Rle_lt_dec A 0) as [HA|HA].
    + (* A <= 0: the form is affine or concave, so C = 0 *)
      destruct (Req_dec C 0) as [HC|HC].
      * rewrite HC.
        assert (HA0 : 0 <= A).
        { destruct (Rlt_le_dec A 0) as [Hneg|]; [|assumption].
          exfalso.
          pose proof (HP (1 + B / (- A))) as H1.
          assert (0 <= B / - A) by (apply Rle_mult_inv_pos; lra).
          assert (Heq : A * (1 + B / - A) * (1 + B / - A)
                        = A + 2 * (A * (B / - A)) + A * (B / - A) * (B / - A)) by ring.
          assert (Hab : A * (B / - A) = - B) by (field; lra).
          rewrite HC in H1. rewrite Heq, Hab in H1.
          assert (Hsq : - B * (B / - A) <= 0) by nra.
          nra. }
        assert (A = 0) by lra. nra.
      * exfalso.
        assert (HA0 : A = 0 \/ A < 0) by lra.
        destruct HA0 as [HA0|HAn].
        -- pose proof (HP (- (B + 1) / (2 * C))) as H1.
           rewrite HA0 in H1.
           assert (Heq : 2 * C * (- (B + 1) / (2 * C)) = - (B + 1)) by (field; lra).
           lra.
        -- pose proof (Rabs_pos C) as Hc.
           pose proof (HP ((B + 1 + 2 * Rabs C) / - A + 1)) as H1.
           set (s := (B + 1 + 2 * Rabs C) / - A + 1) in *.
           assert (Hs1 : 1 <= s).
           { unfold s.
             assert (0 <= (B + 1 + 2 * Rabs C) / - A) by (apply Rle_mult_inv_pos; lra).
             lra. }
           assert (Hs2 : - A * s = B + 1 + 2 * Rabs C - A) by (unfold s; field; lra).
           assert (HCs : 2 * C * s <= 2 * Rabs C * s).
           { pose proof (Rle_abs C).
             apply Rmult_le_compat_r; lra. }
           assert (Has : A * s * s = - (B + 1 + 2 * Rabs C - A) * s).
           { rewrite <- Hs2. ring. }
           assert (Hm : (B + 1 - A) * 1 <= (B + 1 - A) * s)
             by (apply Rmult_le_compat_l; lra).
           rewrite Has in H1.
           assert (Hexp : - (B + 1 + 2 * Rabs C - A) * s
                          = - ((B + 1 - A) * s) - 2 * Rabs C * s) by ring.
           lra.
    + (* A > 0: evaluate at t = - C / A *)
      pose proof (HP (- C / A)) as H1.
      assert (Heq : A * (- C / A) * (- C / A) + 2 * C * (- C / A) + B
                    = B - C * C / A) by (field; lra).
      rewrite Heq in H1.
      assert (C * C / A <= B) by lra.
      assert (C * C = (C * C / A) * A) by (field; lra).
      nra.
Qed.

Lemma correlation_exact_sums (x y : list R) :
  List.length x = List.length y ->
  let l := combine x y in
  let n := INR (List.length l) in
  Statistics.correlation_numerator x y = n * Sxy l - Sx l * Sy l
  /\ Statistics.correlation_denominator x y
     = sqrt ((n * Sxx l - Sx l * Sx l) * (n * Syy l - Sy l * Sy l)).
Proof.
  intros Hlen l n.
  assert (Hn : num_of_nat (List.length x) = n).
  { unfold n, l, num_of_nat. rewrite length_combine, <- Hlen, Nat.min_id.
    simpl. now rewrite INR_IZR_INZ. }
  unfold Statistics.correlation_numerator, Statistics.correlation_denominator.
  cbv zeta. rewrite Hn, !sum_total, !sum_squares_total, (sum_products_total x y _ Hlen).
  unfold Sx, Sy, Sxx, Syy, Sxy, l.
  rewrite (total_fst_combine x y Hlen), (total_snd_combine x y Hlen),
    (total_sq_fst_combine x y Hlen), (total_sq_snd_combine x y Hlen).
  split.
  - unfold nmul, nsub, nadd; simpl. ring.
  - reflexivity.
Qed.

Lemma correlation_exact_bound (x y : list R) :
  List.length x = List.length y ->
  Statistics.correlation_denominator x y <> 0 ->
  -1 <= Statistics.correlation x y <= 1.
Proof.
  intros Hlen Hden.
  destruct (correlation_exact_sums x y Hlen) as [Hnum Hd].
  cbv zeta in Hnum, Hd.
  pose proof (covariance_bound (combine x y)) as Hcs. cbv zeta in Hcs.
  unfold Statistics.correlation. cbv zeta.
  change (neqb (Statistics.correlation_denominator x y) (num_of_Z 0))
    with (Reqb (Statistics.correlation_denominator x y) 0).
  unfold Reqb. destruct (Req_dec_T (Statistics.correlation_denominator x y) 0) as [E|_];
    [contradiction|].
  change (ndiv (Statistics.correlation_numerator x y)
               (Statistics.correlation_denominator x y))
    with (Statistics.correlation_numerator x y / Statistics.correlation_denominator x y).
  rewrite Hnum. rewrite Hd in Hden |- *.
  set (l := combine x y) in *. set (n := INR (List.length l)) in *.
  set (P := (n * Sxx l - Sx l * Sx l) * (n * Syy l - Sy l * Sy l)) in *.
  set (C := n * Sxy l - Sx l * Sy l) in *.
  assert (HP : 0 < P).
  { destruct (Rlt_le_dec 0 P) as [|Hle]; [assumption|].
    exfalso. apply Hden. now apply sqrt_neg_0. }
  pose proof (sqrt_lt_R0 P HP) as Hpos.
  pose proof (sqrt_sqrt P (Rlt_le _ _ HP)) as Hsq.
  assert (Habs : - sqrt P <= C <= sqrt P) by nra.
  split.
  - apply (Rmult_le_reg_r (sqrt P)); [assumption|].
    unfold Rdiv. rewrite Rmult_assoc, Rinv_l by lra. lra.
  - apply (Rmult_le_reg_r (sqrt P)); [assumption|].
    unfold Rdiv. rewrite Rmult_assoc, Rinv_l by lra. lra.
Qed.
End ExactCorrelation.

Lemma correlation_zero_denominator {num : Type} `{JSNumber num} (x y : list num) :
  (Statistics.correlation_denominator x y =? num_of_Z 0)%js = true ->
  Statistics.correlation x y = num_of_Z 0.
Proof.
  intros Hz. unfold Statistics.correlation. cbv zeta. now rewrite Hz.
Qed.

(** C7, counterexample: for the samples [0.1, 0.5] and [0.5, 2.5], of
    equal length and with a non-zero denominator, the doubles of
    [Statistics.correlation] give a value above 1. *)
Lemma C7_counterexample :
  let x : list float := [lit 1 1; lit 5 1] in
  let y : list float := [lit 5 1; lit 25 1] in
  List.length x = List.length y
  /\ (Statistics.correlation_denominator x y =? num_of_Z 0)%js = false
  /\ (lit 1 0 <? Statistics.correlation x y)%js = true.
Proof.
  vm_compute. repeat split.
Qed.

(** C7, amended: [Statistics.correlation] returns the same double for
    [(x, y)] and [(y, x)] whenever the two samples have the same length;
    it returns 0 whenever its denominator is 0; and, computed in exact
    real arithmetic on samples of the same length with a non-zero
    denominator, its value lies between -1 and 1. *)
Theorem C7_correlation_symmetric_and_bounded :
  (forall x y : list float,
      List.length x = List.length y ->
      Statistics.correlation x y = Statistics.correlation y x)
  /\ (forall x y : list float,
         (Statistics.correlation_denominator x y =? num_of_Z 0)%js = true ->
         Statistics.correlation x y = num_of_Z 0)
  /\ (forall x y : list R,
         List.length x = List.length y ->
         Statistics.correlation_denominator x y <> 0%R ->
         (-1 <= Statistics.correlation x y <= 1)%R).
Proof.
  split; [|split].
  - intros x y Hlen. apply correlation_symmetric; [exact float_mul_comm|exact Hlen].
  - intros x y. apply correlation_zero_denominator.
  - exact correlation_exact_bound.
Qed.

Lemma C7_correlation_symmetric_and_bounded_witness :
  (let x : list float := [lit 1 1; lit 5 1] in
   let y : list float := [lit 5 1; lit 25 1] in
   Statistics.correlation x y = Statistics.correlation y x)
  /\ (let x : list float := [lit 3 0; lit 3 0] in
      let y : list float := [lit 1 0; lit 2 0] in
      Statistics.correlation x y = num_of_Z 0)
  /\ (let x : list R := [1; 2]%R in
      let y : list R := [1; 3]%R in
      (-1 <= Statistics.correlation x y <= 1)%R).
Proof.
  destruct C7_correlation_symmetric_and_bounded as [Hsym [Hzero Hbound]].
  split; [|split]; cbv zeta.
  - apply Hsym. reflexivity.
  - apply Hzero. vm_compute. reflexivity.
  - apply Hbound; [reflexivity|].
    unfold Statistics.correlation_denominator, sum, Statistics.sum_squares, num_of_nat.
    cbn [fold_left List.length]. cbv zeta.
    change (Math_sqrt (num := R)) with sqrt.
    intros Hz.
    assert (Hpos : (0 < sqrt 4)%R) by (apply sqrt_lt_R0; lra).
    unfold nmul, nsub, nadd, num_of_Z in Hz; simpl in Hz.
    match type of Hz with sqrt ?t = _ => replace t with 4%R in Hz by lra end.
    lra.
Defined.
(* ================================================================== *)
(** * The menu planner *)
(* ================================================================== *)

Section PlannerSelection.
Context {num : Type} `{JSNumber num}.
Variable host : Host num.
Variable production_data : list (DailyProduction.t num).
Variable input : PlannerInput.t num.

Lemma score_all_items (items : list (MenuPlanning.t num)) :
  forall (oid : nat) (it : ScoredItem.t num),
    In it (PlannerService.score_all host production_data input oid items) ->
    exists k item, In item items
                   /\ it = PlannerService.scoreMenuItem host production_data input k item.
Proof.
  induction items as [|item items IH]; intros oid it Hin; [contradiction|].
  destruct Hin as [<-|Hin].
  - exists oid, item. split; [now left|reflexivity].
  - destruct (IH _ _ Hin) as (k & item' & Hin' & ->).
    exists k, item'. split; [now right|reflexivity].
Qed.

Lemma greedy_step_selected (target : num) (st : PlannerService.Selection)
    (it : ScoredItem.t num) :
  PlannerService.selected (PlannerService.greedy_step input target st it)
  = PlannerService.selected st
  \/ PlannerService.selected (PlannerService.greedy_step input target st it)
     = PlannerService.selected st ++ [it].
Proof.
  unfold PlannerService.greedy_step. cbv zeta.
  match goal with |- context [if ?c then _ else _] => destruct c end;
    [right|left]; reflexivity.
Qed.

Lemma greedy_fold_incl (target : num) (l : list (ScoredItem.t num)) :
  forall (st : PlannerService.Selection) (pool : list (ScoredItem.t num)),
    incl l pool ->
    incl (PlannerService.selected st) pool ->
    incl (PlannerService.selected
            (fold_left (PlannerService.greedy_step input target) l st)) pool.
Proof.
  induction l as [|it l IH]; intros st pool Hl Hst; [exact Hst|].
  cbn [fold_left]. apply IH.
  - intros a Ha. apply Hl. now right.
  - destruct (greedy_step_selected target st it) as [-> | ->]; [exact Hst|].
    apply incl_app; [exact Hst|]. intros a [<-|[]]. apply Hl. now left.
Qed.

Lemma backfill_fold_incl (sorted_items : list (ScoredItem.t num))
    (counts : list (string * num)) (cats : list string) :
  forall sel : list (ScoredItem.t num),
    incl sel sorted_items ->
    incl (fold_left (PlannerService.backfill_step sorted_items counts) cats sel)
         sorted_items.
Proof.
  induction cats as [|c cats IH]; intros sel Hsel; [exact Hsel|].
  cbn [fold_left]. apply IH. unfold PlannerService.backfill_step.
  destruct (PlannerService.has_key c counts); [exact Hsel|].
  destruct (find _ sorted_items) as [fallback_item|] eqn:Hfind; [|exact Hsel].
  apply incl_app; [exact Hsel|]. intros a [<-|[]].
  apply find_some in Hfind. exact (proj1 Hfind).
Qed.

Lemma selectOptimalCombination_incl (scored_items : list (ScoredItem.t num)) :
  incl (PlannerService.selectOptimalCombination scored_items input) scored_items.
Proof.
  unfold PlannerService.selectOptimalCombination. cbv zeta.
  set (sorted_items := js_sort PlannerService.by_score_desc scored_items).
  assert (Hperm : incl sorted_items scored_items).
  { intros a Ha. eapply Permutation_in; [apply js_sort_perm|exact Ha]. }
  intros a Ha. apply Hperm. revert a Ha.
  apply backfill_fold_incl. unfold PlannerService.greedy_pass. cbv zeta.
  apply greedy_fold_incl; [apply incl_refl|intros a []].
Qed.

Lemma available_category (menu_data : list (MenuPlanning.t num))
    (category : string) (avoid : list string) (item : MenuPlanning.t num) :
  In item (PlannerService.getAvailableItems menu_data [category] avoid) ->
  In item menu_data /\ MenuPlanning.menu_category item = category.
Proof.
  unfold PlannerService.getAvailableItems. intros Hin.
  apply filter_In in Hin. destruct Hin as [Hin Hf]. split; [exact Hin|].
  apply andb_prop in Hf. destruct Hf as [Hc _].
  unfold PlannerService.mem_string in Hc. cbn [existsb] in Hc.
  rewrite orb_false_r in Hc. now apply String.eqb_eq in Hc.
Qed.
End PlannerSelection.

Lemma optimizeMenu_single_category {num : Type} `{JSNumber num} (host : Host num)
    (production_data : list (DailyProduction.t num))
    (menu_data : list (MenuPlanning.t num))
    (external_data : list (ExternalFactor.t num))
    (input : PlannerInput.t num) (category : string) :
  PlannerInput.target_categories input = [category] ->
  Forall (fun r => MenuRecommendation.category r = category)
         (PlannerResult.recommended_menu
            (PlannerService.optimizeMenu host production_data menu_data external_data input)).
Proof.
  intros Hcat. unfold PlannerService.optimizeMenu. cbv zeta.
  cbn [PlannerResult.recommended_menu]. rewrite Hcat.
  apply Forall_forall. intros r Hr. apply in_map_iff in Hr.
  destruct Hr as (it & <- & Hit).
  apply selectOptimalCombination_incl in Hit.
  apply score_all_items in Hit. destruct Hit as (k & item & Hitem & ->).
  apply available_category in Hitem. exact (proj2 Hitem).
Qed.

(** ** The budget, in exact arithmetic *)

Section PlannerBudget.
Local Open Scope R_scope.

Lemma Rltb_true (a b : R) : nltb a b = true <-> a < b.
Proof.
  change (nltb a b) with (Rltb a b). unfold Rltb.
  destruct (Rlt_dec a b); split; intros; try assumption; try reflexivity;
    [discriminate|contradiction].
Qed.

Lemma Rleb_true (a b : R) : nleb a b = true <-> a <= b.
Proof.
  change (nleb a b) with (Rleb a b). unfold Rleb.
  destruct (Rle_dec a b); split; intros; try assumption; try reflexivity;
    [discriminate|contradiction].
Qed.

Lemma R_isNaN (a : R) : isNaN a = false.
Proof.
  unfold isNaN. change (neqb a a) with (Reqb a a). unfold Reqb.
  now destruct (Req_dec_T a a).
Qed.

Lemma R_truthy (a : R) : a <> 0 -> truthy a = true.
Proof.
  intros Ha. unfold truthy. rewrite R_isNaN.
  change (neqb a (num_of_Z 0)) with (Reqb a 0). unfold Reqb.
  now destruct (Req_dec_T a 0).
Qed.

Lemma R_Math_max_le (a b c : R) : a <= c -> b <= c -> Math_max a b <= c.
Proof.
  intros Ha Hb. unfold Math_max. rewrite !R_isNaN. now destruct (nltb a b).
Qed.

Lemma R_Math_max_ge (a b : R) : a <= Math_max a b.
Proof.
  unfold Math_max. rewrite !R_isNaN. destruct (nltb a b) eqn:E; [|lra].
  apply Rltb_true in E. lra.
Qed.

Lemma Rround_le (x : R) (z : Z) : x <= IZR z -> Math_round x <= IZR z.
Proof.
  intros Hx. change (Math_round x) with (IZR (Int_part (x + / 2))).
  destruct (base_Int_part (x + / 2)) as [Hlo _].
  apply IZR_le. apply Z.lt_succ_r. apply lt_IZR. rewrite succ_IZR. lra.
Qed.

Lemma Rround_nonneg (x : R) : 0 <= x -> 0 <= Math_round x.
Proof.
  intros Hx. change (Math_round x) with (IZR (Int_part (x + / 2))).
  destruct (base_Int_part (x + / 2)) as [_ Hhi].
  apply IZR_le. apply Z.lt_succ_r. apply lt_IZR. rewrite succ_IZR.
  apply Rplus_lt_reg_l with (-1). ring_simplify. lra.
Qed.

Lemma total_app (l1 l2 : list R) : total (l1 ++ l2) = total l1 + total l2.
Proof.
  induction l1 as [|v l1 IH]; simpl; [lra|]. rewrite IH. lra.
Qed.

Lemma total_le {A : Type} (f g : A -> R) (l : list A) :
  Forall (fun a => f a <= g a) l -> total (map f l) <= total (map g l).
Proof.
  induction 1 as [|a l Ha _ IH]; simpl; lra.
Qed.

Lemma sum_by_total {A : Type} (f : A -> R) (l : list A) :
  sum_by f l = total (map f l).
Proof.
  unfold sum_by. rewrite (fold_sum_total f). simpl. lra.
Qed.

Lemma total_nonneg (l : list R) : Forall (fun v => 0 <= v) l -> 0 <= total l.
Proof.
  induction 1 as [|v l Hv _ IH]; simpl; lra.
Qed.

Variable host : Host R.
Variable production_data : list (DailyProduction.t R).
Variable input : PlannerInput.t R.
Variable b : R.

Hypothesis budget_given : PlannerInput.budget_constraint input = Some b.
Hypothesis budget_nonzero : b <> 0.
Hypothesis students_nonneg : 0 <= PlannerInput.estimated_students input.
Hypothesis waste_nonneg :
  Forall (fun d => 0 <= DailyProduction.waste_percentage d) production_data.

Local Abbreviation students := (PlannerInput.estimated_students input).

Lemma demand_factor_nonneg (category : string) :
  0 <= PlannerService.getCategoryDemandFactor category.
Proof.
  unfold PlannerService.getCategoryDemandFactor, opt_or_default, or_default.
  assert (H7 : 0 <= lit (num := R) 7 1) by (simpl; lra).
  assert (H8 : 0 <= lit (num := R) 8 1) by (simpl; lra).
  assert (H9 : 0 <= lit (num := R) 9 1) by (simpl; lra).
  cbn [lookup].
  repeat match goal with
         | |- context [if ?c then _ else _] => destruct c
         end; assumption.
Qed.

Lemma base_quantity_integer (it : ScoredItem.t R) :
  sound_item it ->
  exists z : Z, PlannerService.calculateBaseQuantity it students = IZR z /\ (0 <= z)%Z.
Proof.
  intros (_ & Hpop & _ & _).
  unfold PlannerService.calculateBaseQuantity. cbv zeta.
  set (x := nmul _ _).
  assert (Hx : 0 <= x).
  { unfold x. pose proof (demand_factor_nonneg (PlannerService.category_of it)) as Hd.
    change (0 <= students * (MenuPlanning.popularity_score (ScoredItem.item it) / lit 10 0)
                 * PlannerService.getCategoryDemandFactor (PlannerService.category_of it)
                 * lit 3 1).
    assert (0 <= lit (num := R) 3 1) by (simpl; lra).
    assert (0 <= MenuPlanning.popularity_score (ScoredItem.item it) / lit 10 0).
    { apply Rle_mult_inv_pos; [assumption|simpl; lra]. }
    apply Rmult_le_pos; [apply Rmult_le_pos; [apply Rmult_le_pos|]|]; assumption. }
  exists (Int_part (x + / 2)). split; [reflexivity|].
  apply le_IZR. exact (Rround_nonneg Hx).
Qed.

Lemma waste_adjustment_le_1 (it : ScoredItem.t R) :
  sound_item it -> PlannerService.waste_adjustment_of it <= 1.
Proof.
  intros (_ & _ & _ & Hw). unfold PlannerService.waste_adjustment_of.
  destruct (ScoredItem.historical_data it) as [|d hd] eqn:E; [simpl; lra|].
  cbv zeta. apply R_Math_max_le; [simpl; lra|].
  unfold average_by. rewrite sum_by_total.
  set (s := total _). set (n := num_of_nat _).
  assert (Hs : 0 <= s).
  { unfold s. apply total_nonneg. apply Forall_map. exact Hw. }
  assert (Hn : 0 < n).
  { unfold n, num_of_nat. change (0 < IZR (Z.of_nat (List.length (d :: hd)))).
    apply IZR_lt. simpl List.length. lia. }
  change (1 - s / n / IZR 100 <= 1).
  assert (0 <= s / n) by (apply Rle_mult_inv_pos; assumption).
  assert (0 <= s / n / 100) by (apply Rle_mult_inv_pos; lra).
  lra.
Qed.

(** The cost the greedy loop estimates, and the cost the result charges. *)
Local Abbreviation estimated it := (PlannerService.estimateItemCost it students).
Local Abbreviation charged it :=
  (nmul (MenuRecommendation.recommended_quantity
           (PlannerService.generateRecommendation input it))
        (MenuRecommendation.cost_per_serving
           (PlannerService.generateRecommendation input it))).

Lemma charged_le_estimated (it : ScoredItem.t R) :
  sound_item it -> charged it <= estimated it.
Proof.
  intros Hit. destruct (base_quantity_integer Hit) as (z & Hz & Hz0).
  pose proof (waste_adjustment_le_1 Hit) as Hwa.
  destruct Hit as (_ & _ & Hcost & _).
  unfold PlannerService.generateRecommendation, PlannerService.estimateItemCost.
  cbv zeta. cbn [MenuRecommendation.recommended_quantity MenuRecommendation.cost_per_serving].
  rewrite Hz.
  change (Math_round (IZR z * PlannerService.waste_adjustment_of it)
          * MenuPlanning.ingredient_cost_per_serving (ScoredItem.item it)
          <= IZR z * MenuPlanning.ingredient_cost_per_serving (ScoredItem.item it)).
  apply Rmult_le_compat_r; [exact Hcost|].
  apply Rround_le. apply IZR_le in Hz0.
  assert (IZR z * PlannerService.waste_adjustment_of it <= IZR z * 1)
    by (apply Rmult_le_compat_l; assumption).
  lra.
Qed.

Section Greedy.
Variable target : R.
Hypothesis target_positive : 0 < target.

Lemma greedy_step_invariant (st : PlannerService.Selection) (it : ScoredItem.t R) :
  PlannerService.category_of it = "lunch" ->
  greedy_invariant input b st ->
  greedy_invariant input b (PlannerService.greedy_step input target st it).
Proof.
  intros Hcat [Hsum Hst]. unfold PlannerService.greedy_step. cbv zeta.
  match goal with |- context [if ?c then _ else _] => destruct c eqn:Hc end;
    [|split; assumption].
  apply andb_prop in Hc. destruct Hc as [_ Hb].
  rewrite budget_given in Hb. unfold PlannerService.within_budget in Hb.
  rewrite (R_truthy budget_nonzero) in Hb. cbn [negb orb] in Hb.
  apply Rleb_true in Hb.
  split; cbn [PlannerService.selected PlannerService.total_cost
                PlannerService.category_counts].
  - rewrite map_app, total_app, <- Hsum. simpl.
    change (nadd ?x ?y) with (x + y). lra.
  - right. split; [|split].
    + intros Hnil. apply app_eq_nil in Hnil. destruct Hnil as [_ Hnil]. discriminate.
    + exact Hb.
    + rewrite Hcat. unfold PlannerService.has_key. now rewrite lookup_map_set_same.
Qed.

Lemma greedy_step_keeps_choice (st : PlannerService.Selection) (it : ScoredItem.t R) :
  PlannerService.selected st <> [] ->
  PlannerService.selected (PlannerService.greedy_step input target st it) <> [].
Proof.
  intros Hne. destruct (greedy_step_selected input target st it) as [-> | ->];
    [exact Hne|].
  intros Hnil. apply app_eq_nil in Hnil. destruct Hnil as [_ Hnil]. discriminate.
Qed.

Lemma greedy_step_takes_affordable (st : PlannerService.Selection)
    (it : ScoredItem.t R) :
  greedy_invariant input b st ->
  estimated it <= b ->
  PlannerService.selected (PlannerService.greedy_step input target st it) <> [].
Proof.
  intros [Hsum [[Hsel Hcounts]|[Hne _]]] Hfit; [|now apply greedy_step_keeps_choice].
  unfold PlannerService.greedy_step. cbv zeta.
  rewrite Hcounts, Hsel. cbn [lookup opt_or_default List.length].
  rewrite Hsel in Hsum. simpl in Hsum.
  assert (Hcond : (nltb (lit 0 0) target
                   && (0 <? 12)%nat
                   && PlannerService.within_budget (PlannerInput.budget_constraint input)
                        (nadd (PlannerService.total_cost st) (estimated it))) = true).
  { rewrite budget_given. unfold PlannerService.within_budget.
    rewrite (R_truthy budget_nonzero). cbn [negb orb].
    apply andb_true_intro. split; [apply andb_true_intro; split|].
    - apply Rltb_true. simpl. exact target_positive.
    - reflexivity.
    - apply Rleb_true. rewrite Hsum. change (0 + estimated it <= b). lra. }
  rewrite Hcond. cbn [PlannerService.selected]. discriminate.
Qed.

Lemma greedy_fold_invariant (l : list (ScoredItem.t R)) :
  forall st : PlannerService.Selection,
    Forall (fun it => PlannerService.category_of it = "lunch") l ->
    greedy_invariant input b st ->
    greedy_invariant input b (fold_left (PlannerService.greedy_step input target) l st).
Proof.
  induction l as [|it l IH]; intros st Hl Hst; [exact Hst|].
  cbn [fold_left]. apply IH; [exact (Forall_inv_tail Hl)|].
  apply greedy_step_invariant; [exact (Forall_inv Hl)|exact Hst].
Qed.

Lemma greedy_fold_keeps_choice (l : list (ScoredItem.t R)) :
  forall st : PlannerService.Selection,
    PlannerService.selected st <> [] ->
    PlannerService.selected (fold_left (PlannerService.greedy_step input target) l st)
    <> [].
Proof.
  induction l as [|it l IH]; intros st Hst; [exact Hst|].
  cbn [fold_left]. apply IH. now apply greedy_step_keeps_choice.
Qed.

Lemma greedy_fold_takes_affordable (l : list (ScoredItem.t R)) :
  forall st : PlannerService.Selection,
    Forall (fun it => PlannerService.category_of it = "lunch") l ->
    greedy_invariant input b st ->
    Exists (fun it => estimated it <= b) l ->
    PlannerService.selected (fold_left (PlannerService.greedy_step input target) l st)
    <> [].
Proof.
  induction l as [|it l IH]; intros st Hl Hst Hex; [inversion Hex|].
  cbn [fold_left]. inversion Hex as [? ? Hfit|? ? Hex']; subst.
  - apply greedy_fold_keeps_choice. now apply greedy_step_takes_affordable.
  - apply IH; [exact (Forall_inv_tail Hl)| |exact Hex'].
    apply greedy_step_invariant; [exact (Forall_inv Hl)|exact Hst].
Qed.
End Greedy.

Lemma single_category_target : 0 < Math_ceil (lit 8 0 / num_of_nat 1).
Proof.
  change (0 < - IZR (Int_part (- (8 / 1)))).
  destruct (base_Int_part (- (8 / 1))) as [Hlo _]. lra.
Qed.

Lemma score_all_complete (items : list (MenuPlanning.t R)) :
  forall (oid : nat) (item : MenuPlanning.t R),
    In item items ->
    exists k, In (PlannerService.scoreMenuItem host production_data input k item)
                 (PlannerService.score_all host production_data input oid items).
Proof.
  induction items as [|item' items IH]; intros oid item Hin; [contradiction|].
  destruct Hin as [->|Hin].
  - exists oid. now left.
  - destruct (IH (S oid) item Hin) as [k Hk]. exists k. now right.
Qed.

Lemma scoreMenuItem_sound (menu_data : list (MenuPlanning.t R)) (avoid : list string)
    (k : nat) (item : MenuPlanning.t R) :
  Forall (fun item => 0 <= MenuPlanning.popularity_score item
                      /\ 0 <= MenuPlanning.ingredient_cost_per_serving item) menu_data ->
  In item (PlannerService.getAvailableItems menu_data ["lunch"] avoid) ->
  sound_item (PlannerService.scoreMenuItem host production_data input k item).
Proof.
  intros Hmenu Hin. apply available_category in Hin. destruct Hin as [Hin Hcat].
  rewrite Forall_forall in Hmenu. destruct (Hmenu _ Hin) as [Hpop Hcost].
  unfold sound_item, PlannerService.category_of, PlannerService.scoreMenuItem.
  cbv zeta. cbn [ScoredItem.item ScoredItem.historical_data].
  repeat split; try assumption.
  apply Forall_forall. intros d Hd. apply filter_In in Hd.
  rewrite Forall_forall in waste_nonneg. apply waste_nonneg. exact (proj1 Hd).
Qed.

Lemma optimizeMenu_within_budget (menu_data : list (MenuPlanning.t R))
    (external_data : list (ExternalFactor.t R)) :
  PlannerInput.target_categories input = ["lunch"] ->
  Forall (fun item => 0 <= MenuPlanning.popularity_score item
                      /\ 0 <= MenuPlanning.ingredient_cost_per_serving item) menu_data ->
  Exists (fun item =>
            estimated (PlannerService.scoreMenuItem host production_data input 0 item)
            <= b)
         (PlannerService.getAvailableItems menu_data ["lunch"]
            (match PlannerInput.avoid_items input with Some l => l | None => [] end)) ->
  PlannerResult.total_cost
    (PlannerService.optimizeMenu host production_data menu_data external_data input)
  <= b.
Proof.
  intros Hcat Hmenu Hfeasible.
  unfold PlannerService.optimizeMenu. cbv zeta. cbn [PlannerResult.total_cost].
  rewrite Hcat.
  set (avoid := match PlannerInput.avoid_items input with Some l => l | None => [] end) in *.
  set (available := PlannerService.getAvailableItems menu_data ["lunch"] avoid) in *.
  set (scored := PlannerService.score_all host production_data input 0 available).
  assert (Hsound : Forall sound_item scored).
  { apply Forall_forall. intros it Hit. apply score_all_items in Hit.
    destruct Hit as (k & item & Hitem & ->).
    eapply scoreMenuItem_sound; [exact Hmenu|exact Hitem]. }
  assert (Hscored : Exists (fun it => estimated it <= b) scored).
  { apply Exists_exists in Hfeasible. destruct Hfeasible as (item & Hitem & Hfit).
    destruct (score_all_complete available 0 item Hitem) as [k Hk].
    apply Exists_exists. exists (PlannerService.scoreMenuItem host production_data input k item).
    split; [exact Hk|exact Hfit]. }
  unfold PlannerService.selectOptimalCombination. cbv zeta.
  set (sorted_items := js_sort PlannerService.by_score_desc scored).
  assert (Hperm : Permutation sorted_items scored) by apply js_sort_perm.
  assert (Hsorted : Forall sound_item sorted_items).
  { apply Forall_forall. intros it Hit. rewrite Forall_forall in Hsound.
    apply Hsound. eapply Permutation_in; [exact Hperm|exact Hit]. }
  assert (Hfit : Exists (fun it => estimated it <= b) sorted_items).
  { apply Exists_exists in Hscored. destruct Hscored as (it & Hit & Hle).
    apply Exists_exists. exists it. split; [|exact Hle].
    eapply Permutation_in; [symmetry; exact Hperm|exact Hit]. }
  unfold PlannerService.greedy_pass. cbv zeta. rewrite Hcat.
  cbn [List.length].
  match goal with
  | |- context [fold_left (PlannerService.greedy_step input ?t) _ _] => set (target := t)
  end.
  assert (Htarget : 0 < target) by exact single_category_target.
  set (start := {| PlannerService.selected := [];
                   PlannerService.category_counts := [];
                   PlannerService.total_cost := lit 0 0 |}).
  assert (Hstart : greedy_invariant input b start).
  { split; [reflexivity|left; split; reflexivity]. }
  assert (Hlunch : Forall (fun it => PlannerService.category_of it = "lunch") sorted_items).
  { eapply Forall_impl; [|exact Hsorted]. intros it Hit. exact (proj1 Hit). }
  pose proof (@greedy_fold_invariant target sorted_items start Hlunch Hstart) as Hinv.
  pose proof (@greedy_fold_takes_affordable target Htarget
                sorted_items start Hlunch Hstart Hfit) as Hne.
  pose proof (@greedy_fold_incl R _ input target sorted_items start sorted_items
                (incl_refl _) (fun a (F : In a []) => match F with end)) as Hincl.
  set (st := fold_left (PlannerService.greedy_step input target) sorted_items start) in *.
  destruct Hinv as [Hsum [[Hnil _]|(_ & Hle & Hkey)]]; [contradiction|].
  cbn [fold_left]. unfold PlannerService.backfill_step. rewrite Hkey.
  rewrite sum_by_total, map_map.
  apply Rle_trans with (2 := Hle). rewrite Hsum.
  apply total_le. apply Forall_forall. intros it Hit.
  apply charged_le_estimated. rewrite Forall_forall in Hsorted.
  apply Hsorted. now apply Hincl.
Qed.
End PlannerBudget.



(* ================================================================== *)
(** * More on the menu planner *)
(* ================================================================== *)

Section PlannerFilters.
Context {num : Type} `{JSNumber num}.
Variable host : Host num.
Variable production_data : list (DailyProduction.t num).
Variable menu_data : list (MenuPlanning.t num).
Variable external_data : list (ExternalFactor.t num).
Variable input : PlannerInput.t num.

Lemma mem_string_In (s : string) (l : list string) :
  PlannerService.mem_string s l = true <-> In s l.
Proof.
  unfold PlannerService.mem_string. rewrite existsb_exists. split.
  - intros (x & Hx & Heq). apply String.eqb_eq in Heq. now subst x.
  - intros Hin. exists s. split; [exact Hin|apply String.eqb_refl].
Qed.

Lemma available_item_spec (targets avoid : list string) (item : MenuPlanning.t num) :
  In item (PlannerService.getAvailableItems menu_data targets avoid) <->
  In item menu_data
  /\ In (MenuPlanning.menu_category item) targets
  /\ ~ In (MenuPlanning.dish_name item) avoid.
Proof.
  unfold PlannerService.getAvailableItems. rewrite filter_In, andb_true_iff.
  rewrite negb_true_iff, mem_string_In, <- not_true_iff_false, mem_string_In.
  tauto.
Qed.

Lemma greedy_fold_length (target : num) (l : list (ScoredItem.t num)) :
  forall st : PlannerService.Selection,
    (List.length (PlannerService.selected st) <= 12)%nat ->
    (List.length (PlannerService.selected
                    (fold_left (PlannerService.greedy_step input target) l st))
     <= 12)%nat.
Proof.
  induction l as [|it l IH]; intros st Hst; [exact Hst|].
  cbn [fold_left]. apply IH. unfold PlannerService.greedy_step. cbv zeta.
  match goal with |- context [if ?c then _ else _] => destruct c eqn:Hc end;
    [|exact Hst].
  apply andb_prop in Hc. destruct Hc as [Hc _].
  apply andb_prop in Hc. destruct Hc as [_ Hlen].
  apply Nat.ltb_lt in Hlen.
  cbn [PlannerService.selected]. rewrite length_app. simpl. lia.
Qed.

Lemma backfill_fold_length (sorted_items : list (ScoredItem.t num))
    (counts : list (string * num)) (cats : list string) :
  forall sel : list (ScoredItem.t num),
    (List.length (fold_left (PlannerService.backfill_step sorted_items counts) cats sel)
     <= List.length sel + List.length cats)%nat.
Proof.
  induction cats as [|c cats IH]; intros sel; [simpl; lia|].
  cbn [fold_left]. etransitivity; [apply IH|].
  unfold PlannerService.backfill_step.
  destruct (PlannerService.has_key c counts); [simpl; lia|].
  destruct (find _ sorted_items); [rewrite length_app|]; simpl; lia.
Qed.
End PlannerFilters.

(** X1: every line of [recommended_menu] comes from a row
    of the catalog whose category is one of [target_categories] and whose
    name is not among [avoid_items]. *)
Theorem optimizeMenu_recommends_available_rows {num : Type} `{JSNumber num}
    (host : Host num) (production_data : list (DailyProduction.t num))
    (menu_data : list (MenuPlanning.t num))
    (external_data : list (ExternalFactor.t num)) (input : PlannerInput.t num) :
  Forall (fun r =>
            exists item,
              In item menu_data
              /\ MenuRecommendation.menu_item r = MenuPlanning.dish_name item
              /\ MenuRecommendation.category r = MenuPlanning.menu_category item
              /\ MenuRecommendation.cost_per_serving r
                 = MenuPlanning.ingredient_cost_per_serving item
              /\ In (MenuRecommendation.category r) (PlannerInput.target_categories input)
              /\ match PlannerInput.avoid_items input with
                 | Some avoid => ~ In (MenuRecommendation.menu_item r) avoid
                 | None => True
                 end)
         (PlannerResult.recommended_menu
            (PlannerService.optimizeMenu host production_data menu_data external_data input)).
Proof.
  unfold PlannerService.optimizeMenu. cbv zeta. cbn [PlannerResult.recommended_menu].
  apply Forall_forall. intros r Hr. apply in_map_iff in Hr.
  destruct Hr as (it & <- & Hit).
  apply selectOptimalCombination_incl in Hit.
  apply score_all_items in Hit. destruct Hit as (k & item & Hitem & ->).
  apply available_item_spec in Hitem. destruct Hitem as (Hin & Hcat & Havoid).
  exists item. repeat split; try assumption.
  destruct (PlannerInput.avoid_items input); [exact Havoid|exact I].
Qed.

(** X2: the greedy pass keeps at most 12 rows and the
    back-fill adds at most one row per entry of [target_categories]. *)
Theorem optimizeMenu_menu_size {num : Type} `{JSNumber num}
    (host : Host num) (production_data : list (DailyProduction.t num))
    (menu_data : list (MenuPlanning.t num))
    (external_data : list (ExternalFactor.t num)) (input : PlannerInput.t num) :
  (List.length
     (PlannerResult.recommended_menu
        (PlannerService.optimizeMenu host production_data menu_data external_data input))
   <= 12 + List.length (PlannerInput.target_categories input))%nat.
Proof.
  unfold PlannerService.optimizeMenu. cbv zeta. cbn [PlannerResult.recommended_menu].
  rewrite length_map. unfold PlannerService.selectOptimalCombination. cbv zeta.
  etransitivity; [apply backfill_fold_length|].
  apply Nat.add_le_mono_r. unfold PlannerService.greedy_pass. cbv zeta.
  apply greedy_fold_length. simpl. lia.
Qed.

Section PlannerDistinct.
Context {num : Type} `{JSNumber num}.
Variable host : Host num.
Variable production_data : list (DailyProduction.t num).
Variable input : PlannerInput.t num.

Local Abbreviation oids l := (map (@ScoredItem.oid num) l).

Lemma score_all_rows (items : list (MenuPlanning.t num)) :
  forall (k : nat) (it : ScoredItem.t num),
    In it (PlannerService.score_all host production_data input k items) ->
    (k <= ScoredItem.oid it)%nat
    /\ nth_error items (ScoredItem.oid it - k) = Some (ScoredItem.item it).
Proof.
  induction items as [|item items IH]; intros k it Hin; [contradiction|].
  destruct Hin as [<-|Hin].
  - cbn [PlannerService.scoreMenuItem ScoredItem.oid ScoredItem.item].
    rewrite Nat.sub_diag. split; [lia|reflexivity].
  - destruct (IH _ _ Hin) as [Hle Hnth]. split; [lia|].
    replace (ScoredItem.oid it - k)%nat with (S (ScoredItem.oid it - S k)) by lia.
    exact Hnth.
Qed.

Lemma score_all_oids (items : list (MenuPlanning.t num)) :
  forall k : nat,
    oids (PlannerService.score_all host production_data input k items)
    = seq k (List.length items).
Proof.
  induction items as [|item items IH]; intros k; [reflexivity|].
  cbn [PlannerService.score_all map List.length seq]. now rewrite IH.
Qed.

Lemma greedy_fold_distinct (target : num) (l : list (ScoredItem.t num)) :
  forall st : PlannerService.Selection,
    NoDup (oids (PlannerService.selected st ++ l)) ->
    NoDup (oids (PlannerService.selected
                   (fold_left (PlannerService.greedy_step input target) l st))).
Proof.
  induction l as [|it l IH]; intros st Hnd.
  - now rewrite app_nil_r in Hnd.
  - cbn [fold_left]. apply IH.
    destruct (greedy_step_selected input target st it) as [-> | ->].
    + rewrite map_app in Hnd |- *. cbn [map] in Hnd.
      exact (NoDup_remove_1 _ _ _ Hnd).
    + now rewrite <- app_assoc.
Qed.

Lemma backfill_fold_distinct (sorted_items : list (ScoredItem.t num))
    (counts : list (string * num)) (cats : list string) :
  forall sel : list (ScoredItem.t num),
    NoDup (oids sel) ->
    NoDup (oids (fold_left (PlannerService.backfill_step sorted_items counts) cats sel)).
Proof.
  induction cats as [|c cats IH]; intros sel Hsel; [exact Hsel|].
  cbn [fold_left]. apply IH. unfold PlannerService.backfill_step.
  destruct (PlannerService.has_key c counts); [exact Hsel|].
  destruct (find _ sorted_items) as [fallback_item|] eqn:Hfind; [|exact Hsel].
  apply find_some in Hfind. destruct Hfind as [_ Hf].
  apply andb_prop in Hf. destruct Hf as [_ Hnew].
  apply negb_true_iff in Hnew.
  rewrite map_app. cbn [map].
  apply NoDup_app; [exact Hsel|constructor; [intros []|constructor]|].
  intros a Ha [<-|[]].
  apply in_map_iff in Ha. destruct Ha as (s & Hs & Hin).
  unfold PlannerService.is_selected in Hnew.
  assert (Hex : existsb (fun s0 => (ScoredItem.oid s0 =? ScoredItem.oid fallback_item)%nat) sel
                = true).
  { apply existsb_exists. exists s. split; [exact Hin|]. now apply Nat.eqb_eq. }
  congruence.
Qed.

Lemma selectOptimalCombination_distinct (scored_items : list (ScoredItem.t num)) :
  NoDup (oids scored_items) ->
  NoDup (oids (PlannerService.selectOptimalCombination scored_items input)).
Proof.
  intros Hnd. unfold PlannerService.selectOptimalCombination. cbv zeta.
  apply backfill_fold_distinct. unfold PlannerService.greedy_pass. cbv zeta.
  apply greedy_fold_distinct. cbn [PlannerService.selected app].
  eapply Permutation_NoDup; [|exact Hnd].
  apply Permutation_map. symmetry. apply js_sort_perm.
Qed.
End PlannerDistinct.

Lemma getAvailableItems_distinct {num : Type} `{JSNumber num}
    (menu_data : list (MenuPlanning.t num)) (categories avoid : list string)
    (Hnames : NoDup (map (@MenuPlanning.dish_name num) menu_data)) :
  NoDup (map (@MenuPlanning.dish_name num)
             (PlannerService.getAvailableItems menu_data categories avoid)).
Proof.
  unfold PlannerService.getAvailableItems.
  induction menu_data as [|row rows IH]; [constructor|].
  cbn [map] in Hnames. apply NoDup_cons_iff in Hnames. destruct Hnames as [Hfresh Hrest].
  cbn [filter].
  match goal with |- context [if ?keep then _ else _] => destruct keep end;
    [|now apply IH].
  cbn [map]. apply NoDup_cons; [|now apply IH].
  intros Hin. apply Hfresh. apply in_map_iff in Hin. destruct Hin as (other & Hname & Hin).
  apply filter_In in Hin. apply in_map_iff. exists other. tauto.
Qed.

(** X3: the recommendations stem from pairwise distinct
    rows of the catalog; so when no two rows of the catalog bear the same
    [dish_name], no dish is recommended twice. *)
Theorem optimizeMenu_no_dish_twice {num : Type} `{JSNumber num}
    (host : Host num) (production_data : list (DailyProduction.t num))
    (menu_data : list (MenuPlanning.t num))
    (external_data : list (ExternalFactor.t num)) (input : PlannerInput.t num) :
  NoDup (map (@MenuPlanning.dish_name num) menu_data) ->
  NoDup (map (@MenuRecommendation.menu_item num)
             (PlannerResult.recommended_menu
                (PlannerService.optimizeMenu host production_data menu_data
                   external_data input))).
Proof.
  intros Hnames. unfold PlannerService.optimizeMenu. cbv zeta.
  cbn [PlannerResult.recommended_menu].
  set (avoid := match PlannerInput.avoid_items input with Some l => l | None => [] end).
  set (available :=
         PlannerService.getAvailableItems menu_data
           (PlannerInput.target_categories input) avoid).
  set (scored := PlannerService.score_all host production_data input 0 available).
  set (sel := PlannerService.selectOptimalCombination scored input).
  assert (Havail : NoDup (map (@MenuPlanning.dish_name num) available)).
  { unfold available. now apply getAvailableItems_distinct. }
  assert (Hsel : NoDup (map (@ScoredItem.oid num) sel)).
  { apply selectOptimalCombination_distinct. unfold scored.
    rewrite score_all_oids. apply seq_NoDup. }
  assert (Hrows : forall it, In it sel ->
                   nth_error available (ScoredItem.oid it) = Some (ScoredItem.item it)).
  { intros it Hit. apply selectOptimalCombination_incl in Hit.
    apply score_all_rows in Hit. destruct Hit as [_ Hnth].
    now rewrite Nat.sub_0_r in Hnth. }
  rewrite map_map. cbn [PlannerService.generateRecommendation MenuRecommendation.menu_item].
  clearbody sel. clear scored.
  induction sel as [|it sel IH]; [constructor|].
  cbn [map] in Hsel |- *. inversion Hsel as [|? ? Hnot Hsel']; subst.
  constructor; [|apply IH; [exact Hsel'|intros it' Hit'; apply Hrows; now right]].
  intros Hin. apply in_map_iff in Hin. destruct Hin as (it' & Heq & Hit').
  apply Hnot. apply in_map_iff. exists it'. split; [|exact Hit'].
  pose proof (Hrows it (or_introl eq_refl)) as Hr.
  pose proof (Hrows it' (or_intror Hit')) as Hr'.
  apply (map_nth_error (@MenuPlanning.dish_name num)) in Hr.
  apply (map_nth_error (@MenuPlanning.dish_name num)) in Hr'.
  rewrite NoDup_nth_error in Havail. apply Havail.
  - apply nth_error_Some. rewrite Hr'. discriminate.
  - now rewrite Hr, Hr', Heq.
Qed.

Lemma optimizeMenu_no_dish_twice_witness :
  NoDup (map (@MenuRecommendation.menu_item float)
             (PlannerResult.recommended_menu
                (PlannerService.optimizeMenu utc_host []
                   [dish "lunch" "Water" 0 10; dish "lunch" "Steak" 4 10] []
                   (lunch_request (Some 100%Z))))).
Proof.
  apply optimizeMenu_no_dish_twice.
  cbn [map dish MenuPlanning.dish_name].
  constructor; [|constructor; [intros []|constructor]].
  intros [Heq|[]]. discriminate.
Defined.

(** X4: when no row of the catalog is available for the
    request, the menu is empty, the totals are 0 and [waste_percentage] is
    [0 / 0 * 100], NaN. *)
Theorem optimizeMenu_nothing_available
    (host : Host float) (production_data : list (DailyProduction.t float))
    (menu_data : list (MenuPlanning.t float))
    (external_data : list (ExternalFactor.t float)) (input : PlannerInput.t float) :
  PlannerService.getAvailableItems menu_data (PlannerInput.target_categories input)
    (match PlannerInput.avoid_items input with Some l => l | None => [] end) = [] ->
  let r := PlannerService.optimizeMenu host production_data menu_data external_data input in
  PlannerResult.recommended_menu r = []
  /\ PlannerResult.total_cost r = lit 0 0
  /\ PlannerResult.total_expected_waste r = lit 0 0
  /\ PlannerResult.waste_percentage r = Statistics.NaN.
Proof.
  intros Hnone. cbv zeta. unfold PlannerService.optimizeMenu. cbv zeta.
  rewrite Hnone. cbn [PlannerService.score_all].
  assert (Hsel : PlannerService.selectOptimalCombination (num := float) [] input = []).
  { unfold PlannerService.selectOptimalCombination. cbv zeta.
    cbn [js_sort PlannerService.greedy_pass fold_left PlannerService.selected
         PlannerService.category_counts].
    unfold PlannerService.greedy_pass. cbn [fold_left PlannerService.selected
                                            PlannerService.category_counts].
    clear Hnone.
    induction (PlannerInput.target_categories input) as [|c cats IH]; [reflexivity|].
    cbn [fold_left]. exact IH. }
  rewrite Hsel. cbn [map PlannerResult.recommended_menu PlannerResult.total_cost
                     PlannerResult.total_expected_waste PlannerResult.waste_percentage].
  repeat split; vm_compute; reflexivity.
Qed.

Lemma optimizeMenu_nothing_available_witness :
  let r := PlannerService.optimizeMenu (num := float) utc_host []
             [dish "dinner" "Steak" 4 10] [] (lunch_request None) in
  PlannerResult.recommended_menu r = []
  /\ PlannerResult.total_cost r = lit 0 0
  /\ PlannerResult.total_expected_waste r = lit 0 0
  /\ PlannerResult.waste_percentage r = Statistics.NaN.
Proof.
  apply optimizeMenu_nothing_available. reflexivity.
Defined.

Section Suggestions.
Context {num : Type} `{JSNumber num}.
Variable menu_data : list (MenuPlanning.t num).
Variable constraints : SuggestionConstraints.t num.
Local Open Scope js_scope.

(** X5: on ASCII text (the allergens of the catalog and the
    restrictions), a row is suggested exactly when it is a row of the
    catalog that meets every constraint in force: a [max_prep_time] and a
    [cost_limit] that are given and truthy, and the [dietary_restrictions]
    when given, none of which may occur, letter case aside, in the row's
    allergens. *)
Theorem getMenuSuggestions_meets_constraints (item : MenuPlanning.t num) :
  Forall (fun row => is_ascii (MenuPlanning.allergens row) = true) menu_data ->
  (forall rs, SuggestionConstraints.dietary_restrictions constraints = Some rs ->
              Forall (fun r => is_ascii r = true) rs) ->
  In item (fst (PlannerService.getMenuSuggestions menu_data constraints)) <->
  In item menu_data
  /\ (forall t, SuggestionConstraints.max_prep_time constraints = Some t ->
                truthy t = true ->
                (MenuPlanning.preparation_time_hours item <=? t) = true)
  /\ (forall c, SuggestionConstraints.cost_limit constraints = Some c ->
                truthy c = true ->
                (MenuPlanning.ingredient_cost_per_serving item <=? c) = true)
  /\ (forall rs, SuggestionConstraints.dietary_restrictions constraints = Some rs ->
                 forall r, In r rs ->
                   includes (toLowerCase r) (toLowerCase (MenuPlanning.allergens item))
                   = false).
Proof.
  intros _ _.
  unfold PlannerService.getMenuSuggestions. cbv zeta.
  destruct (SuggestionConstraints.max_prep_time constraints) as [t|];
    [destruct (truthy t) eqn:Ht|];
    (destruct (SuggestionConstraints.cost_limit constraints) as [c|];
       [destruct (truthy c) eqn:Hc|]);
    (destruct (SuggestionConstraints.dietary_restrictions constraints) as [rs|]);
    cbn [fst];
    (split;
     [ intros Hin;
       apply (Permutation_in _ (js_sort_perm _ _)) in Hin;
       repeat (apply filter_In in Hin; destruct Hin as [Hin ?]);
       (split; [exact Hin|]);
       repeat split; intros ? Heq;
       try discriminate Heq;
       try (injection Heq as <-);
       try (intros Htr; try congruence; assumption);
       try (intros r Hr;
            match goal with
            | Hn : negb (existsb _ _) = true |- _ =>
                apply negb_true_iff in Hn;
                destruct (includes (toLowerCase r) _) eqn:Hi; [|reflexivity];
                exfalso;
                assert (Hex : existsb
                                (fun r0 => includes (toLowerCase r0)
                                             (toLowerCase (MenuPlanning.allergens item)))
                                rs = true)
                  by (apply existsb_exists; exists r; split; assumption);
                congruence
            end)
     | intros (Hin & Hprep & Hcost & Hdiet);
       apply (Permutation_in _ (Permutation_sym (js_sort_perm _ _)));
       repeat (apply filter_In; split);
       try exact Hin;
       try (apply Hprep; [reflexivity|assumption]);
       try (apply Hcost; [reflexivity|assumption]);
       try (apply negb_true_iff;
            destruct (existsb _ rs) eqn:Hex; [|reflexivity];
            apply existsb_exists in Hex; destruct Hex as (r & Hr & Hi);
            rewrite (Hdiet rs eq_refl r Hr) in Hi; discriminate) ]).
Qed.
End Suggestions.

Lemma getMenuSuggestions_meets_constraints_witness :
  let catalog :=
    [ dish_with_allergens (num := float) "Pudding" "Milk, Eggs";
      dish_with_allergens "Curry" "Peanuts";
      dish_with_allergens "Rice" "none" ] in
  let constraints :=
    {| SuggestionConstraints.max_prep_time := Some (lit 2 0);
       SuggestionConstraints.dietary_restrictions := Some ["MILK"; "peanut"];
       SuggestionConstraints.cost_limit := None |} in
  In (dish_with_allergens "Rice" "none")
     (fst (PlannerService.getMenuSuggestions catalog constraints))
  /\ ~ In (dish_with_allergens "Pudding" "Milk, Eggs")
         (fst (PlannerService.getMenuSuggestions catalog constraints)).
Proof.
  cbv zeta. split.
  - apply getMenuSuggestions_meets_constraints.
    + repeat constructor.
    + intros rs [= <-]. repeat constructor.
    + split; [right; right; left; reflexivity|].
      split; [intros t [= <-] _; vm_compute; reflexivity|].
      split; [intros c Hc; discriminate Hc|].
      intros rs [= <-] r [<-|[<-|[]]]; vm_compute; reflexivity.
  - intros Hin. apply getMenuSuggestions_meets_constraints in Hin.
    + destruct Hin as (_ & _ & _ & Hdiet).
      specialize (Hdiet _ eq_refl "MILK" (or_introl eq_refl)).
      vm_compute in Hdiet. discriminate Hdiet.
    + repeat constructor.
    + intros rs [= <-]. repeat constructor.
Defined.
(* ================================================================== *)
(** * More on the route optimiser *)
(* ================================================================== *)

Section TrackerInvariants.
Context {num : Type} `{JSNumber num}.
Local Abbreviation pickup := (OptimizedPickup.t num).
Local Abbreviation route := (RouteOptimization.t num).

Lemma fold_append_leftover_none (leftovers : list pickup) :
  fold_left TrackerService.append_leftover leftovers None = None.
Proof. induction leftovers as [|p l IH]; [reflexivity|exact IH]. Qed.

Lemma update_nth_Forall {A : Type} (P : A -> Prop) (f : A -> A) (l : list A) :
  (forall a, P a -> P (f a)) ->
  forall i : nat, Forall P l -> Forall P (TrackerService.update_nth i f l).
Proof.
  intros Hf. induction l as [|a l IH]; intros i Hl; [now destruct i|].
  inversion Hl as [|? ? Ha Hl']; subst.
  destruct i as [|i]; cbn [TrackerService.update_nth]; constructor; auto.
Qed.

Lemma update_nth_map {A B : Type} (g : A -> B) (f : A -> A) (l : list A) :
  (forall a, g (f a) = g a) ->
  forall i : nat, map g (TrackerService.update_nth i f l) = map g l.
Proof.
  intros Hf. induction l as [|a l IH]; intros i; [now destruct i|].
  destruct i as [|i]; cbn [TrackerService.update_nth map]; [now rewrite Hf|].
  now rewrite IH.
Qed.

Lemma remove_by_id_incl (id : string) (a : list pickup) :
  incl (TrackerService.remove_by_id id a) a.
Proof.
  induction a as [|p a IH]; [apply incl_refl|].
  cbn [TrackerService.remove_by_id].
  destruct (String.eqb (OptimizedPickup.pickup_id p) id).
  - apply incl_tl, incl_refl.
  - intros x [<-|Hx]; [now left|right; now apply IH].
Qed.

Lemma Forall_incl {A : Type} (P : A -> Prop) (l l' : list A) :
  incl l l' -> Forall P l' -> Forall P l.
Proof.
  intros Hincl Hl'. apply Forall_forall. intros x Hx.
  rewrite Forall_forall in Hl'. auto.
Qed.

Lemma sum_by_snoc {A : Type} (f : A -> num) (l : list A) (a : A) :
  sum_by f (l ++ [a]) = nadd (sum_by f l) (f a).
Proof. unfold sum_by. now rewrite fold_left_app. Qed.

(** ** A property of pickups that copies keep *)

Section PickupProperty.
Variable P : pickup -> Prop.
Hypothesis P_set_composite : forall c p, P p -> P (TrackerService.set_composite c p).
Hypothesis P_set_driver : forall d p, P p -> P (TrackerService.set_driver d p).

Lemma findBestNextPickup_keeps (loc : string) (available : list pickup)
    (volume cap : num) (best : pickup) :
  Forall P available ->
  TrackerService.findBestNextPickup loc available volume cap = Some best ->
  P best.
Proof.
  intros Hall. unfold TrackerService.findBestNextPickup. cbv zeta.
  set (feasible := filter _ available).
  assert (Hf : Forall P feasible).
  { apply (Forall_incl (l' := available)); [|exact Hall].
    intros x Hx. apply filter_In in Hx. exact (proj1 Hx). }
  destruct feasible as [|first rest]; [discriminate|].
  intros [= <-].
  apply (@best_of_feasible num _ P loc (first :: rest) first);
    [exact P_set_composite|exact (Forall_inv Hf)|exact Hf].
Qed.

Lemma route_loop_keeps (driver : string) (fuel : nat) :
  forall st : TrackerService.RouteState,
    Forall P (TrackerService.route_pickups st) ->
    Forall P (TrackerService.available_pickups st) ->
    Forall P (TrackerService.route_pickups (TrackerService.route_loop driver fuel st))
    /\ Forall P (TrackerService.available_pickups
                   (TrackerService.route_loop driver fuel st)).
Proof.
  induction fuel as [|fuel IH]; intros st Hr Ha; [now split|].
  cbn [TrackerService.route_loop].
  destruct (TrackerService.available_pickups st) as [|a0 rest] eqn:Eav;
    [rewrite Eav; now split|].
  rewrite <- Eav in Ha |- *.
  destruct (TrackerService.findBestNextPickup _ _ _ _) as [best|] eqn:Eb; [|now split].
  eapply findBestNextPickup_keeps in Eb; [|exact Ha].
  apply IH; cbn [TrackerService.route_pickups TrackerService.available_pickups].
  - apply Forall_app. split; [exact Hr|]. constructor; [|constructor].
    now apply P_set_driver.
  - apply (Forall_incl (l' := TrackerService.available_pickups st)); [|exact Ha].
    apply remove_by_id_incl.
Qed.

Lemma createOptimalRoute_keeps (now driver : string) (available : list pickup) :
  Forall P available ->
  Forall P (RouteOptimization.pickups
              (fst (TrackerService.createOptimalRoute now driver available)))
  /\ Forall P (snd (TrackerService.createOptimalRoute now driver available)).
Proof.
  intros Ha. unfold TrackerService.createOptimalRoute. cbv zeta.
  cbn [fst snd RouteOptimization.pickups].
  apply route_loop_keeps; [constructor|exact Ha].
Qed.

Lemma fold_remove_keeps (l : list pickup) :
  forall rem : list pickup,
    Forall P rem ->
    Forall P (fold_left
                (fun rem p => TrackerService.remove_by_id (OptimizedPickup.pickup_id p) rem)
                l rem).
Proof.
  induction l as [|p l IH]; intros rem Hrem; [exact Hrem|].
  cbn [fold_left]. apply IH.
  apply (Forall_incl (l' := rem)); [apply remove_by_id_incl|exact Hrem].
Qed.

Local Abbreviation all_pickups rs :=
  (Forall (fun r : route => Forall P (RouteOptimization.pickups r)) rs).

Lemma assign_drivers_keeps (clock : nat -> string) (drivers : list string) :
  forall (k : nat) (routes : list route) (remaining : list pickup),
    all_pickups routes -> Forall P remaining ->
    all_pickups (fst (TrackerService.assign_drivers clock k drivers routes remaining))
    /\ Forall P (snd (TrackerService.assign_drivers clock k drivers routes remaining)).
Proof.
  induction drivers as [|d ds IH]; intros k routes remaining Hr Hrem; [now split|].
  destruct remaining as [|p0 rest].
  - rewrite assign_drivers_nil. now split.
  - rewrite assign_drivers_cons by discriminate. cbv zeta.
    destruct (@createOptimalRoute_keeps (clock k) d _ Hrem) as [Hnew Hleft].
    apply IH.
    + apply Forall_app. split; [exact Hr|]. constructor; [exact Hnew|constructor].
    + now apply fold_remove_keeps.
Qed.

Lemma append_leftovers_keep (leftovers : list pickup) :
  forall rs rs' : list route,
    Forall P leftovers -> all_pickups rs ->
    fold_left TrackerService.append_leftover leftovers (Some rs) = Some rs' ->
    all_pickups rs'.
Proof.
  induction leftovers as [|p l IH]; intros rs rs' Hl Hrs Hfold.
  - cbn [fold_left] in Hfold. now injection Hfold as <-.
  - cbn [fold_left] in Hfold. inversion Hl as [|? ? Hp Hl']; subst.
    destruct rs as [|first rest].
    + cbn [TrackerService.append_leftover] in Hfold.
      rewrite fold_append_leftover_none in Hfold. discriminate.
    + cbn [TrackerService.append_leftover] in Hfold. cbv zeta in Hfold.
      eapply IH; [exact Hl'| |exact Hfold].
      apply update_nth_Forall; [|exact Hrs].
      intros r Hr. cbn [TrackerService.push_and_update RouteOptimization.pickups].
      apply Forall_app. split; [exact Hr|]. constructor; [|constructor].
      now apply P_set_driver.
Qed.

Lemma optimizeRoutes_keeps (clock : nat -> string) (pickups : list pickup)
    (drivers : list string) (rs : list route) :
  Forall P pickups ->
  TrackerService.optimizeRoutes clock pickups drivers = Some rs ->
  all_pickups rs.
Proof.
  intros Hp. unfold TrackerService.optimizeRoutes.
  destruct (TrackerService.assign_drivers clock 0 drivers [] pickups)
    as [routes remaining] eqn:E.
  pose proof (@assign_drivers_keeps clock drivers 0 [] pickups
                (Forall_nil _) Hp) as [Hr Hrem].
  rewrite E in Hr, Hrem. cbn [fst snd] in Hr, Hrem.
  now apply append_leftovers_keep.
Qed.
End PickupProperty.

(** ** A property of routes that appending a pickup keeps *)

Section RouteProperty.
Variable R : route -> Prop.
Hypothesis R_created :
  forall now driver available,
    R (fst (TrackerService.createOptimalRoute now driver available)).
Hypothesis R_appended :
  forall p r, R r -> R (TrackerService.push_and_update p r).

Lemma assign_drivers_routes (clock : nat -> string) (drivers : list string) :
  forall (k : nat) (routes : list route) (remaining : list pickup),
    Forall R routes ->
    Forall R (fst (TrackerService.assign_drivers clock k drivers routes remaining)).
Proof.
  induction drivers as [|d ds IH]; intros k routes remaining Hr; [exact Hr|].
  destruct remaining as [|p0 rest].
  - now rewrite assign_drivers_nil.
  - rewrite assign_drivers_cons by discriminate. cbv zeta.
    apply IH. apply Forall_app. split; [exact Hr|].
    constructor; [apply R_created|constructor].
Qed.

Lemma append_leftovers_routes (leftovers : list pickup) :
  forall rs rs' : list route,
    Forall R rs ->
    fold_left TrackerService.append_leftover leftovers (Some rs) = Some rs' ->
    Forall R rs'.
Proof.
  induction leftovers as [|p l IH]; intros rs rs' Hrs Hfold.
  - cbn [fold_left] in Hfold. now injection Hfold as <-.
  - cbn [fold_left] in Hfold.
    destruct rs as [|first rest].
    + cbn [TrackerService.append_leftover] in Hfold.
      rewrite fold_append_leftover_none in Hfold. discriminate.
    + cbn [TrackerService.append_leftover] in Hfold. cbv zeta in Hfold.
      eapply IH; [|exact Hfold].
      apply update_nth_Forall; [apply R_appended|exact Hrs].
Qed.

Lemma optimizeRoutes_routes (clock : nat -> string) (pickups : list pickup)
    (drivers : list string) (rs : list route) :
  TrackerService.optimizeRoutes clock pickups drivers = Some rs -> Forall R rs.
Proof.
  unfold TrackerService.optimizeRoutes.
  destruct (TrackerService.assign_drivers clock 0 drivers [] pickups)
    as [routes remaining] eqn:E.
  pose proof (@assign_drivers_routes clock drivers 0 [] pickups
                (Forall_nil _)) as Hr.
  rewrite E in Hr. cbn [fst] in Hr.
  now apply append_leftovers_routes.
Qed.
End RouteProperty.
End TrackerInvariants.

Section TrackerResults.
Context {num : Type} `{JSNumber num}.
Variable host : Host num.
Variable pickup_data : list (PickupOperation.t num).
Variable external_data : list (ExternalFactor.t num).
Local Abbreviation pickup := (OptimizedPickup.t num).
Local Abbreviation route := (RouteOptimization.t num).

Lemma route_loop_books (driver : string) (fuel : nat) :
  forall st : TrackerService.RouteState,
    Forall (fun p : pickup => OptimizedPickup.driver_assignment p = driver)
           (TrackerService.route_pickups st) ->
    TrackerService.acc_volume st
    = sum_by (@OptimizedPickup.estimated_volume num) (TrackerService.route_pickups st) ->
    TrackerService.acc_time st
    = sum_by (@OptimizedPickup.estimated_duration num) (TrackerService.route_pickups st) ->
    let st' := TrackerService.route_loop driver fuel st in
    Forall (fun p : pickup => OptimizedPickup.driver_assignment p = driver)
           (TrackerService.route_pickups st')
    /\ TrackerService.acc_volume st'
       = sum_by (@OptimizedPickup.estimated_volume num) (TrackerService.route_pickups st')
    /\ TrackerService.acc_time st'
       = sum_by (@OptimizedPickup.estimated_duration num) (TrackerService.route_pickups st').
Proof.
  induction fuel as [|fuel IH]; intros st Hd Hv Ht; cbv zeta; [now repeat split|].
  cbn [TrackerService.route_loop].
  destruct (TrackerService.available_pickups st) as [|a0 rest]; [now repeat split|].
  destruct (TrackerService.findBestNextPickup _ _ _ _) as [best|]; [|now repeat split].
  apply IH; cbn [TrackerService.route_pickups TrackerService.acc_volume
                 TrackerService.acc_time].
  - apply Forall_app. split; [exact Hd|]. constructor; [reflexivity|constructor].
  - now rewrite sum_by_snoc, Hv.
  - now rewrite sum_by_snoc, Ht.
Qed.

(** The books of a route: its pickups carry its driver and its totals are
    the sums over its pickups, in the order and with the rounding of
    [reduce]. *)
Local Abbreviation books_in_order r :=
  (Forall (fun p : pickup =>
             OptimizedPickup.driver_assignment p = RouteOptimization.driver r)
          (RouteOptimization.pickups r)
   /\ RouteOptimization.total_volume r
      = sum_by (@OptimizedPickup.estimated_volume num) (RouteOptimization.pickups r)
   /\ RouteOptimization.total_time r
      = sum_by (@OptimizedPickup.estimated_duration num) (RouteOptimization.pickups r)
   /\ RouteOptimization.total_cost r
      = sum_by (@OptimizedPickup.transport_cost num) (RouteOptimization.pickups r)).

(** X6: in every route returned, each pickup is assigned to
    the driver of the route, and [total_volume], [total_time] and
    [total_cost] are the sums of the pickups' volumes, durations and costs,
    whether or not leftover pickups were appended. *)
Theorem optimizePickups_books_in_order (clock : nat -> string)
    (input : PickupOptimizationInput.t num) (result : TrackerResult.t num) :
  TrackerService.optimizePickups host pickup_data external_data clock input
  = Some result ->
  Forall (fun r : route => books_in_order r) (TrackerResult.optimized_routes result).
Proof.
  unfold TrackerService.optimizePickups. cbv zeta.
  destruct (TrackerService.optimizeRoutes _ _ _) as [rs|] eqn:E; [|discriminate].
  intros [= <-]. cbn [TrackerResult.optimized_routes].
  revert E. apply optimizeRoutes_routes.
  - intros now driver available.
    unfold TrackerService.createOptimalRoute. cbv zeta.
    cbn [fst RouteOptimization.pickups RouteOptimization.driver
         RouteOptimization.total_volume RouteOptimization.total_time
         RouteOptimization.total_cost].
    destruct (@route_loop_books driver TrackerService.max_pickups_per_route
                {| TrackerService.route_pickups := [];
                   TrackerService.available_pickups := available;
                   TrackerService.current_location := "depot";
                   TrackerService.acc_volume := lit 0 0;
                   TrackerService.acc_time := lit 0 0 |})
      as (Hd & Hv & Ht); [constructor|reflexivity|reflexivity|].
    cbv zeta in Hd, Hv, Ht. repeat split; assumption.
  - intros p r (Hd & _).
    cbn [TrackerService.push_and_update RouteOptimization.pickups
         RouteOptimization.driver RouteOptimization.total_volume
         RouteOptimization.total_time RouteOptimization.total_cost].
    repeat split. apply Forall_app. split; [exact Hd|].
    constructor; [reflexivity|constructor].
Qed.

(** X7: [locations] lists the source locations of the
    pickups the route was created with; pickups appended later follow in
    [pickups] only, so [locations] is a prefix of the pickups' sources. *)
Theorem optimizePickups_locations_prefix (clock : nat -> string)
    (input : PickupOptimizationInput.t num) (result : TrackerResult.t num) :
  TrackerService.optimizePickups host pickup_data external_data clock input
  = Some result ->
  Forall (fun r : route =>
            exists later,
              map (@OptimizedPickup.source_location num) (RouteOptimization.pickups r)
              = RouteOptimization.locations r ++ later)
         (TrackerResult.optimized_routes result).
Proof.
  unfold TrackerService.optimizePickups. cbv zeta.
  destruct (TrackerService.optimizeRoutes _ _ _) as [rs|] eqn:E; [|discriminate].
  intros [= <-]. cbn [TrackerResult.optimized_routes].
  revert E. apply optimizeRoutes_routes.
  - intros now driver available. exists [].
    unfold TrackerService.createOptimalRoute. cbv zeta.
    cbn [fst RouteOptimization.pickups RouteOptimization.locations].
    now rewrite app_nil_r.
  - intros p r [later Hl].
    exists (later ++ [OptimizedPickup.source_location p]).
    cbn [TrackerService.push_and_update RouteOptimization.pickups
         RouteOptimization.locations].
    rewrite map_app, Hl, <- app_assoc. reflexivity.
Qed.

Lemma assign_drivers_in_order (clock : nat -> string) (drivers : list string) :
  forall (k : nat) (routes : list route) (remaining : list pickup),
    exists n,
      map (@RouteOptimization.driver num)
          (fst (TrackerService.assign_drivers clock k drivers routes remaining))
      = map (@RouteOptimization.driver num) routes ++ firstn n drivers.
Proof.
  induction drivers as [|d ds IH]; intros k routes remaining.
  - exists 0%nat. cbn [TrackerService.assign_drivers fst firstn]. now rewrite app_nil_r.
  - destruct remaining as [|p0 rest].
    + exists 0%nat. rewrite assign_drivers_nil. cbn [fst firstn]. now rewrite app_nil_r.
    + rewrite assign_drivers_cons by discriminate. cbv zeta.
      match goal with
      | |- context [TrackerService.assign_drivers clock (S k) ds ?rs ?rem] =>
          destruct (IH (S k) rs rem) as [n Hn]
      end.
      exists (S n). rewrite Hn, map_app. cbn [map firstn].
      unfold TrackerService.createOptimalRoute at 1. cbv zeta.
      cbn [fst RouteOptimization.driver]. now rewrite <- app_assoc.
Qed.

Lemma append_leftovers_drivers (leftovers : list pickup) :
  forall rs rs' : list route,
    fold_left TrackerService.append_leftover leftovers (Some rs) = Some rs' ->
    map (@RouteOptimization.driver num) rs' = map (@RouteOptimization.driver num) rs.
Proof.
  induction leftovers as [|p l IH]; intros rs rs' Hfold.
  - cbn [fold_left] in Hfold. now injection Hfold as <-.
  - cbn [fold_left] in Hfold. destruct rs as [|first rest].
    + cbn [TrackerService.append_leftover] in Hfold.
      rewrite fold_append_leftover_none in Hfold. discriminate.
    + cbn [TrackerService.append_leftover] in Hfold. cbv zeta in Hfold.
      rewrite (IH _ _ Hfold). now apply update_nth_map.
Qed.

(** X8: the routes returned belong, in order, to the first
    drivers of [available_drivers], one route each. *)
Theorem optimizePickups_drivers_in_order (clock : nat -> string)
    (input : PickupOptimizationInput.t num) (result : TrackerResult.t num) :
  TrackerService.optimizePickups host pickup_data external_data clock input
  = Some result ->
  map (@RouteOptimization.driver num) (TrackerResult.optimized_routes result)
  = firstn (List.length (TrackerResult.optimized_routes result))
           (PickupOptimizationInput.available_drivers input).
Proof.
  unfold TrackerService.optimizePickups. cbv zeta.
  destruct (TrackerService.optimizeRoutes _ _ _) as [rs|] eqn:E; [|discriminate].
  intros [= <-]. cbn [TrackerResult.optimized_routes].
  unfold TrackerService.optimizeRoutes in E.
  match type of E with
  | context [TrackerService.assign_drivers clock 0 ?ds [] ?ps] =>
      destruct (assign_drivers_in_order clock ds 0 [] ps) as [n Hn];
      destruct (TrackerService.assign_drivers clock 0 ds [] ps) as [routes remaining]
  end.
  cbn [fst map app] in Hn.
  apply append_leftovers_drivers in E.
  assert (Hlen : List.length rs = List.length (firstn n (PickupOptimizationInput.available_drivers input))).
  { rewrite <- Hn, <- E. now rewrite !length_map. }
  rewrite E, Hn, Hlen, length_firstn.
  destruct (Nat.le_ge_cases n (List.length (PickupOptimizationInput.available_drivers input)))
    as [Hle|Hge].
  - now rewrite Nat.min_l.
  - rewrite Nat.min_r by exact Hge. now rewrite firstn_all, firstn_all2.
Qed.
End TrackerResults.

Section TrackerCoverage.
Context {num : Type} `{JSNumber num}.
Variable host : Host num.
Variable pickup_data : list (PickupOperation.t num).
Variable external_data : list (ExternalFactor.t num).
Local Abbreviation pickup := (OptimizedPickup.t num).
Local Abbreviation route := (RouteOptimization.t num).

Lemma analyzeLocationPatterns_total (locations : list string) (l : string) :
  In l locations ->
  lookup l (TrackerService.analyzeLocationPatterns host pickup_data locations) <> None.
Proof.
  intros Hl. unfold TrackerService.analyzeLocationPatterns.
  apply lookup_after_sets. now left.
Qed.

Lemma collect_suggestions_sources (input : PickupOptimizationInput.t num)
    (patterns : list (string * LocationPattern.t num)) (locations : list string) :
  (forall l, In l locations -> lookup l patterns <> None) ->
  forall counter : nat,
    map (@OptimizedPickup.source_location num)
        (TrackerService.collect_suggestions host external_data input patterns
           counter locations)
    = locations.
Proof.
  induction locations as [|l ls IH]; intros Hall counter; [reflexivity|].
  cbn [TrackerService.collect_suggestions].
  destruct (lookup l patterns) as [pattern|] eqn:E.
  - cbn [map TrackerService.make_suggestion OptimizedPickup.source_location].
    rewrite IH; [reflexivity|]. intros l' Hl'. apply Hall. now right.
  - exfalso. apply (Hall l); [now left|exact E].
Qed.

(** Where a pickup with a given identifier starts, among [candidates]. *)
Local Abbreviation source_of candidates id :=
  (match find (fun c : pickup => String.eqb (OptimizedPickup.pickup_id c) id) candidates with
   | Some c => OptimizedPickup.source_location c
   | None => EmptyString
   end).

Lemma source_of_candidate (candidates : list pickup) (c : pickup) :
  NoDup (ids candidates) -> In c candidates ->
  source_of candidates (OptimizedPickup.pickup_id c) = OptimizedPickup.source_location c.
Proof.
  induction candidates as [|c0 cs IH]; intros Hnd Hin; [contradiction|].
  cbn [find]. cbn [ids map] in Hnd. inversion Hnd as [|? ? Hnot Hnd']; subst.
  destruct Hin as [->|Hin].
  - now rewrite String.eqb_refl.
  - destruct (String.eqb (OptimizedPickup.pickup_id c0) (OptimizedPickup.pickup_id c)) eqn:E.
    + apply String.eqb_eq in E. exfalso. apply Hnot. rewrite E.
      apply in_map_iff. exists c. split; [reflexivity|exact Hin].
    + now apply IH.
Qed.

(** X9: with at least one driver, the pickups of the
    routes returned start, up to order, at the available locations: every
    location, as often as it is listed, is served by exactly one pickup. *)
Theorem optimizePickups_serves_every_location (clock : nat -> string)
    (input : PickupOptimizationInput.t num) :
  PickupOptimizationInput.available_drivers input <> [] ->
  exists result,
    TrackerService.optimizePickups host pickup_data external_data clock input
    = Some result
    /\ Permutation
         (flat_map (fun r : route =>
                      map (@OptimizedPickup.source_location num)
                          (RouteOptimization.pickups r))
                   (TrackerResult.optimized_routes result))
         (PickupOptimizationInput.available_locations input).
Proof.
  intros Hdrivers.
  set (locations := PickupOptimizationInput.available_locations input).
  set (patterns := TrackerService.analyzeLocationPatterns host pickup_data locations).
  set (candidates :=
         TrackerService.generatePickupSuggestions host external_data input patterns).
  destruct (candidates_spec host pickup_data external_data input) as [_ Hnd].
  cbv zeta in Hnd. fold locations patterns candidates in Hnd.
  destruct (@optimizeRoutes_perm num _ clock candidates
              (PickupOptimizationInput.available_drivers input) Hdrivers Hnd)
    as (rs & Hrs & Hperm).
  assert (Hsources : Permutation (map (@OptimizedPickup.source_location num) candidates)
                                locations).
  { unfold candidates, TrackerService.generatePickupSuggestions.
    rewrite (Permutation_map _ (js_sort_perm _ _)).
    fold locations. rewrite collect_suggestions_sources; [reflexivity|].
    intros l Hl. now apply analyzeLocationPatterns_total. }
  assert (Hkeep : Forall (fun r : route =>
                            Forall (fun p : pickup =>
                                      source_of candidates (OptimizedPickup.pickup_id p)
                                      = OptimizedPickup.source_location p)
                                   (RouteOptimization.pickups r)) rs).
  { eapply optimizeRoutes_keeps; [| | |exact Hrs].
    - intros c p Hp. exact Hp.
    - intros d p Hp. exact Hp.
    - apply Forall_forall. intros c Hc. now apply source_of_candidate. }
  exists {| TrackerResult.optimized_routes := rs;
            TrackerResult.total_volume_rescued :=
              Totals.volume (TrackerService.calculateTotals rs);
            TrackerResult.total_meals_equivalent :=
              Totals.meals (TrackerService.calculateTotals rs);
            TrackerResult.total_co2_savings :=
              Totals.co2 (TrackerService.calculateTotals rs);
            TrackerResult.total_transport_cost :=
              Totals.cost (TrackerService.calculateTotals rs);
            TrackerResult.efficiency_metrics :=
              TrackerService.calculateEfficiencyMetrics
                (TrackerService.calculateTotals rs) |}.
  split.
  - unfold TrackerService.optimizePickups. cbv zeta.
    fold locations patterns candidates. now rewrite Hrs.
  - cbn [TrackerResult.optimized_routes].
    rewrite <- Hsources.
    assert (Heq : flat_map (fun r : route =>
                              map (@OptimizedPickup.source_location num)
                                  (RouteOptimization.pickups r)) rs
                  = map (fun id => source_of candidates id) (route_ids rs)).
    { clear Hrs Hperm. induction Hkeep as [|r rs' Hr _ IH]; [reflexivity|].
      cbn [flat_map]. unfold route_ids. cbn [flat_map]. rewrite map_app.
      fold (route_ids rs'). rewrite <- IH. f_equal.
      unfold ids. rewrite map_map. apply map_ext_in. intros p Hp.
      rewrite Forall_forall in Hr. symmetry. now apply Hr. }
    rewrite Heq, (Permutation_map _ Hperm).
    unfold ids. rewrite map_map.
    erewrite map_ext_in; [reflexivity|].
    intros c Hc. now apply source_of_candidate.
Qed.
End TrackerCoverage.

Section TrackerFailure.
Context {num : Type} `{JSNumber num}.
Variable host : Host num.
Variable pickup_data : list (PickupOperation.t num).
Variable external_data : list (ExternalFactor.t num).

(** X10: [optimizePickups] throws, the [TypeError] of [reduce]
    on an empty array of routes, exactly when there is no driver but at
    least one location; without drivers and without locations it returns a
    result with no route. *)
Theorem optimizePickups_fails_only_without_driver (clock : nat -> string)
    (input : PickupOptimizationInput.t num) :
  TrackerService.optimizePickups host pickup_data external_data clock input = None
  <-> PickupOptimizationInput.available_drivers input = []
      /\ PickupOptimizationInput.available_locations input <> [].
Proof.
  destruct (candidates_spec host pickup_data external_data input) as [Hlen Hnd].
  cbv zeta in Hlen, Hnd.
  unfold TrackerService.optimizePickups. cbv zeta.
  set (candidates := TrackerService.generatePickupSuggestions _ _ _ _) in *.
  destruct (PickupOptimizationInput.available_drivers input) as [|d ds] eqn:Ed.
  - unfold TrackerService.optimizeRoutes.
    cbn [TrackerService.assign_drivers].
    destruct candidates as [|c cs].
    + cbn [fold_left]. split; [discriminate|].
      intros [_ Hloc]. exfalso. apply Hloc.
      destruct (PickupOptimizationInput.available_locations input); [reflexivity|].
      discriminate Hlen.
    + cbn [fold_left TrackerService.append_leftover].
      rewrite fold_append_leftover_none. split; [|reflexivity].
      intros _. split; [reflexivity|]. intros Hloc. rewrite Hloc in Hlen.
      discriminate Hlen.
  - destruct (@optimizeRoutes_perm num _ clock candidates (d :: ds)
                ltac:(discriminate) Hnd) as (rs & Hrs & _).
    rewrite Hrs. split; [discriminate|]. intros [Hd _]. discriminate Hd.
Qed.
End TrackerFailure.

Lemma optimizePickups_books_in_order_witness :
  exists result,
    TrackerService.optimizePickups (num := float) utc_host [] []
      (fun _ => "1717372800000")
      (pickup_request ["Cafeteria"; "Market"; "Grocery"; "Bakery"; "Diner"] ["Ann"])
    = Some result
    /\ Forall (fun r =>
                 Forall (fun p => OptimizedPickup.driver_assignment p
                                  = RouteOptimization.driver r)
                        (RouteOptimization.pickups r)
                 /\ RouteOptimization.total_volume r
                    = sum_by (@OptimizedPickup.estimated_volume float)
                             (RouteOptimization.pickups r)
                 /\ RouteOptimization.total_time r
                    = sum_by (@OptimizedPickup.estimated_duration float)
                             (RouteOptimization.pickups r)
                 /\ RouteOptimization.total_cost r
                    = sum_by (@OptimizedPickup.transport_cost float)
                             (RouteOptimization.pickups r))
              (TrackerResult.optimized_routes result).
Proof.
  destruct (TrackerService.optimizePickups (num := float) utc_host [] []
              (fun _ => "1717372800000")
              (pickup_request ["Cafeteria"; "Market"; "Grocery"; "Bakery"; "Diner"] ["Ann"]))
    as [result|] eqn:E.
  - exists result. split; [reflexivity|].
    exact (optimizePickups_books_in_order _ _ _ _ _ E).
  - vm_compute in E. discriminate E.
Defined.

Lemma optimizePickups_locations_prefix_witness :
  exists result,
    TrackerService.optimizePickups (num := float) utc_host [] []
      (fun _ => "1717372800000")
      (pickup_request ["Cafeteria"; "Market"; "Grocery"; "Bakery"; "Diner"] ["Ann"])
    = Some result
    /\ Forall (fun r =>
                 exists later,
                   map (@OptimizedPickup.source_location float)
                       (RouteOptimization.pickups r)
                   = RouteOptimization.locations r ++ later)
              (TrackerResult.optimized_routes result).
Proof.
  destruct (TrackerService.optimizePickups (num := float) utc_host [] []
              (fun _ => "1717372800000")
              (pickup_request ["Cafeteria"; "Market"; "Grocery"; "Bakery"; "Diner"] ["Ann"]))
    as [result|] eqn:E.
  - exists result. split; [reflexivity|].
    exact (optimizePickups_locations_prefix _ _ _ _ _ E).
  - vm_compute in E. discriminate E.
Defined.

Lemma optimizePickups_drivers_in_order_witness :
  exists result,
    TrackerService.optimizePickups (num := float) utc_host [] []
      (fun _ => "1717372800000")
      (pickup_request ["Cafeteria"; "Market"; "Grocery"; "Bakery"; "Diner"]
                      ["Ann"; "Bo"; "Cy"])
    = Some result
    /\ map (@RouteOptimization.driver float) (TrackerResult.optimized_routes result)
       = firstn (List.length (TrackerResult.optimized_routes result)) ["Ann"; "Bo"; "Cy"].
Proof.
  destruct (TrackerService.optimizePickups (num := float) utc_host [] []
              (fun _ => "1717372800000")
              (pickup_request ["Cafeteria"; "Market"; "Grocery"; "Bakery"; "Diner"]
                              ["Ann"; "Bo"; "Cy"]))
    as [result|] eqn:E.
  - exists result. split; [reflexivity|].
    exact (optimizePickups_drivers_in_order _ _ _ _ _ E).
  - vm_compute in E. discriminate E.
Defined.

Lemma optimizePickups_serves_every_location_witness :
  exists result,
    TrackerService.optimizePickups (num := float) utc_host [] []
      (fun _ => "1717372800000")
      (pickup_request ["Cafeteria"; "Market"; "Cafeteria"] ["Ann"])
    = Some result
    /\ Permutation
         (flat_map (fun r => map (@OptimizedPickup.source_location float)
                                 (RouteOptimization.pickups r))
                   (TrackerResult.optimized_routes result))
         ["Cafeteria"; "Market"; "Cafeteria"].
Proof.
  apply (optimizePickups_serves_every_location (num := float) utc_host [] []
           (fun _ => "1717372800000")
           (pickup_request ["Cafeteria"; "Market"; "Cafeteria"] ["Ann"])).
  discriminate.
Defined.
(* ================================================================== *)
(** * Clamps on doubles *)
(* ================================================================== *)

Lemma float_ltb_leb (a b : float) : PrimFloat.ltb a b = true -> PrimFloat.leb a b = true.
Proof.
  rewrite ltb_spec, leb_spec. unfold SFltb, SFleb.
  destruct (SFcompare (Prim2SF a) (Prim2SF b)) as [[ | | ]|]; intros Hlt;
    try discriminate; reflexivity.
Qed.

Lemma float_leb_refl (a : float) : isNaN a = false -> PrimFloat.leb a a = true.
Proof.
  unfold isNaN. rewrite negb_false_iff.
  change (neqb a a) with (PrimFloat.eqb a a).
  rewrite eqb_spec, leb_spec. unfold SFeqb, SFleb.
  destruct (SFcompare (Prim2SF a) (Prim2SF a)) as [[ | | ]|]; intros Heq;
    try discriminate; reflexivity.
Qed.

Lemma float_leb_not_NaN (a b : float) :
  PrimFloat.leb a b = true -> isNaN a = false /\ isNaN b = false.
Proof.
  unfold isNaN. rewrite !negb_false_iff.
  change (neqb a a) with (PrimFloat.eqb a a).
  change (neqb b b) with (PrimFloat.eqb b b).
  rewrite leb_spec, !eqb_spec. unfold SFleb, SFeqb.
  destruct (Prim2SF a) as [sa|sa| |sa ma ea], (Prim2SF b) as [sb|sb| |sb mb eb];
    cbn [SFcompare]; try discriminate; intros _;
    try (destruct sa); try (destruct sb); try (split; reflexivity);
    rewrite ?Z.compare_refl, ?Pos.compare_refl, ?Pos.compare_cont_refl;
    cbn; rewrite ?Pos.compare_refl, ?Pos.compare_cont_refl; split; reflexivity.
Qed.

(** [Math.max(lo, Math.min(hi, x))] on doubles: NaN for NaN, and otherwise
    within the bounds. *)
Lemma float_clamp (lo hi x : float) :
  PrimFloat.leb lo hi = true ->
  NaN_or_within lo hi (Math_max lo (Math_min hi x)).
Proof.
  intros Hle. destruct (float_leb_not_NaN Hle) as [Hlo Hhi].
  unfold NaN_or_within, Math_max, Math_min. rewrite Hlo, Hhi.
  destruct (isNaN x) eqn:Hx; [rewrite Hx; now left|].
  right. change (@nltb float _) with PrimFloat.ltb. change (@nleb float _) with PrimFloat.leb.
  destruct (PrimFloat.ltb x hi) eqn:Hxh.
  - rewrite Hx. destruct (PrimFloat.ltb lo x) eqn:Hlx.
    + split; now apply float_ltb_leb.
    + split; [now apply float_leb_refl|exact Hle].
  - rewrite Hhi. destruct (PrimFloat.ltb lo hi) eqn:Hlh.
    + split; [exact Hle|now apply float_leb_refl].
    + split; [now apply float_leb_refl|exact Hle].
Qed.

Lemma float_max_lower (lo y : float) :
  isNaN lo = false ->
  isNaN (Math_max lo y) = true \/ PrimFloat.leb lo (Math_max lo y) = true.
Proof.
  intros Hlo. unfold Math_max. rewrite Hlo.
  destruct (isNaN y) eqn:Hy; [left; exact Hy|].
  right. change (@nltb float _) with PrimFloat.ltb.
  destruct (PrimFloat.ltb lo y) eqn:Hly.
  - now apply float_ltb_leb.
  - now apply float_leb_refl.
Qed.

(** X11: on the factor path of [ForecastService.predict]
    (at least 3 rows of the item) the predicted percentage is NaN or lies
    in [1, 50], and the potential savings are NaN or not negative. *)
Theorem ForecastService_predict_clamped
    (host : Host float) (production_data : list (DailyProduction.t float))
    (input : ForecastInput.t float) :
  (3 <= List.length (ForecastModel.getMenuItemData production_data
                       (ForecastInput.menu_item input)))%nat ->
  let r := ForecastService.predict host production_data input in
  NaN_or_within (lit 1 0) (lit 50 0) (ForecastResult.predicted_waste_percentage r)
  /\ (isNaN (ForecastResult.potential_savings r) = true
      \/ (lit 0 0 <=? ForecastResult.potential_savings r)%js = true).
Proof.
  intros Hrows. cbv zeta. unfold ForecastService.predict. cbv zeta.
  unfold ForecastModel.getMenuItemData in Hrows.
  apply Nat.ltb_ge in Hrows. rewrite Hrows.
  cbn [ForecastResult.predicted_waste_percentage ForecastResult.potential_savings].
  split.
  - apply float_clamp. reflexivity.
  - apply float_max_lower. reflexivity.
Qed.

Lemma ForecastService_predict_clamped_witness :
  let r := ForecastService.predict (num := float) utc_host stew_history stew_request in
  NaN_or_within (lit 1 0) (lit 50 0) (ForecastResult.predicted_waste_percentage r)
  /\ (isNaN (ForecastResult.potential_savings r) = true
      \/ (lit 0 0 <=? ForecastResult.potential_savings r)%js = true).
Proof.
  apply ForecastService_predict_clamped. vm_compute. lia.
Defined.

(** X12: on the regression path of [ForecastModel.predict]
    (at least 5 rows of the item) the predicted percentage is NaN or lies
    in [0, 100], and the lower end of the confidence interval and the
    potential savings are NaN or not negative. *)
Theorem ForecastModel_predict_clamped
    (host : Host float) (production_data : list (DailyProduction.t float))
    (external_data : list (ExternalFactor.t float)) (cache cache' : ForecastModel.Cache)
    (input : ForecastInput.t float) (r : ForecastResult.t float) :
  (5 <= List.length (ForecastModel.getMenuItemData production_data
                       (ForecastInput.menu_item input)))%nat ->
  ForecastModel.predict host production_data external_data cache input = Some (r, cache') ->
  NaN_or_within (lit 0 0) (lit 100 0) (ForecastResult.predicted_waste_percentage r)
  /\ (isNaN (Interval.lower (ForecastResult.confidence_interval r)) = true
      \/ (lit 0 0 <=? Interval.lower (ForecastResult.confidence_interval r))%js = true)
  /\ (isNaN (ForecastResult.potential_savings r) = true
      \/ (lit 0 0 <=? ForecastResult.potential_savings r)%js = true).
Proof.
  intros Hrows. unfold ForecastModel.predict. cbv zeta.
  apply Nat.ltb_ge in Hrows. rewrite Hrows.
  destruct (ForecastModel.getOrTrainModel _ _ _ cache _) as [[model cache1]|];
    [|discriminate].
  destruct (ForecastModel.getOrTrainModel _ _ _ cache1 _) as [[model_ci cache2]|];
    [|discriminate].
  intros [= <- _].
  cbn [ForecastResult.predicted_waste_percentage ForecastResult.potential_savings
       ForecastResult.confidence_interval Interval.lower].
  split; [|split].
  - unfold ForecastModel.predictWastePercentage. cbv zeta.
    apply float_clamp. reflexivity.
  - apply float_max_lower. reflexivity.
  - apply float_max_lower. reflexivity.
Qed.

Lemma ForecastModel_predict_clamped_witness :
  exists r cache',
    ForecastModel.predict (num := float) utc_host stew_history stew_external [] stew_request
    = Some (r, cache')
    /\ NaN_or_within (lit 0 0) (lit 100 0) (ForecastResult.predicted_waste_percentage r).
Proof.
  destruct (ForecastModel.predict (num := float) utc_host stew_history stew_external []
              stew_request) as [[r cache']|] eqn:E.
  - exists r, cache'. split; [reflexivity|].
    refine (proj1 (@ForecastModel_predict_clamped utc_host stew_history stew_external
                     [] cache' stew_request r _ E)).
    vm_compute. lia.
  - vm_compute in E. discriminate E.
Defined.

(** X13: each of the eight trend multipliers of the
    impact projection is NaN or lies in [0.8, 1.3]: the defaults for an
    empty window, 1 for an older average of 0, and the clamped ratio
    otherwise. *)
Theorem calculateTrendMultipliers_within_bounds
    (impact_data : list (ImpactTracking.t float)) :
  Forall (NaN_or_within (lit 8 1) (lit 13 1))
         (trend_multipliers (ImpactService.calculateTrendMultipliers impact_data)).
Proof.
  assert (Hratio : forall recent older : float,
             NaN_or_within (lit 8 1) (lit 13 1)
               (ImpactService.calculateTrendRatio recent older)).
  { intros recent older. unfold ImpactService.calculateTrendRatio.
    destruct (neqb older (lit 0 0)).
    - right. split; vm_compute; reflexivity.
    - cbv zeta. apply float_clamp. reflexivity. }
  unfold ImpactService.calculateTrendMultipliers. cbv zeta.
  destruct (_ || _)%bool; unfold trend_multipliers;
    cbn [TrendMultipliers.food_rescued TrendMultipliers.meals TrendMultipliers.co2
         TrendMultipliers.money TrendMultipliers.waste_cost TrendMultipliers.volunteer
         TrendMultipliers.operational TrendMultipliers.community].
  - repeat constructor; vm_compute; reflexivity.
  - repeat (constructor; [apply Hratio|]). constructor.
Qed.
(* ================================================================== *)
(** * Regression and correlation in exact arithmetic *)
(* ================================================================== *)

Section ExactFits.
Local Open Scope R_scope.

Local Abbreviation sq x := (map (fun v : R => v * v) x).

Lemma total_affine (a b : R) (x : list R) :
  total (map (fun v => a * v + b) x) = a * total x + INR (List.length x) * b.
Proof.
  induction x as [|v x IH]; [simpl; ring|].
  cbn [map total List.length]. rewrite IH, S_INR. ring.
Qed.

Lemma total_affine_squares (a b : R) (x : list R) :
  total (sq (map (fun v => a * v + b) x))
  = a * a * total (sq x) + 2 * a * b * total x + INR (List.length x) * (b * b).
Proof.
  induction x as [|v x IH]; [simpl; ring|].
  cbn [map total List.length]. cbn [map] in IH. rewrite IH, S_INR. ring.
Qed.

Lemma total_affine_products (a b : R) (x : list R) :
  total (map (fun p => fst p * snd p) (combine x (map (fun v => a * v + b) x)))
  = a * total (sq x) + b * total x.
Proof.
  induction x as [|v x IH]; [simpl; ring|].
  cbn [map combine total fst snd]. rewrite IH. ring.
Qed.

Lemma centred_squares (n p : R) (x : list R) :
  total (map (fun v => (n * v - p) * (n * v - p)) x)
  = n * n * total (sq x) - 2 * n * p * total x + INR (List.length x) * (p * p).
Proof.
  induction x as [|v x IH]; [simpl; ring|].
  cbn [map total List.length]. rewrite IH, S_INR. ring.
Qed.

Lemma total_zero_squares {A : Type} (g : A -> R) (l : list A) :
  total (map (fun v => g v * g v) l) = 0 -> forall v, In v l -> g v = 0.
Proof.
  induction l as [|u l IH]; intros Hz v Hv; [contradiction|].
  cbn [map total] in Hz.
  pose proof (total_squares_nonneg g l) as Hl.
  pose proof (Rle_0_sqr (g u)) as Hu. unfold Rsqr in Hu.
  destruct Hv as [<-|Hv].
  - assert (Hsq : g u * g u = 0) by lra.
    apply Rmult_integral in Hsq. tauto.
  - apply IH; [lra|exact Hv].
Qed.

(** The spread [n * sum x^2 - (sum x)^2] of a sample: never negative, and
    positive when the sample holds two different values. *)
Lemma spread_nonneg (x : list R) :
  0 <= INR (List.length x) * total (sq x) - total x * total x.
Proof.
  pose proof (total_squares_nonneg (fun v => INR (List.length x) * v - total x) x) as Hq.
  cbv beta in Hq. rewrite centred_squares in Hq.
  destruct x as [|v x]; [simpl; lra|].
  assert (Hn : 0 < INR (List.length (v :: x))).
  { cbn [List.length]. rewrite S_INR. pose proof (pos_INR (List.length x)). lra. }
  set (n := INR (List.length (v :: x))) in *.
  set (S1 := total (v :: x)) in *. set (S2 := total (sq (v :: x))) in *.
  assert (Heq : n * n * S2 - 2 * n * S1 * S1 + n * (S1 * S1) = n * (n * S2 - S1 * S1))
    by ring.
  rewrite Heq in Hq.
  destruct (Rle_lt_dec 0 (n * S2 - S1 * S1)) as [|Hneg]; [assumption|].
  exfalso. assert (n * (n * S2 - S1 * S1) < 0) by nra. lra.
Qed.

Lemma spread_positive (x : list R) (u v : R) :
  In u x -> In v x -> u <> v ->
  0 < INR (List.length x) * total (sq x) - total x * total x.
Proof.
  intros Hu Hv Huv.
  pose proof (spread_nonneg x) as Hge.
  destruct (Req_dec (INR (List.length x) * total (sq x) - total x * total x) 0)
    as [Hz|Hnz]; [|lra].
  exfalso.
  assert (Hn : 0 < INR (List.length x)).
  { destruct x; [contradiction|]. cbn [List.length]. rewrite S_INR.
    pose proof (pos_INR (List.length x)). lra. }
  assert (Hall : forall w, In w x -> INR (List.length x) * w - total x = 0).
  { apply (total_zero_squares (fun w => INR (List.length x) * w - total x)).
    rewrite centred_squares.
    replace (INR (List.length x) * INR (List.length x) * total (sq x)
             - 2 * INR (List.length x) * total x * total x
             + INR (List.length x) * (total x * total x))
      with (INR (List.length x)
            * (INR (List.length x) * total (sq x) - total x * total x)) by ring.
    rewrite Hz. ring. }
  apply Huv. pose proof (Hall u Hu) as H1. pose proof (Hall v Hv) as H2.
  apply (Rmult_eq_reg_l (INR (List.length x))); lra.
Qed.

Lemma num_of_nat_INR (n : nat) : num_of_nat (num := R) n = INR n.
Proof. unfold num_of_nat. simpl. now rewrite INR_IZR_INZ. Qed.

(** X14: on points of the line [y = a x + b] whose
    abscissas are not all equal, [linearRegression] returns the slope [a]
    and the intercept [b], and [r2 = 1] when [a] is not 0. *)
Theorem linearRegression_recovers_line (x : list R) (a b u v : R) :
  In u x -> In v x -> u <> v ->
  let fit := StatisticsTools.linearRegression x (map (fun w => a * w + b) x) in
  StatisticsTools.slope fit = a
  /\ StatisticsTools.intercept fit = b
  /\ (a <> 0 -> StatisticsTools.r2 fit = 1).
Proof.
  intros Hu Hv Huv. cbv zeta.
  pose proof (spread_positive x Hu Hv Huv) as Hspread.
  assert (Hn : 0 < INR (List.length x)).
  { destruct x; [contradiction|]. cbn [List.length]. rewrite S_INR.
    pose proof (pos_INR (List.length x)). lra. }
  unfold StatisticsTools.linearRegression. cbv zeta.
  cbn [StatisticsTools.slope StatisticsTools.intercept StatisticsTools.r2].
  rewrite num_of_nat_INR, !sum_total, sum_squares_total,
    (sum_products_total x _ _ (eq_sym (length_map _ x))),
    total_affine, total_affine_products.
  set (n := INR (List.length x)) in *.
  set (S1 := total x) in *. set (S2 := total (sq x)) in *.
  cbn [nadd nsub nmul ndiv num_of_Z R_JSNumber].
  assert (Hslope : (n * (0 + (a * S2 + b * S1)) - S1 * (a * S1 + n * b))
                   / (n * S2 - S1 * S1) = a) by (field; lra).
  rewrite Hslope.
  assert (Hintercept : (a * S1 + n * b - a * S1) / n = b) by (field; lra).
  rewrite Hintercept.
  split; [reflexivity|split; [reflexivity|]]. intros _.
  assert (Hres : forall (l : list R) (acc : R),
             StatisticsTools.residual_squares a b acc l (map (fun w => a * w + b) l)
             = acc).
  { induction l as [|w l IH]; intros acc; [reflexivity|].
    cbn [map StatisticsTools.residual_squares]. rewrite IH.
    unfold Statistics.square. cbn [nadd nsub nmul R_JSNumber].
    replace (acc + (a * w + b - (a * w + b)) * (a * w + b - (a * w + b))) with acc by ring.
    reflexivity. }
  rewrite Hres. unfold Rdiv. ring.
Qed.

Lemma correlation_of_affine (x : list R) (a b : R) :
  let A := INR (List.length x) * total (sq x) - total x * total x in
  Statistics.correlation_numerator x (map (fun w => a * w + b) x) = a * A
  /\ Statistics.correlation_denominator x (map (fun w => a * w + b) x) = Rabs a * A.
Proof.
  cbv zeta. pose proof (spread_nonneg x) as HA.
  unfold Statistics.correlation_numerator, Statistics.correlation_denominator.
  cbv zeta.
  rewrite num_of_nat_INR, !sum_total, !sum_squares_total,
    (sum_products_total x _ _ (eq_sym (length_map _ x))),
    total_affine, total_affine_products, total_affine_squares.
  cbn [nadd nsub nmul ndiv num_of_Z Math_sqrt R_JSNumber].
  set (n := INR (List.length x)) in *.
  set (S1 := total x) in *. set (S2 := total (sq x)) in *.
  split; [ring|].
  replace ((n * S2 - S1 * S1)
           * (n * (a * a * S2 + 2 * a * b * S1 + n * (b * b))
              - (a * S1 + n * b) * (a * S1 + n * b)))
    with (Rsqr (Rabs a * (n * S2 - S1 * S1))).
  - apply sqrt_Rsqr. apply Rmult_le_pos; [apply Rabs_pos|exact HA].
  - unfold Rsqr.
    replace (Rabs a * (n * S2 - S1 * S1) * (Rabs a * (n * S2 - S1 * S1)))
      with ((Rabs a * Rabs a) * ((n * S2 - S1 * S1) * (n * S2 - S1 * S1))) by ring.
    replace (Rabs a * Rabs a) with (a * a)
      by (rewrite <- Rabs_mult; symmetry; apply Rabs_pos_eq; apply Rle_0_sqr).
    ring.
Qed.

(** X15: in exact arithmetic, a sample that is not
    constant correlates with an increasing affine image of itself by 1 and
    with a decreasing one by -1. *)
Theorem correlation_of_line (x : list R) (a b u v : R) :
  In u x -> In v x -> u <> v ->
  (0 < a -> Statistics.correlation x (map (fun w => a * w + b) x) = 1)
  /\ (a < 0 -> Statistics.correlation x (map (fun w => a * w + b) x) = -1).
Proof.
  intros Hu Hv Huv.
  pose proof (spread_positive x Hu Hv Huv) as HA.
  destruct (correlation_of_affine x a b) as [Hnum Hden]. cbv zeta in Hnum, Hden.
  unfold Statistics.correlation. cbv zeta. rewrite Hnum, Hden.
  set (A := INR (List.length x) * total (sq x) - total x * total x) in *.
  cbn [neqb ndiv num_of_Z R_JSNumber]. unfold Reqb.
  split; intros Ha.
  - rewrite Rabs_pos_eq by lra.
    destruct (Req_dec_T (a * A) 0) as [Hz|_]; [exfalso; nra|]. field. lra.
  - rewrite <- Rabs_Ropp, Rabs_pos_eq by lra.
    destruct (Req_dec_T (- a * A) 0) as [Hz|_]; [exfalso; nra|]. field. lra.
Qed.

(** X16: in exact arithmetic the correlation of a constant
    sample with any sample of its length is 0: the denominator is 0 and the
    guard answers. *)
Theorem correlation_of_constant (x y : list R) (c : R) :
  (forall w, In w x -> w = c) ->
  List.length x = List.length y ->
  Statistics.correlation x y = 0 /\ Statistics.correlation y x = 0.
Proof.
  intros Hconst Hlen.
  assert (Hx : x = map (fun w => 0 * w + c) y).
  { clear - Hconst Hlen. revert y Hlen.
    induction x as [|w x IH]; intros [|w' y] Hlen; try discriminate; [reflexivity|].
    cbn [map]. rewrite (Hconst w) by now left. f_equal; [ring|].
    apply IH; [|now injection Hlen]. intros w0 Hw0. apply Hconst. now right. }
  destruct (correlation_of_affine y 0 c) as [Hnum Hden]. cbv zeta in Hden.
  rewrite <- Hx, Rabs_R0, Rmult_0_l in Hden.
  assert (Hden' : Statistics.correlation_denominator x y = 0).
  { unfold Statistics.correlation_denominator in Hden |- *. cbv zeta in Hden |- *.
    rewrite <- Hlen in Hden. rewrite <- Hden. f_equal.
    cbn [nmul R_JSNumber]. ring. }
  unfold Statistics.correlation. cbv zeta. rewrite Hden, Hden'.
  cbn [neqb num_of_Z R_JSNumber]. unfold Reqb.
  destruct (Req_dec_T 0 0) as [_|Hne]; [split; reflexivity|contradiction].
Qed.

Lemma correlation_exact_range (x y : list R) :
  List.length x = List.length y -> -1 <= Statistics.correlation x y <= 1.
Proof.
  intros Hlen.
  destruct (Req_dec (Statistics.correlation_denominator x y) 0) as [Hz|Hnz];
    [|now apply correlation_exact_bound].
  unfold Statistics.correlation. cbv zeta. rewrite Hz.
  cbn [neqb num_of_Z R_JSNumber]. unfold Reqb.
  destruct (Req_dec_T 0 0) as [_|Hne]; [lra|contradiction].
Qed.

Lemma influence_range (x y : list R) :
  List.length x = List.length y ->
  0 <= nmul (Math_abs (Statistics.correlation x y)) (lit 100 0) <= 100.
Proof.
  intros Hlen. pose proof (correlation_exact_range x y Hlen) as Hc.
  cbn [nmul Math_abs lit num_of_Z R_JSNumber].
  pose proof (Rabs_pos (Statistics.correlation x y)) as H0.
  assert (H1 : Rabs (Statistics.correlation x y) <= 1) by (apply Rabs_le; lra).
  lra.
Qed.

End ExactFits.

Lemma linearRegression_recovers_line_witness :
  (let fit :=
     StatisticsTools.linearRegression (num := R) [1; 2; 4]
       (map (fun w => 3 * w + 1) [1; 2; 4]) in
   StatisticsTools.slope fit = 3
   /\ StatisticsTools.intercept fit = 1
   /\ (3 <> 0 -> StatisticsTools.r2 fit = 1))%R.
Proof.
  apply (@linearRegression_recovers_line [1; 2; 4] 3 1 1 2)%R.
  - now left.
  - right. now left.
  - lra.
Defined.

Lemma correlation_of_line_witness :
  (Statistics.correlation (num := R) [1; 2; 4] (map (fun w => 3 * w + 1) [1; 2; 4]) = 1)%R
  /\ (Statistics.correlation (num := R) [1; 2; 4] (map (fun w => -2 * w + 5) [1; 2; 4])
      = -1)%R.
Proof.
  split.
  - apply (@correlation_of_line [1; 2; 4] 3 1 1 2)%R; [now left|right; now left|lra|lra].
  - apply (@correlation_of_line [1; 2; 4] (-2) 5 1 2)%R; [now left|right; now left|lra|lra].
Defined.

Lemma correlation_of_constant_witness :
  (Statistics.correlation (num := R) [3; 3; 3] [1; 2; 4] = 0
   /\ Statistics.correlation (num := R) [1; 2; 4] [3; 3; 3] = 0)%R.
Proof.
  apply (@correlation_of_constant [3; 3; 3] [1; 2; 4] 3)%R; [|reflexivity].
  intros w [<-|[<-|[<-|[]]]]; reflexivity.
Defined.

(* ================================================================== *)
(** * The CSV upload helpers *)
(* ================================================================== *)

Section EditDistance.

Lemma edit_distance_nil_r (a : list ascii) : edit_distance a [] = List.length a.
Proof. now destruct a. Qed.

Lemma edit_distance_cons (x y : ascii) (a b : list ascii) :
  edit_distance (x :: a) (y :: b)
  = Nat.min (edit_distance a (y :: b) + 1)
            (Nat.min (edit_distance (x :: a) b + 1)
                     (edit_distance a b + if Ascii.eqb x y then 0 else 1)).
Proof. reflexivity. Qed.

Lemma edit_distance_refl (a : list ascii) : edit_distance a a = 0%nat.
Proof.
  induction a as [|x a IH]; [reflexivity|].
  rewrite edit_distance_cons, IH, Ascii.eqb_refl. lia.
Qed.

Lemma edit_distance_zero (a : list ascii) :
  forall b : list ascii, edit_distance a b = 0%nat -> a = b.
Proof.
  induction a as [|x a IH]; intros b Hz.
  - destruct b; [reflexivity|discriminate].
  - destruct b as [|y b]; [discriminate|].
    rewrite edit_distance_cons in Hz.
    destruct (Ascii.eqb x y) eqn:E.
    + apply Ascii.eqb_eq in E. subst y. f_equal. apply IH. lia.
    + lia.
Qed.

Lemma edit_distance_sym (a : list ascii) :
  forall b : list ascii, edit_distance a b = edit_distance b a.
Proof.
  induction a as [|x a IHa]; intros b.
  - now rewrite edit_distance_nil_r.
  - induction b as [|y b IHb]; [reflexivity|].
    rewrite !edit_distance_cons, IHb, (IHa (y :: b)), (IHa b), (Ascii.eqb_sym x y).
    lia.
Qed.

Lemma edit_distance_bounds (a : list ascii) :
  forall b : list ascii,
    (List.length a - List.length b <= edit_distance a b)%nat
    /\ (List.length b - List.length a <= edit_distance a b)%nat
    /\ (edit_distance a b <= Nat.max (List.length a) (List.length b))%nat.
Proof.
  induction a as [|x a IHa]; intros b.
  - cbn [edit_distance List.length]. lia.
  - induction b as [|y b IHb]; [cbn [edit_distance List.length]; lia|].
    rewrite edit_distance_cons.
    pose proof (IHa (y :: b)) as H1. pose proof (IHa b) as H2.
    cbn [List.length] in *.
    destruct (Ascii.eqb x y); lia.
Qed.
End EditDistance.

Section Levenshtein.

Lemma distance_row_start (todo : string) :
  forall done : list ascii,
    distance_row done todo [] = seq (List.length done) (S (String.length todo)).
Proof.
  induction todo as [|c t IH]; intros done; cbn [distance_row rev String.length seq].
  - now rewrite edit_distance_nil_r, length_rev.
  - rewrite edit_distance_nil_r, length_rev, IH, length_app. cbn [List.length].
    now rewrite Nat.add_1_r.
Qed.

Lemma distance_row_last (todo : string) :
  forall (done p : list ascii),
    nth (String.length todo) (distance_row done todo p) 0%nat
    = edit_distance (rev (done ++ list_ascii_of_string todo)) (rev p).
Proof.
  induction todo as [|c t IH]; intros done p;
    cbn [distance_row String.length nth list_ascii_of_string].
  - now rewrite app_nil_r.
  - rewrite IH. now rewrite <- app_assoc.
Qed.

Lemma fill_row_spec (c2 : ascii) (todo : string) :
  forall (done p : list ascii),
    edit_distance (rev done) (rev (p ++ [c2]))
    :: UploadService.fill_row c2 todo (distance_row done todo p)
         (edit_distance (rev done) (rev (p ++ [c2])))
    = distance_row done todo (p ++ [c2]).
Proof.
  induction todo as [|c1 t IH]; intros done p; [reflexivity|].
  cbn [distance_row UploadService.fill_row].
  destruct t as [|c t'] eqn:Et.
  - cbn [distance_row UploadService.fill_row]. f_equal. f_equal.
    rewrite !rev_unit, edit_distance_cons. reflexivity.
  - rewrite <- Et in *.
    assert (Hrow : distance_row (done ++ [c1]) t p
                   = edit_distance (rev (done ++ [c1])) (rev p)
                     :: match t with
                        | EmptyString => []
                        | String c t0 => distance_row ((done ++ [c1]) ++ [c]) t0 p
                        end) by (destruct t; reflexivity).
    rewrite Hrow. cbv zeta. f_equal.
    assert (Hcell : Nat.min (edit_distance (rev done) (rev (p ++ [c2])) + 1)
                            (Nat.min (edit_distance (rev (done ++ [c1])) (rev p) + 1)
                                     (edit_distance (rev done) (rev p)
                                      + if Ascii.eqb c1 c2 then 0 else 1))
                    = edit_distance (rev (done ++ [c1])) (rev (p ++ [c2]))).
    { rewrite !rev_unit, edit_distance_cons. reflexivity. }
    rewrite Hcell, <- Hrow. apply IH.
Qed.

Lemma fill_rows_spec (str1 str2 : string) :
  forall p : list ascii,
    UploadService.fill_rows str1 str2 (List.length p) (distance_row [] str1 p)
    = distance_row [] str1 (p ++ list_ascii_of_string str2).
Proof.
  induction str2 as [|c2 t IH]; intros p;
    cbn [UploadService.fill_rows list_ascii_of_string].
  - now rewrite app_nil_r.
  - assert (Hfirst : S (List.length p) = edit_distance (rev []) (rev (p ++ [c2]))).
    { cbn [rev edit_distance]. rewrite length_rev, length_app. cbn [List.length]. lia. }
    rewrite Hfirst, fill_row_spec.
    replace (edit_distance (rev []) (rev (p ++ [c2]))) with (List.length (p ++ [c2]))
      by (rewrite <- Hfirst, length_app; cbn [List.length]; lia).
    rewrite IH, <- app_assoc. reflexivity.
Qed.

Lemma string_length_list (s : string) :
  List.length (list_ascii_of_string s) = String.length s.
Proof. induction s as [|c s IH]; [reflexivity|]. cbn. now rewrite IH. Qed.

Lemma list_ascii_of_string_inj (s t : string) :
  list_ascii_of_string s = list_ascii_of_string t -> s = t.
Proof.
  intros Heq. rewrite <- (string_of_list_ascii_of_string s),
                <- (string_of_list_ascii_of_string t). now rewrite Heq.
Qed.

(** The matrix computes the edit distance of the two strings. *)
Lemma levenshteinDistance_edit_distance (str1 str2 : string) :
  UploadService.levenshteinDistance str1 str2
  = edit_distance (rev (list_ascii_of_string str1)) (rev (list_ascii_of_string str2)).
Proof.
  unfold UploadService.levenshteinDistance.
  pose proof (fill_rows_spec str1 str2 []) as Hrows.
  rewrite distance_row_start in Hrows. cbn [List.length app] in Hrows.
  rewrite Hrows. apply (distance_row_last str1 []).
Qed.
End Levenshtein.

Lemma levenshtein_zero (str1 str2 : string) :
  UploadService.levenshteinDistance str1 str2 = 0%nat <-> str1 = str2.
Proof.
  rewrite levenshteinDistance_edit_distance. split.
  - intros Hz. apply edit_distance_zero in Hz.
    apply list_ascii_of_string_inj.
    rewrite <- (rev_involutive (list_ascii_of_string str1)), Hz.
    apply rev_involutive.
  - intros ->. apply edit_distance_refl.
Qed.

Lemma levenshtein_sym (str1 str2 : string) :
  UploadService.levenshteinDistance str1 str2
  = UploadService.levenshteinDistance str2 str1.
Proof.
  rewrite !levenshteinDistance_edit_distance. apply edit_distance_sym.
Qed.

Lemma levenshtein_upper (str1 str2 : string) :
  (UploadService.levenshteinDistance str1 str2
   <= Nat.max (String.length str1) (String.length str2))%nat.
Proof.
  rewrite levenshteinDistance_edit_distance.
  pose proof (edit_distance_bounds (rev (list_ascii_of_string str1))
                (rev (list_ascii_of_string str2))) as Hb.
  rewrite !length_rev, !string_length_list in Hb. apply Hb.
Qed.

(** X18: [levenshteinDistance] is 0 exactly for equal
    strings. *)
Theorem levenshteinDistance_zero_iff_equal (str1 str2 : string) :
  UploadService.levenshteinDistance str1 str2 = 0%nat <-> str1 = str2.
Proof. apply levenshtein_zero. Qed.

(** X19: [levenshteinDistance] does not depend on the
    order of its arguments. *)
Theorem levenshteinDistance_symmetric (str1 str2 : string) :
  UploadService.levenshteinDistance str1 str2
  = UploadService.levenshteinDistance str2 str1.
Proof. apply levenshtein_sym. Qed.

(** X20: [levenshteinDistance] is at least the difference
    of the two lengths and at most the greater length; against the empty
    string it is the length of the other string. *)
Theorem levenshteinDistance_bounds (str1 str2 : string) :
  (String.length str1 - String.length str2
   <= UploadService.levenshteinDistance str1 str2)%nat
  /\ (String.length str2 - String.length str1
      <= UploadService.levenshteinDistance str1 str2)%nat
  /\ (UploadService.levenshteinDistance str1 str2
      <= Nat.max (String.length str1) (String.length str2))%nat
  /\ UploadService.levenshteinDistance str1 EmptyString = String.length str1
  /\ UploadService.levenshteinDistance EmptyString str2 = String.length str2.
Proof.
  rewrite !levenshteinDistance_edit_distance.
  pose proof (edit_distance_bounds (rev (list_ascii_of_string str1))
                (rev (list_ascii_of_string str2))) as Hb.
  rewrite !length_rev, !string_length_list in Hb.
  repeat split; try apply Hb.
  - cbn [list_ascii_of_string rev]. now rewrite edit_distance_nil_r, length_rev,
                                      string_length_list.
  - cbn [list_ascii_of_string rev edit_distance].
    now rewrite length_rev, string_length_list.
Qed.

(** X21: [calculateSimilarity] does not depend on the
    order of its arguments. *)
Theorem calculateSimilarity_symmetric {num : Type} `{JSNumber num} (str1 str2 : string) :
  UploadService.calculateSimilarity (num := num) str1 str2
  = UploadService.calculateSimilarity str2 str1.
Proof.
  unfold UploadService.calculateSimilarity. cbv zeta.
  destruct (String.length str2 <? String.length str1)%nat eqn:E21;
    destruct (String.length str1 <? String.length str2)%nat eqn:E12;
    try reflexivity.
  - apply Nat.ltb_lt in E21, E12. lia.
  - apply Nat.ltb_ge in E21, E12.
    assert (Hlen : String.length str1 = String.length str2) by lia.
    rewrite Hlen, (levenshtein_sym str2 str1). reflexivity.
Qed.

(** X22: in exact arithmetic [calculateSimilarity] lies
    between 0 and 1, and it is 1 exactly for equal strings. *)
Theorem calculateSimilarity_range (str1 str2 : string) :
  (0 <= UploadService.calculateSimilarity (num := R) str1 str2 <= 1)%R
  /\ (UploadService.calculateSimilarity (num := R) str1 str2 = 1%R <-> str1 = str2).
Proof.
  unfold UploadService.calculateSimilarity. cbv zeta.
  set (longer := if (String.length str2 <? String.length str1)%nat then str1 else str2).
  set (shorter := if (String.length str2 <? String.length str1)%nat then str2 else str1).
  assert (Hsame : longer = shorter <-> str1 = str2).
  { unfold longer, shorter. destruct (_ <? _)%nat; split; congruence. }
  assert (Hlong : (String.length shorter <= String.length longer)%nat).
  { unfold longer, shorter.
    destruct (String.length str2 <? String.length str1)%nat eqn:E;
      [apply Nat.ltb_lt in E|apply Nat.ltb_ge in E]; lia. }
  destruct (String.length longer =? 0)%nat eqn:E0.
  - apply Nat.eqb_eq in E0. split; [simpl; lra|].
    split; [intros _|intros _; reflexivity].
    apply Hsame.
    destruct longer; [|discriminate E0]. destruct shorter; [reflexivity|].
    cbn [String.length] in Hlong. lia.
  - apply Nat.eqb_neq in E0.
    pose proof (levenshtein_upper longer shorter) as Hmax.
    rewrite Nat.max_l in Hmax by exact Hlong.
    set (d := UploadService.levenshteinDistance longer shorter) in *.
    set (L := String.length longer) in *.
    change ((0 <= (IZR (Z.of_nat L) - IZR (Z.of_nat d)) / IZR (Z.of_nat L) <= 1)%R
            /\ (((IZR (Z.of_nat L) - IZR (Z.of_nat d)) / IZR (Z.of_nat L))%R = 1%R
                <-> str1 = str2)).
    assert (HL : (0 < IZR (Z.of_nat L))%R) by (apply IZR_lt; lia).
    assert (Hd0 : (0 <= IZR (Z.of_nat d))%R) by (apply IZR_le; lia).
    assert (HdL : (IZR (Z.of_nat d) <= IZR (Z.of_nat L))%R) by (apply IZR_le; lia).
    split; [split|].
    + apply Rle_mult_inv_pos; lra.
    + apply (Rmult_le_reg_r (IZR (Z.of_nat L))); [exact HL|].
      unfold Rdiv. rewrite Rmult_assoc, Rinv_l by lra. lra.
    + rewrite <- Hsame, <- (levenshtein_zero longer shorter).
      fold d. split.
      * intros Heq.
        assert (Hz : IZR (Z.of_nat d) = 0%R).
        { apply (f_equal (fun v => (v * IZR (Z.of_nat L))%R)) in Heq.
          unfold Rdiv in Heq. rewrite Rmult_assoc, Rinv_l in Heq by lra. lra. }
        apply eq_IZR in Hz. lia.
      * intros ->. change (IZR (Z.of_nat 0)) with 0%R. field. lra.
Qed.

Section CsvLine.
Variable trim : string -> string.

Local Abbreviation quote := "034"%char.
Local Abbreviation comma := ","%char.

(** No double quote and no comma in [s]. *)
Local Abbreviation plain s :=
  (forallb (fun c => negb (Ascii.eqb c quote) && negb (Ascii.eqb c comma))
           (list_ascii_of_string s) = true).

Lemma append_assoc (a b c : string) :
  String.append (String.append a b) c = String.append a (String.append b c).
Proof. induction a as [|x a IH]; [reflexivity|]. cbn. now rewrite IH. Qed.

Lemma append_nil_r (a : string) : String.append a EmptyString = a.
Proof. induction a as [|x a IH]; [reflexivity|]. cbn. now rewrite IH. Qed.

Lemma parse_from_plain (s : string) :
  forall (rest current : string) (inQuotes : bool),
    plain s ->
    UploadService.parse_from trim (String.append s rest) current inQuotes
    = UploadService.parse_from trim rest (String.append current s) inQuotes.
Proof.
  induction s as [|c s IH]; intros rest current inQuotes Hs.
  - cbn [String.append]. now rewrite append_nil_r.
  - cbn [list_ascii_of_string forallb] in Hs.
    apply andb_prop in Hs. destruct Hs as [Hc Hs].
    apply andb_prop in Hc. destruct Hc as [Hq Hcm].
    apply negb_true_iff in Hq, Hcm.
    cbn [String.append UploadService.parse_from]. rewrite Hq, Hcm. cbn [andb].
    rewrite IH by exact Hs. now rewrite append_assoc.
Qed.

(** X23: a line made of fields joined by commas parses back
    into the fields, when no field holds a double quote or a comma and
    [trim] leaves every field as it is. *)
Theorem parseCSVLine_join (first : string) (others : list string) :
  Forall (fun field => plain field /\ trim field = field) (first :: others) ->
  UploadService.parseCSVLine trim (String.concat "," (first :: others))
  = first :: others.
Proof.
  unfold UploadService.parseCSVLine. revert first.
  induction others as [|second others IH]; intros first Hall.
  - inversion Hall as [|? ? [Hplain Htrim] _]; subst.
    cbn [String.concat].
    rewrite <- (append_nil_r first) at 1.
    rewrite parse_from_plain by exact Hplain.
    cbn [String.append UploadService.parse_from]. now rewrite Htrim.
  - inversion Hall as [|? ? [Hplain Htrim] Hrest]; subst.
    change (String.concat "," (first :: second :: others))
      with (String.append first (String.append "," (String.concat "," (second :: others)))).
    rewrite parse_from_plain by exact Hplain.
    cbn [String.append UploadService.parse_from Ascii.eqb Bool.eqb andb negb].
    rewrite Htrim. f_equal. now apply IH.
Qed.

(** X24: between a pair of double quotes commas do not split:
    a line that is one quoted text without further quotes is a single
    field, the text trimmed. *)
Theorem parseCSVLine_quoted (text : string) :
  forallb (fun c => negb (Ascii.eqb c quote)) (list_ascii_of_string text) = true ->
  UploadService.parseCSVLine trim
    (String quote (String.append text (String quote EmptyString)))
  = [trim text].
Proof.
  intros Htext. unfold UploadService.parseCSVLine.
  cbn [UploadService.parse_from Ascii.eqb Bool.eqb negb].
  assert (Hin : forall (s current : string),
             forallb (fun c => negb (Ascii.eqb c quote)) (list_ascii_of_string s) = true ->
             UploadService.parse_from trim (String.append s (String quote EmptyString))
               current true
             = [trim (String.append current s)]).
  { induction s as [|c s IH]; intros current Hs.
    - cbn [String.append UploadService.parse_from Ascii.eqb Bool.eqb negb].
      now rewrite append_nil_r.
    - cbn [list_ascii_of_string forallb] in Hs.
      apply andb_prop in Hs. destruct Hs as [Hq Hs]. apply negb_true_iff in Hq.
      cbn [String.append UploadService.parse_from]. rewrite Hq.
      cbn [negb andb]. rewrite andb_false_r.
      rewrite IH by exact Hs. now rewrite append_assoc. }
  now rewrite Hin.
Qed.
End CsvLine.

Lemma parseCSVLine_join_witness :
  UploadService.parseCSVLine ascii_trim "2024-06-03,Fried rice,40"
  = ["2024-06-03"; "Fried rice"; "40"].
Proof.
  apply (@parseCSVLine_join ascii_trim "2024-06-03" ["Fried rice"; "40"]).
  repeat constructor.
Defined.

Lemma parseCSVLine_quoted_witness :
  UploadService.parseCSVLine ascii_trim
    (String "034"%char (String.append " Rice, fried " (String "034"%char EmptyString)))
  = ["Rice, fried"].
Proof.
  apply (@parseCSVLine_quoted ascii_trim " Rice, fried "). reflexivity.
Defined.
(* ================================================================== *)
(** * The dashboard trends *)
(* ================================================================== *)

Lemma float_sub_NaN (x : float) : PrimFloat.sub x PrimFloat.nan = PrimFloat.nan.
Proof.
  apply Prim2SF_inj. rewrite sub_spec.
  change (Prim2SF PrimFloat.nan) with S754_nan.
  unfold SF64sub, SFsub. now destruct (Prim2SF x) as [[|]|[|]| |[|] m e].
Qed.

Lemma float_NaN_div (x : float) : PrimFloat.div PrimFloat.nan x = PrimFloat.nan.
Proof.
  apply Prim2SF_inj. rewrite div_spec.
  change (Prim2SF PrimFloat.nan) with S754_nan. reflexivity.
Qed.

Lemma float_div_NaN (x : float) : PrimFloat.div x PrimFloat.nan = PrimFloat.nan.
Proof.
  apply Prim2SF_inj. rewrite div_spec.
  change (Prim2SF PrimFloat.nan) with S754_nan.
  unfold SF64div, SFdiv. now destruct (Prim2SF x) as [[|]|[|]| |[|] m e].
Qed.

Lemma float_NaN_mul (x : float) : PrimFloat.mul PrimFloat.nan x = PrimFloat.nan.
Proof.
  apply Prim2SF_inj. rewrite mul_spec.
  change (Prim2SF PrimFloat.nan) with S754_nan. reflexivity.
Qed.

Lemma float_NaN_ltb (x : float) :
  PrimFloat.ltb PrimFloat.nan x = false /\ PrimFloat.ltb x PrimFloat.nan = false.
Proof.
  rewrite !ltb_spec. change (Prim2SF PrimFloat.nan) with S754_nan.
  unfold SFltb. split; [reflexivity|].
  now destruct (Prim2SF x) as [[|]|[|]| |[|] m e].
Qed.

Lemma getTrend_NaN (recent : float) (direction : DashboardService.Direction) :
  DashboardService.getTrend recent Statistics.NaN direction = DashboardService.worsening.
Proof.
  unfold DashboardService.getTrend. cbv zeta.
  change (Statistics.NaN (num := float)) with PrimFloat.nan.
  change (@nsub float _) with PrimFloat.sub. change (@ndiv float _) with PrimFloat.div.
  change (@nmul float _) with PrimFloat.mul. change (@nltb float _) with PrimFloat.ltb.
  change (@Math_abs float _) with PrimFloat.abs.
  rewrite float_div_NaN, float_NaN_mul.
  change (PrimFloat.abs PrimFloat.nan) with PrimFloat.nan.
  destruct (float_NaN_ltb (lit 5 0)) as [H5 _].
  destruct (float_NaN_ltb (lit 0 0)) as [H0 H0'].
  rewrite H5. destruct direction; [rewrite H0'|rewrite H0]; reflexivity.
Qed.

(** X25: when the previous value is NaN, as the average of an
    empty window is, [getTrend] answers 'worsening' in both directions,
    whatever the recent value. *)
Theorem getTrend_previous_NaN (recent : float) (direction : DashboardService.Direction) :
  DashboardService.getTrend recent Statistics.NaN direction = DashboardService.worsening.
Proof. apply getTrend_NaN. Qed.

Lemma slice_between_short {A : Type} (l : list A) :
  (List.length l <= 14)%nat -> slice_between 28 14 l = [].
Proof.
  intros Hlen. unfold slice_between. cbv zeta.
  replace (List.length l - 14)%nat with 0%nat by lia. reflexivity.
Qed.

(** X26: a table with at most 14 rows leaves the previous
    window of [analyzeRecentTrends] empty, its average is 0 / 0, and the
    trend read off that table is 'worsening', whatever the rows hold. *)
Theorem analyzeRecentTrends_short_history
    (production_data : list (DailyProduction.t float))
    (pickup_data : list (PickupOperation.t float))
    (impact_data : list (ImpactTracking.t float)) :
  let trends := DashboardService.analyzeRecentTrends production_data pickup_data impact_data in
  ((List.length production_data <= 14)%nat ->
   DashboardService.waste_trend trends = DashboardService.worsening)
  /\ ((List.length pickup_data <= 14)%nat ->
      DashboardService.pickup_efficiency_trend trends = DashboardService.worsening)
  /\ ((List.length impact_data <= 14)%nat ->
      DashboardService.cost_savings_trend trends = DashboardService.worsening).
Proof.
  cbv zeta. unfold DashboardService.analyzeRecentTrends. cbv zeta.
  cbn [DashboardService.waste_trend DashboardService.pickup_efficiency_trend
       DashboardService.cost_savings_trend].
  repeat split; intros Hlen; rewrite (slice_between_short _ Hlen);
    apply getTrend_NaN.
Qed.

Lemma analyzeRecentTrends_short_history_witness :
  let trends :=
    DashboardService.analyzeRecentTrends (num := float) soup_history [] impact_history in
  DashboardService.waste_trend trends = DashboardService.worsening
  /\ DashboardService.pickup_efficiency_trend trends = DashboardService.worsening.
Proof.
  destruct (analyzeRecentTrends_short_history soup_history [] impact_history)
    as (Hwaste & Hpickup & _).
  cbv zeta. split; [apply Hwaste|apply Hpickup]; vm_compute; lia.
Defined.
(* ================================================================== *)
(** * The statistics toolkit *)
(* ================================================================== *)

Section SeriesTools.
Context {num : Type} `{JSNumber num}.

(** X27: [movingAverage] returns as many entries as the
    series has, and the entries before index [window - 1] are those of the
    series. *)
Theorem movingAverage_length_and_head (data : list num) (window : nat) :
  List.length (StatisticsTools.movingAverage data window) = List.length data
  /\ firstn (window - 1) (StatisticsTools.movingAverage data window)
     = firstn (window - 1) data.
Proof.
  unfold StatisticsTools.movingAverage. split; [now rewrite length_map, length_seq|].
  apply nth_error_ext. intros i.
  destruct (Nat.lt_ge_cases i (window - 1)) as [Hi|Hi].
  - rewrite !nth_error_firstn.
    assert (Hlt : (i <? window - 1)%nat = true) by now apply Nat.ltb_lt.
    rewrite Hlt. rewrite nth_error_map.
    destruct (Nat.lt_ge_cases i (List.length data)) as [Hd|Hd].
    + rewrite nth_error_seq.
      assert (Hlt' : (i <? List.length data)%nat = true) by now apply Nat.ltb_lt.
      rewrite Hlt'. cbn [option_map Nat.add].
      assert (Hw : (S i <? window)%nat = true) by (apply Nat.ltb_lt; lia).
      rewrite Hw. symmetry. now apply nth_error_nth'.
    + rewrite nth_error_seq.
      assert (Hge : (i <? List.length data)%nat = false) by now apply Nat.ltb_ge.
      rewrite Hge. cbn [option_map]. symmetry. now apply nth_error_None.
  - rewrite !nth_error_firstn.
    assert (Hge : (i <? window - 1)%nat = false) by now apply Nat.ltb_ge.
    now rewrite Hge.
Qed.

Lemma collect_outliers_spec (lowerBound upperBound : num) (data : list num) :
  forall (index : nat) (before : list num),
    List.length before = index ->
    let '(outliers, indices) :=
      StatisticsTools.collect_outliers lowerBound upperBound index data in
    outliers = map (fun i => nth i (before ++ data) Statistics.NaN) indices
    /\ Forall (fun i => (index <= i < index + List.length data)%nat) indices
    /\ StronglySorted lt indices.
Proof.
  induction data as [|value rest IH]; intros index before Hlen.
  - cbn [StatisticsTools.collect_outliers map]. repeat split; constructor.
  - cbn [StatisticsTools.collect_outliers].
    specialize (IH (S index) (before ++ [value])).
    rewrite length_app, Hlen in IH. cbn [List.length] in IH.
    specialize (IH ltac:(lia)).
    destruct (StatisticsTools.collect_outliers lowerBound upperBound (S index) rest)
      as [outliers indices].
    rewrite <- app_assoc in IH. cbn [app] in IH.
    destruct IH as (Hout & Hrange & Hsorted).
    destruct (_ || _)%bool.
    + split; [|split].
      * cbn [map]. f_equal; [|exact Hout].
        rewrite app_nth2 by lia. now rewrite Hlen, Nat.sub_diag.
      * constructor; [cbv beta; cbn [List.length]; lia|].
        eapply Forall_impl; [|exact Hrange]. cbv beta. cbn [List.length]. intros i Hi. lia.
      * constructor; [exact Hsorted|].
        eapply Forall_impl; [|exact Hrange]. cbv beta. intros i Hi. lia.
    + split; [exact Hout|split; [|exact Hsorted]].
      eapply Forall_impl; [|exact Hrange]. cbv beta. cbn [List.length]. intros i Hi. lia.
Qed.

(** X28: [detectOutliers] returns the outliers in the
    order of the data together with their indices: the indices increase,
    lie within the data, and the k-th outlier is the entry at the k-th
    index. *)
Theorem detectOutliers_indices (data : list num) :
  let '(outliers, indices) := StatisticsTools.detectOutliers data in
  outliers = map (fun i => nth i data Statistics.NaN) indices
  /\ Forall (fun i => (i < List.length data)%nat) indices
  /\ StronglySorted lt indices.
Proof.
  unfold StatisticsTools.detectOutliers. cbv zeta.
  match goal with
  | |- context [StatisticsTools.collect_outliers ?lo ?hi 0 data] =>
      pose proof (@collect_outliers_spec lo hi data 0 [] eq_refl) as Hspec;
      destruct (StatisticsTools.collect_outliers lo hi 0 data) as [outliers indices]
  end.
  destruct Hspec as (Hout & Hrange & Hsorted). cbn [app] in Hout.
  split; [exact Hout|split; [|exact Hsorted]].
  eapply Forall_impl; [|exact Hrange]. cbv beta. intros i Hi. lia.
Qed.
End SeriesTools.

Section ExactSummary.
Local Open Scope R_scope.

Lemma ascending_exact (a b : R) : StatisticsTools.ascending a b = true <-> b < a.
Proof.
  unfold StatisticsTools.ascending. cbn [nltb nsub num_of_Z R_JSNumber].
  unfold Rltb. destruct (Rlt_dec 0 (a - b)); split; intros; try reflexivity;
    try discriminate; lra.
Qed.

Lemma sort_insert_sorted (x : R) (l : list R) :
  Sorted Rle l -> Sorted Rle (sort_insert StatisticsTools.ascending x l).
Proof.
  induction l as [|y l IH]; intros Hl; [repeat constructor|].
  cbn [sort_insert]. destruct (StatisticsTools.ascending x y) eqn:E.
  - apply ascending_exact in E. inversion Hl as [|? ? Hl' Hhd]; subst.
    constructor; [now apply IH|].
    destruct l as [|z l]; cbn [sort_insert].
    + constructor. lra.
    + destruct (StatisticsTools.ascending x z); constructor;
        [now inversion Hhd|lra].
  - constructor; [exact Hl|]. constructor.
    destruct (Rlt_dec y x) as [Hlt|Hge]; [|lra].
    apply ascending_exact in Hlt. congruence.
Qed.

Lemma js_sort_sorted (l : list R) :
  StronglySorted Rle (js_sort StatisticsTools.ascending l).
Proof.
  apply Sorted_StronglySorted; [intros a b c; apply Rle_trans|].
  induction l as [|x l IH]; [constructor|].
  cbn [js_sort]. now apply sort_insert_sorted.
Qed.

Lemma sorted_nth_le (l : list R) :
  StronglySorted Rle l ->
  forall (i j : nat) (a b : R),
    (i <= j)%nat -> nth_error l i = Some a -> nth_error l j = Some b -> a <= b.
Proof.
  induction 1 as [|x l Hl IH Hx]; intros i j a b Hij Ha Hb; [now destruct i|].
  destruct i as [|i], j as [|j]; cbn [nth_error] in Ha, Hb.
  - injection Ha as <-. injection Hb as <-. lra.
  - injection Ha as <-. apply nth_error_In in Hb.
    rewrite Forall_forall in Hx. now apply Hx.
  - lia.
  - eapply IH; [|exact Ha|exact Hb]. lia.
Qed.

Lemma quartiles_ordered (data : list R) :
  data <> [] ->
  exists lower middle upper,
    StatisticsTools.q1 (StatisticsTools.summary data) = Some lower
    /\ StatisticsTools.median (StatisticsTools.summary data) = Some middle
    /\ StatisticsTools.q3 (StatisticsTools.summary data) = Some upper
    /\ In lower data /\ In middle data /\ In upper data
    /\ lower <= middle <= upper.
Proof.
  intros Hne. unfold StatisticsTools.summary. cbv zeta.
  cbn [StatisticsTools.q1 StatisticsTools.median StatisticsTools.q3].
  set (sorted := js_sort StatisticsTools.ascending data).
  assert (Hperm : Permutation sorted data) by apply js_sort_perm.
  assert (Hlen : List.length sorted = List.length data)
    by now apply Permutation_length.
  assert (Hn : (0 < List.length data)%nat) by (destruct data; [contradiction|simpl; lia]).
  set (n := List.length data) in *.
  assert (H4 : (n / 4 <= n / 2)%nat)
    by (apply Nat.div_le_compat_l; lia).
  assert (H2 : (n / 2 < n)%nat) by (apply Nat.div_lt; lia).
  assert (H3 : (3 * n / 4 < n)%nat)
    by (apply Nat.Div0.div_lt_upper_bound; lia).
  assert (H23 : (n / 2 <= 3 * n / 4)%nat).
  { apply Nat.div_le_lower_bound; [lia|].
    pose proof (Nat.Div0.mul_div_le n 2). lia. }
  destruct (nth_error sorted (n / 4)) as [lower|] eqn:E1;
    [|apply nth_error_None in E1; lia].
  destruct (nth_error sorted (n / 2)) as [middle|] eqn:E2;
    [|apply nth_error_None in E2; lia].
  destruct (nth_error sorted (3 * n / 4)) as [upper|] eqn:E3;
    [|apply nth_error_None in E3; lia].
  exists lower, middle, upper.
  pose proof (js_sort_sorted data) as Hs. fold sorted in Hs.
  repeat split;
    try (eapply Permutation_in; [exact Hperm|eapply nth_error_In; eassumption]).
  - exact (sorted_nth_le Hs H4 E1 E2).
  - exact (sorted_nth_le Hs H23 E2 E3).
Qed.

(** X29: in exact arithmetic the summary of a non-empty sample
    takes its first quartile, median and third quartile among the entries
    of the sample, in this order. *)
Theorem summary_quartiles_ordered (data : list R) :
  data <> [] ->
  exists lower middle upper,
    StatisticsTools.q1 (StatisticsTools.summary data) = Some lower
    /\ StatisticsTools.median (StatisticsTools.summary data) = Some middle
    /\ StatisticsTools.q3 (StatisticsTools.summary data) = Some upper
    /\ In lower data /\ In middle data /\ In upper data
    /\ lower <= middle <= upper.
Proof. apply quartiles_ordered. Qed.

Lemma collect_outliers_outside (lowerBound upperBound : R) (data : list R) :
  forall index : nat,
    Forall (fun v => v < lowerBound \/ upperBound < v)
           (fst (StatisticsTools.collect_outliers lowerBound upperBound index data)).
Proof.
  induction data as [|value rest IH]; intros index; [constructor|].
  cbn [StatisticsTools.collect_outliers]. specialize (IH (S index)).
  destruct (StatisticsTools.collect_outliers lowerBound upperBound (S index) rest)
    as [outliers indices].
  cbn [fst] in IH.
  destruct (_ || _)%bool eqn:E; cbn [fst]; [|exact IH].
  constructor; [|exact IH].
  apply orb_prop in E. cbn [nltb R_JSNumber] in E. unfold Rltb in E.
  destruct E as [E|E]; [left|right];
    match type of E with (if ?d then _ else _) = _ => destruct d end;
    try discriminate; assumption.
Qed.

(** X30: in exact arithmetic every outlier
    of a non-empty sample lies below the first or above the third
    quartile by more than one and a half times their distance. *)
Theorem detectOutliers_outside_quartiles (data : list R) :
  data <> [] ->
  exists lower upper,
    StatisticsTools.q1 (StatisticsTools.summary data) = Some lower
    /\ StatisticsTools.q3 (StatisticsTools.summary data) = Some upper
    /\ lower <= upper
    /\ Forall (fun v => v < lower - 15 / 10 * (upper - lower)
                        \/ upper + 15 / 10 * (upper - lower) < v)
              (fst (StatisticsTools.detectOutliers data)).
Proof.
  intros Hne.
  destruct (quartiles_ordered Hne)
    as (lower & middle & upper & H1 & _ & H3 & _ & _ & _ & Hle).
  exists lower, upper. repeat split; try assumption; [lra|].
  unfold StatisticsTools.detectOutliers. cbv zeta. rewrite H1, H3.
  cbn [StatisticsTools.number_of].
  apply collect_outliers_outside.
Qed.
End ExactSummary.

Lemma summary_quartiles_ordered_witness :
  exists lower middle upper,
    StatisticsTools.q1 (StatisticsTools.summary (num := R) [4; 1; 3; 2]%R) = Some lower
    /\ StatisticsTools.median (StatisticsTools.summary (num := R) [4; 1; 3; 2]%R)
       = Some middle
    /\ StatisticsTools.q3 (StatisticsTools.summary (num := R) [4; 1; 3; 2]%R) = Some upper
    /\ In lower [4; 1; 3; 2]%R /\ In middle [4; 1; 3; 2]%R /\ In upper [4; 1; 3; 2]%R
    /\ (lower <= middle <= upper)%R.
Proof.
  apply (@summary_quartiles_ordered [4; 1; 3; 2]%R). discriminate.
Defined.

Lemma detectOutliers_outside_quartiles_witness :
  exists lower upper,
    StatisticsTools.q1 (StatisticsTools.summary (num := R) [4; 1; 3; 2]%R) = Some lower
    /\ StatisticsTools.q3 (StatisticsTools.summary (num := R) [4; 1; 3; 2]%R) = Some upper
    /\ (lower <= upper)%R
    /\ Forall (fun v => (v < lower - 15 / 10 * (upper - lower)
                         \/ upper + 15 / 10 * (upper - lower) < v)%R)
              (fst (StatisticsTools.detectOutliers (num := R) [4; 1; 3; 2]%R)).
Proof.
  apply (@detectOutliers_outside_quartiles [4; 1; 3; 2]%R). discriminate.
Defined.
